(** * atproto-annotations: the creation / publication pipeline

    A shallow embedding of
      - [src/modules/annotations/domain/value-objects/URI.ts],
      - [src/modules/atproto/domain/ATUri.ts],
      - [src/modules/annotations/domain/aggregates/Annotation.ts],
      - [ATProtoAnnotationsFromTemplatePublisher] (publish / unpublish),
      - [CreateAndPublishAnnotationsFromTemplateUseCase.execute],
    followed by the properties of the specification that are stated about
    them.  TypeScript objects that are mutated in place are modelled by
    explicit state passing; [try]/[catch] and thrown exceptions by the
    [Completion] type; the [Result] of [src/shared/core/Result] by [Result].

    Classes that the sources import but that are not part of the modelled
    files (the annotation value hierarchy, identifiers, the ledger client,
    the repositories) appear as the interfaces [Platform], [DIDClass],
    [Domain], [Ledger] and [Collaborators]. *)

From Stdlib Require Import String Ascii List Bool Arith Lia.
From stdpp Require Import base option list strings gmap.

Import ListNotations.
Local Open Scope string_scope.
Local Open Scope list_scope.

(** ** Part I.  Definitions *)

(** *** Results and completions *)

(** [Result<T, E>]: [ok(value)] or [err(error)]. *)
Inductive Result (T E : Type) : Type :=
| ok (value : T)
| err (error : E).
Arguments ok {T E} value.
Arguments err {T E} error.

Definition isOk {T E} (r : Result T E) : bool :=
  match r with ok _ => true | err _ => false end.

Definition isErr {T E} (r : Result T E) : bool :=
  match r with ok _ => false | err _ => true end.

(** A JavaScript [Error]: only its [message] is observed. *)
Record Error : Type := mkError { message : string }.

(** How an expression completes: normally with a value, or by throwing. *)
Inductive Completion (A : Type) : Type :=
| Normal (a : A)
| Thrown (e : Error).
Arguments Normal {A} a.
Arguments Thrown {A} e.

(** *** JavaScript strings *)

Module JS.

(** [!s] for a string-or-undefined: [undefined] and [""] are falsy. *)
Definition falsy (s : option string) : bool :=
  match s with
  | None => true
  | Some v => String.eqb v ""
  end.

(** [s.startsWith(p)]. *)
Definition startsWith (p s : string) : bool := String.prefix p s.

(** [s.split(sep)] for a one-character separator, on the characters of
    [s]; [cur] holds the characters of the current segment, reversed. *)
Fixpoint splitAux (sep : ascii) (cur : list ascii) (s : list ascii)
  : list string :=
  match s with
  | [] => [string_of_list_ascii (rev cur)]
  | c :: rest =>
      if Ascii.eqb c sep
      then string_of_list_ascii (rev cur) :: splitAux sep [] rest
      else splitAux sep (c :: cur) rest
  end.

Definition split (sep : ascii) (s : string) : list string :=
  splitAux sep [] (list_ascii_of_string s).

End JS.

(** *** Regular expressions

    The fragment of JavaScript regular expressions used by [URI.ts]:
    literals, character classes, concatenation and [+].  Matching is by
    derivatives; [test] is the unanchored search of [RegExp.prototype.test]
    (no flags, so no [lastIndex]). *)

Module RegExp.

Inductive t : Type :=
| Never
| Epsilon
| Class (p : ascii -> bool)
| Seq (r1 r2 : t)
| Alt (r1 r2 : t)
| Star (r : t).

Definition Plus (r : t) : t := Seq r (Star r).

Definition Char (c : ascii) : t := Class (Ascii.eqb c).

Fixpoint Literal (s : list ascii) : t :=
  match s with
  | [] => Epsilon
  | c :: rest => Seq (Char c) (Literal rest)
  end.

Definition Any : t := Class (fun _ => true).

Fixpoint nullable (r : t) : bool :=
  match r with
  | Never => false
  | Epsilon => true
  | Class _ => false
  | Seq r1 r2 => nullable r1 && nullable r2
  | Alt r1 r2 => nullable r1 || nullable r2
  | Star _ => true
  end.

Fixpoint deriv (c : ascii) (r : t) : t :=
  match r with
  | Never => Never
  | Epsilon => Never
  | Class p => if p c then Epsilon else Never
  | Seq r1 r2 =>
      if nullable r1
      then Alt (Seq (deriv c r1) r2) (deriv c r2)
      else Seq (deriv c r1) r2
  | Alt r1 r2 => Alt (deriv c r1) (deriv c r2)
  | Star r1 => Seq (deriv c r1) (Star r1)
  end.

(** The whole of [s] matches [r]. *)
Fixpoint fullMatch (r : t) (s : list ascii) : bool :=
  match s with
  | [] => nullable r
  | c :: rest => fullMatch (deriv c r) rest
  end.

(** [r.test(s)]: some substring of [s] matches [r]. *)
Definition test (r : t) (s : string) : bool :=
  fullMatch (Seq (Star Any) (Seq r (Star Any))) (list_ascii_of_string s).

(** The language of a regular expression. *)
Inductive Matches : t -> list ascii -> Prop :=
| MEpsilon : Matches Epsilon []
| MClass p c : p c = true -> Matches (Class p) [c]
| MSeq r1 r2 s1 s2 :
    Matches r1 s1 -> Matches r2 s2 -> Matches (Seq r1 r2) (s1 ++ s2)
| MAltL r1 r2 s : Matches r1 s -> Matches (Alt r1 r2) s
| MAltR r1 r2 s : Matches r2 s -> Matches (Alt r1 r2) s
| MStarNil r : Matches (Star r) []
| MStarCons r s1 s2 :
    Matches r s1 -> Matches (Star r) s2 -> Matches (Star r) (s1 ++ s2).

End RegExp.

(** *** Character classes of the AT-URI pattern *)

Definition inRange (lo hi c : ascii) : bool :=
  Ascii.leb lo c && Ascii.leb c hi.

(** [[a-zA-Z0-9]] *)
Definition isAlnum (c : ascii) : bool :=
  inRange "a" "z" c || inRange "A" "Z" c || inRange "0" "9" c.

(** [[a-zA-Z0-9.-]] *)
Definition isAuthorityChar (c : ascii) : bool :=
  isAlnum c || Ascii.eqb c "." || Ascii.eqb c "-".

(** [[a-zA-Z0-9.]] *)
Definition isCollectionChar (c : ascii) : bool :=
  isAlnum c || Ascii.eqb c ".".

(** *** The platform *)

(** [new URL(value)] is the platform's URL parser, not code of the
    repository: [parsesAsURL value] says that it returns instead of
    throwing. *)
Class Platform : Type := {
  parsesAsURL : string -> bool
}.

(** *** value-objects/URI.ts *)

Module URI.

Record t : Type := mk { value : string }.

(** [/at:\/\/[a-zA-Z0-9.-]+\/[a-zA-Z0-9.]+\/[a-zA-Z0-9]+/] *)
Definition atUriPattern : RegExp.t :=
  RegExp.Seq (RegExp.Literal (list_ascii_of_string "at://"))
    (RegExp.Seq (RegExp.Plus (RegExp.Class isAuthorityChar))
       (RegExp.Seq (RegExp.Char "/")
          (RegExp.Seq (RegExp.Plus (RegExp.Class isCollectionChar))
             (RegExp.Seq (RegExp.Char "/")
                (RegExp.Plus (RegExp.Class isAlnum)))))).

Section WithPlatform.
Context `{Platform}.

(** The constructor: [new URI(value)]. *)
Definition new (value : string) : Completion t :=
  if parsesAsURL value then Normal (mk value)
  else if JS.startsWith "at://" value then
    if negb (RegExp.test atUriPattern value)
    then Thrown (mkError ("Invalid AT URI format: " ++ value))
    else Normal (mk value)
  else Thrown (mkError ("Invalid URI format: " ++ value)).

(** The [catch] block of [create]. *)
Definition createFallback (value : string) : Completion (Result t Error) :=
  if JS.startsWith "at://" value then
    if negb (RegExp.test atUriPattern value)
    then Normal (err (mkError ("Invalid AT URI format: " ++ value)))
    else
      match new value with
      | Normal u => Normal (ok u)
      | Thrown e => Thrown e
      end
  else Normal (err (mkError ("Invalid URI format: " ++ value))).

(** [URI.create(value)]: the [try] block parses the value and builds the
    object; anything thrown inside it lands in the [catch] block. *)
Definition create (value : string) : Completion (Result t Error) :=
  if parsesAsURL value then
    match new value with
    | Normal u => Normal (ok u)
    | Thrown _ => createFallback value
    end
  else createFallback value.

End WithPlatform.

Definition equals (a b : t) : bool := String.eqb (value a) (value b).
Definition toString (a : t) : string := value a.

End URI.


(** *** Identifiers and small value objects

    [UniqueEntityID] wraps the string of an entity id; the typed ids wrap a
    [UniqueEntityID] and expose it through [getStringValue]. *)

Definition UniqueEntityID : Type := string.

Module AnnotationId.
Record t : Type := mk { getValue : UniqueEntityID }.
Definition getStringValue (i : t) : string := getValue i.
End AnnotationId.

Module AnnotationFieldId.
Record t : Type := mk { getValue : UniqueEntityID }.
Definition getStringValue (i : t) : string := getValue i.
Definition equals (a b : t) : bool := String.eqb (getValue a) (getValue b).
End AnnotationFieldId.

Module AnnotationTemplateId.
Record t : Type := mk { getValue : UniqueEntityID }.
Definition getStringValue (i : t) : string := getValue i.
End AnnotationTemplateId.

Module CuratorId.
Record t : Type := mk { value : string }.
Definition equals (a b : t) : bool := String.eqb (value a) (value b).
End CuratorId.

(** The ledger coordinate of a written record; [create] is the name of
    its factory, [getValue] returns the pair. *)
Module PublishedRecordId.
Record t : Type := create { uri : string; cid : string }.
Definition getValue (r : t) : t := r.
End PublishedRecordId.

(** *** atproto/domain/ATUri.ts *)

(** [DID] is imported by [ATUri.ts] from a file that is not among the
    sources: its constructor may throw, and [toString] projects the string. *)
Class DIDClass : Type := {
  DID : Type;
  DID_new : string -> Completion DID;
  DID_toString : DID -> string
}.

Module ATUri.
Section WithDID.
Context `{DIDClass}.

Record t : Type := mk {
  value : string;
  did : DID;
  collection : string;
  rkey : string
}.

(** [new ATUri(uri)]: five [/]-separated parts, else "Invalid AT URI". *)
Definition new (uri : string) : Completion t :=
  let parts := JS.split "/" uri in
  if negb (Nat.eqb (length parts) 5) then Thrown (mkError "Invalid AT URI")
  else
    match DID_new (nth 2 parts "") with
    | Thrown e => Thrown e
    | Normal d => Normal (mk uri d (nth 3 parts "") (nth 4 parts ""))
    end.

End WithDID.
End ATUri.

(** Modelled from the spec: [StrongRef] (imported by the publisher from
    [../domain], not among the sources) pairs a record's uri and cid, and
    its [atUri] accessor is the record's uri parsed by the [ATUri]
    constructor ("addressed by a record key derived from the record's
    uri"). *)
Module StrongRef.
Section WithDID.
Context `{DIDClass}.

Record t : Type := new { uri : string; cid : string }.

Definition ofRecord (r : PublishedRecordId.t) : t :=
  new (PublishedRecordId.uri r) (PublishedRecordId.cid r).

Definition atUri (s : t) : Completion ATUri.t := ATUri.new (uri s).

End WithDID.
End StrongRef.

(** *** The annotation domain classes that [Annotation.ts] imports *)

(** [AnnotationField], [AnnotationValue], [AnnotationNote] and [Date] are
    used by [Annotation.ts] through the operations below only. *)
Class Domain : Type := {
  AnnotationType : Type;
  AnnotationField : Type;
  AnnotationValue : Type;
  AnnotationNote : Type;
  Date : Type;
  (** [annotationField.fieldId] *)
  fieldId : AnnotationField -> AnnotationFieldId.t;
  (** [annotationField.definition.type] and its [.value] *)
  definitionType : AnnotationField -> AnnotationType;
  typeValue : AnnotationType -> string;
  (** [value.isSameType(other)] *)
  isSameType : AnnotationValue -> AnnotationValue -> bool;
  (** [value.matchesFieldType(field)] *)
  matchesFieldType : AnnotationValue -> AnnotationField -> bool;
  (** how [Guard] words the absence of the argument of a given name *)
  missingArgument : string -> string
}.

(** Modelled from the spec: [Guard.againstNullOrUndefinedBulk]
    ([src/shared/core/Guard] is not among the sources) checks the
    arguments in the order given and "fails with a missing argument error
    naming the first absent field". *)
Module Guard.

Record IGuardArgument : Type := mkArg {
  present : bool;          (* the argument is neither null nor undefined *)
  argumentName : string
}.

Section WithDomain.
Context `{Domain}.

Fixpoint againstNullOrUndefinedBulk (args : list IGuardArgument)
  : Result unit string :=
  match args with
  | [] => ok tt
  | a :: rest =>
      if present a then againstNullOrUndefinedBulk rest
      else err (missingArgument (argumentName a))
  end.

End WithDomain.
End Guard.

(** *** annotations/domain/aggregates/Annotation.ts *)

Module UpdateAnnotationErrors.
Inductive t : Type := InvalidValueTypeError.
End UpdateAnnotationErrors.

Module Annotation.
Section WithDomain.
Context `{Domain}.

Record AnnotationProps : Type := mkProps {
  curatorId : CuratorId.t;
  url : URI.t;
  annotationField : AnnotationField;
  value : AnnotationValue;
  annotationTemplateIds : option (list AnnotationTemplateId.t);
  note : option AnnotationNote;
  createdAt : option Date;
  publishedRecordId : option PublishedRecordId.t
}.

(** The [props] argument of [create] as the runtime sees it: the four
    members that the interface declares mandatory can still be [null] or
    [undefined], which is what the guard looks for. *)
Record AnnotationPropsArg : Type := mkArg {
  arg_curatorId : option CuratorId.t;
  arg_url : option URI.t;
  arg_annotationField : option AnnotationField;
  arg_value : option AnnotationValue;
  arg_annotationTemplateIds : option (list AnnotationTemplateId.t);
  arg_note : option AnnotationNote;
  arg_createdAt : option Date;
  arg_publishedRecordId : option PublishedRecordId.t
}.

(** An aggregate: the entity id of [AggregateRoot] and the props. *)
Record t : Type := mk { _id : UniqueEntityID; props : AnnotationProps }.

Definition annotationId (a : t) : AnnotationId.t := AnnotationId.mk (_id a).

Definition annotationFieldId (a : t) : AnnotationFieldId.t :=
  fieldId (annotationField (props a)).

Definition withPublishedRecordId (p : AnnotationProps)
  (r : option PublishedRecordId.t) : AnnotationProps :=
  mkProps (curatorId p) (url p) (annotationField p) (value p)
    (annotationTemplateIds p) (note p) (createdAt p) r.

Definition withValue (p : AnnotationProps) (v : AnnotationValue)
  : AnnotationProps :=
  mkProps (curatorId p) (url p) (annotationField p) v
    (annotationTemplateIds p) (note p) (createdAt p) (publishedRecordId p).

(** [this.props.publishedRecordId = publishedRecordId] *)
Definition updatePublishedRecordId (a : t) (r : PublishedRecordId.t) : t :=
  mk (_id a) (withPublishedRecordId (props a) (Some r)).

Definition markAsPublished (a : t) (r : PublishedRecordId.t) : t :=
  mk (_id a) (withPublishedRecordId (props a) (Some r)).

(** [updateValue(value)]: the result and the annotation afterwards. *)
Definition updateValue (a : t) (v : AnnotationValue)
  : Result unit UpdateAnnotationErrors.t * t :=
  if negb (isSameType (value (props a)) v)
  then (err UpdateAnnotationErrors.InvalidValueTypeError, a)
  else (ok tt, mk (_id a) (withValue (props a) v)).

Definition guardArgs (p : AnnotationPropsArg) : list Guard.IGuardArgument :=
  [ Guard.mkArg (bool_decide (is_Some (arg_curatorId p))) "curatorId";
    Guard.mkArg (bool_decide (is_Some (arg_url p))) "url";
    Guard.mkArg (bool_decide (is_Some (arg_annotationField p)))
      "annotationField";
    Guard.mkArg (bool_decide (is_Some (arg_value p))) "value" ].

(** [Annotation.create(props, id)].  [fresh] is the id that
    [new UniqueEntityID()] yields when [id] is not given, [now] the value
    of [new Date()].  Past the guard the four mandatory members are
    present; the last branch is the [TypeError] that reading a member of
    an absent one would raise. *)
Definition create (p : AnnotationPropsArg) (id : option UniqueEntityID)
  (fresh : UniqueEntityID) (now : Date) : Completion (Result t Error) :=
  match Guard.againstNullOrUndefinedBulk (guardArgs p) with
  | err e => Normal (err (mkError e))
  | ok _ =>
      match arg_curatorId p, arg_url p, arg_annotationField p, arg_value p with
      | Some c, Some u, Some f, Some v =>
          if negb (matchesFieldType v f)
          then Normal (err (mkError "Value does not match field type"))
          else
            let defaultValues :=
              mkProps c u f v
                (Some (default [] (arg_annotationTemplateIds p)))
                (arg_note p)
                (Some (default now (arg_createdAt p)))
                (arg_publishedRecordId p) in
            Normal (ok (mk (default fresh id) defaultValues))
      | _, _, _, _ =>
          Thrown (mkError "Cannot read properties of undefined")
      end
  end.

End WithDomain.
End Annotation.

(** *** Templates and the batch aggregate *)

(** Modelled from the spec: [AnnotationTemplate] (not among the sources) is
    "an ordered list of (field, required flag)" that "exposes its field
    list for batch validation". *)
Module AnnotationTemplate.
Section WithDomain.
Context `{Domain}.

Record TemplateField : Type := mkField {
  field : AnnotationField;
  required : bool
}.

Record t : Type := mk {
  templateId : AnnotationTemplateId.t;
  annotationFields : list TemplateField
}.

End WithDomain.
End AnnotationTemplate.

Module AnnotationsFromTemplate.
Section WithDomain.
Context `{Domain}.

Record t : Type := mk {
  annotations : list Annotation.t;
  template : AnnotationTemplate.t;
  curatorId : CuratorId.t;
  createdAt : Date
}.

(** Why [create] refused a batch. *)
Inductive CreateError : Type :=
| CuratorMismatch
| DuplicateFields
| MissingRequiredFields (missing : list AnnotationFieldId.t).

Definition fieldIdString (a : Annotation.t) : string :=
  AnnotationFieldId.getStringValue (Annotation.annotationFieldId a).

(** The field ids that the annotations of a batch refer to. *)
Definition referencedFieldIds (annotations : list Annotation.t)
  : list string :=
  map fieldIdString annotations.

Definition sameCurator (c : CuratorId.t) (a : Annotation.t) : bool :=
  CuratorId.equals (Annotation.curatorId (Annotation.props a)) c.

(** A template field has a corresponding annotation in the batch. *)
Definition covered (annotations : list Annotation.t)
  (f : AnnotationTemplate.TemplateField) : bool :=
  existsb
    (fun a => AnnotationFieldId.equals (Annotation.annotationFieldId a)
                (fieldId (AnnotationTemplate.field f)))
    annotations.

Definition missingRequired (tpl : AnnotationTemplate.t)
  (annotations : list Annotation.t) : list AnnotationFieldId.t :=
  map (fun f => fieldId (AnnotationTemplate.field f))
    (List.filter
       (fun f => AnnotationTemplate.required f && negb (covered annotations f))
       (AnnotationTemplate.annotationFields tpl)).

(** Modelled from the spec: [AnnotationsFromTemplate.create] (the
    aggregate is imported by the use case and the publisher but is not
    among the sources) "validates, in order: (1) every annotation's
    curatorId equals the batch curatorId, else fails; (2) the set of field
    ids referenced by the annotations contains no duplicates, else fails;
    (3) every field marked required on the template has a corresponding
    annotation in the batch, else fails naming the missing field(s)". *)
Definition create (props : t) : Result t CreateError :=
  if negb (forallb (sameCurator (curatorId props)) (annotations props))
  then err CuratorMismatch
  else if negb (bool_decide (NoDup (referencedFieldIds (annotations props))))
  then err DuplicateFields
  else
    match missingRequired (template props) (annotations props) with
    | [] => ok props
    | missing => err (MissingRequiredFields missing)
    end.

Definition annotationKey (a : Annotation.t) : string :=
  AnnotationId.getStringValue (Annotation.annotationId a).

(** Why [markAllAnnotationsAsPublished] refused a map. *)
Inductive MarkError : Type := MissingPublishedRecordId.

Definition markOne (idsByAnnotationId : gmap string PublishedRecordId.t)
  (a : Annotation.t) : Annotation.t :=
  match idsByAnnotationId !! annotationKey a with
  | Some r => Annotation.markAsPublished a r
  | None => a
  end.

(** Modelled from the spec: [markAllAnnotationsAsPublished] "requires the
    map to contain an entry for every annotation's id; if any is missing,
    fails without mutating any annotation (all-or-nothing check precedes
    all mutation); on success, calls each annotation's individual
    mark-published transition and returns success".  The batch is returned
    next to the result, as its annotations are mutated in place. *)
Definition markAllAnnotationsAsPublished (b : t)
  (idsByAnnotationId : gmap string PublishedRecordId.t)
  : Result unit MarkError * t :=
  if forallb
       (fun a => bool_decide (is_Some (idsByAnnotationId !! annotationKey a)))
       (annotations b)
  then (ok tt,
        mk (map (markOne idsByAnnotationId) (annotations b))
          (template b) (curatorId b) (createdAt b))
  else (err MissingPublishedRecordId, b).

End WithDomain.
End AnnotationsFromTemplate.

(** *** The ledger client *)

(** One write of an [applyWrites] request. *)
Inductive Write (Op : Type) : Type :=
| Create (op : Op)
| Delete (collection rkey : string).
Arguments Create {Op} op.
Arguments Delete {Op} collection rkey.

Record ApplyWritesRequest (Op : Type) : Type := mkRequest {
  repo : string;
  writes : list (Write Op);
  validate : bool
}.
Arguments mkRequest {Op} repo writes validate.
Arguments repo {Op} _.
Arguments writes {Op} _.
Arguments validate {Op} _.

(** One entry of [result.data.results]: its [$type], [uri] and [cid]. *)
Record WriteResult : Type := mkWriteResult {
  dollarType : string;
  uri : string;
  cid : string
}.

(** [result.data]: [results] may be absent. *)
Record ApplyWritesResponse : Type := mkResponse {
  results : option (list WriteResult)
}.

(** [AtpAgent] and [AnnotationsFromTemplateMapper] are not among the
    sources.  The mapper turns a batch into create operations; the agent's
    [com.atproto.repo.applyWrites] answers a request, or throws, and may
    change the ledger. *)
Class Ledger (D : Domain) : Type := {
  CreateOperation : Type;
  toCreateOperations :
    AnnotationsFromTemplate.t -> string -> list CreateOperation;
  LedgerState : Type;
  applyWrites :
    LedgerState -> ApplyWritesRequest CreateOperation ->
    LedgerState * Completion ApplyWritesResponse
}.

(** *** ATProtoAnnotationsFromTemplatePublisher *)

Module ATProtoAnnotationsFromTemplatePublisher.
Section WithLedger.
Context {D : Domain} {L : Ledger D} {I : DIDClass}.

(** The agent: the ledger behind it and the requests sent so far. *)
Record Agent : Type := mkAgent {
  ledger : LedgerState;
  sent : list (ApplyWritesRequest CreateOperation)
}.

Definition COLLECTION : string := "app.annos.annotation".

(** [await this.agent.com.atproto.repo.applyWrites(request)] *)
Definition call (request : ApplyWritesRequest CreateOperation) (w : Agent)
  : Completion ApplyWritesResponse * Agent :=
  let (ledger', answer) := applyWrites (ledger w) request in
  (answer, mkAgent ledger' (sent w ++ [request])).

Definition createResultType : string :=
  "com.atproto.repo.applyWrites#createResult".

(** The loop [for (let i = 0; i < annotations.length; i++)] of [publish],
    entered at index [i] with the annotations from [i] on. *)
Fixpoint mapResults (annotations : list Annotation.t) (i : nat)
  (createResults : list WriteResult)
  (publishedRecordIds : gmap string PublishedRecordId.t)
  : Result (gmap string PublishedRecordId.t) Error :=
  match annotations with
  | [] => ok publishedRecordIds
  | annotation :: rest =>
      let annotationId :=
        AnnotationId.getStringValue (Annotation.annotationId annotation) in
      match createResults !! i with
      | None =>
          err (mkError ("No create result found for annotation " ++ annotationId))
      | Some createResult =>
          if negb (String.eqb (dollarType createResult) createResultType)
          then
            err (mkError
                   ("No create result found for annotation " ++ annotationId))
          else
            let publishedRecordId :=
              PublishedRecordId.create (uri createResult) (cid createResult) in
            mapResults rest (S i) createResults
              (<[annotationId := publishedRecordId]> publishedRecordIds)
      end
  end.

(** The request that [publish] sends for a batch, under [curatorDid]. *)
Definition publishRequest (annotationsFromTemplate : AnnotationsFromTemplate.t)
  (curatorDid : string) : ApplyWritesRequest CreateOperation :=
  mkRequest curatorDid
    (map Create (toCreateOperations annotationsFromTemplate COLLECTION))
    false.

(** [publish(annotationsFromTemplate)]: the result and the agent after. *)
Definition publish (annotationsFromTemplate : AnnotationsFromTemplate.t)
  (w : Agent)
  : Result (gmap string PublishedRecordId.t) Error * Agent :=
  let annotations :=
    AnnotationsFromTemplate.annotations annotationsFromTemplate in
  let curatorDid :=
    (fun a => CuratorId.value (Annotation.curatorId (Annotation.props a)))
      <$> head annotations in
  if JS.falsy curatorDid
  then (err (mkError "No curator DID found in annotations"), w)
  else
    match call (publishRequest annotationsFromTemplate (default "" curatorDid)) w
    with
    | (Thrown error, w') => (err (mkError (message error)), w')
    | (Normal result, w') =>
        let createResults := default [] (results result) in
        (mapResults annotations 0 createResults ∅, w')
    end.

(** An entry of the per-repository groups of [unpublish]. *)
Record RecordRef : Type := mkRecordRef { rkey : string; ref_uri : string }.

(** [recordsByRepo]: a [Map], iterated in insertion order. *)
Definition RecordsByRepo : Type := list (string * list RecordRef).

(** [if (!m.has(repo)) m.set(repo, []); m.get(repo)?.push(record)] *)
Fixpoint pushRecord (repo : string) (record : RecordRef) (m : RecordsByRepo)
  : RecordsByRepo :=
  match m with
  | [] => [(repo, [record])]
  | (k, records) :: rest =>
      if String.eqb k repo then (k, records ++ [record]) :: rest
      else (k, records) :: pushRecord repo record rest
  end.

(** The first loop of [unpublish]: parse every uri and group by repo. *)
Fixpoint groupByRepo (recordIds : list PublishedRecordId.t)
  (recordsByRepo : RecordsByRepo) : Completion RecordsByRepo :=
  match recordIds with
  | [] => Normal recordsByRepo
  | recordId :: rest =>
      let publishedRecordId := PublishedRecordId.getValue recordId in
      let strongRef := StrongRef.ofRecord publishedRecordId in
      match StrongRef.atUri strongRef with
      | Thrown e => Thrown e
      | Normal atUri =>
          let repo := DID_toString (ATUri.did atUri) in
          let rkey := ATUri.rkey atUri in
          groupByRepo rest
            (pushRecord repo
               (mkRecordRef rkey (PublishedRecordId.uri publishedRecordId))
               recordsByRepo)
      end
  end.

(** The delete request for the records of one repo. *)
Definition deleteRequest (entry : string * list RecordRef)
  : ApplyWritesRequest CreateOperation :=
  mkRequest (fst entry)
    (map (fun record => Delete COLLECTION (rkey record)) (snd entry))
    false.

(** The second loop of [unpublish]: one request per repo, in order. *)
Fixpoint deleteEach (entries : RecordsByRepo) (w : Agent)
  : Completion unit * Agent :=
  match entries with
  | [] => (Normal tt, w)
  | entry :: rest =>
      match call (deleteRequest entry) w with
      | (Thrown e, w') => (Thrown e, w')
      | (Normal _, w') => deleteEach rest w'
      end
  end.

(** [unpublish(recordIds)]: the result and the agent after. *)
Definition unpublish (recordIds : list PublishedRecordId.t) (w : Agent)
  : Result unit Error * Agent :=
  match groupByRepo recordIds [] with
  | Thrown error => (err (mkError (message error)), w)
  | Normal recordsByRepo =>
      match deleteEach recordsByRepo w with
      | (Thrown error, w') => (err (mkError (message error)), w')
      | (Normal _, w') => (ok tt, w')
      end
  end.

End WithLedger.
End ATProtoAnnotationsFromTemplatePublisher.

(** *** CreateAndPublishAnnotationsFromTemplateUseCase *)

(** What the use case is constructed with, and the factories it imports
    from files that are not among the sources: the value-object factories,
    the three repositories (behind one [Store]), the publisher port, the
    generators of entity ids and dates, and the wording of the aggregate's
    errors. *)
Class Collaborators (D : Domain) : Type := {
  CuratorId_create : string -> Result CuratorId.t Error;
  AnnotationTemplateId_create :
    UniqueEntityID -> Result AnnotationTemplateId.t Error;
  AnnotationFieldId_create :
    UniqueEntityID -> Result AnnotationFieldId.t Error;
  AnnotationNote_create : string -> Completion AnnotationNote;
  AnnotationValueInput : Type;
  AnnotationValueFactory_create :
    AnnotationType -> AnnotationValueInput -> Result AnnotationValue Error;
  Store : Type;
  template_findById :
    Store -> AnnotationTemplateId.t -> Completion (option AnnotationTemplate.t);
  field_findById :
    Store -> AnnotationFieldId.t -> Completion (option AnnotationField);
  annotation_save : Store -> Annotation.t -> Completion Store;
  PublisherState : Type;
  publisher_publish :
    PublisherState -> AnnotationsFromTemplate.t ->
    PublisherState * Completion (Result (gmap string PublishedRecordId.t) Error);
  newUniqueEntityID : nat -> UniqueEntityID;
  newDate : nat -> Date;
  createErrorText : AnnotationsFromTemplate.CreateError -> string;
  markErrorText : AnnotationsFromTemplate.MarkError -> string
}.

Module CreateAndPublishAnnotationsFromTemplateErrors.
Inductive t : Type :=
| TemplateNotFound (templateId : string)
| AnnotationCreationFailed (message : string)
| AnnotationPublishFailed (id message : string)
| AnnotationSaveFailed (id message : string)
| UnexpectedError (error : Error).
End CreateAndPublishAnnotationsFromTemplateErrors.

Module CreateAndPublishAnnotationsFromTemplateUseCase.
Import CreateAndPublishAnnotationsFromTemplateErrors.
Section WithCollaborators.
Context {P : Platform} {D : Domain} {C : Collaborators D}.

Record AnnotationInput : Type := mkInput {
  annotationFieldId : string;
  type : string;
  value : AnnotationValueInput;
  note : option string
}.

Record CreateAndPublishAnnotationsFromTemplateDTO : Type := mkDTO {
  curatorId : string;
  url : string;
  templateId : string;
  annotations : list AnnotationInput
}.

Record Response : Type := mkResponse { annotationIds : list string }.

(** The calls that reach beyond the process: the publisher's [publish] and
    the annotation repository's [save], with their argument as it is at
    the time of the call. *)
Inductive Event : Type :=
| EvPublish (batch : AnnotationsFromTemplate.t)
| EvSave (annotation : Annotation.t).

(** The world of one invocation: the store behind the repositories, the
    publisher, how many ids and dates were generated, and the calls made. *)
Record World : Type := mkWorld {
  store : Store;
  publisher : PublisherState;
  generated : nat;
  trace : list Event
}.

Definition tick (w : World) : World :=
  mkWorld (store w) (publisher w) (S (generated w)) (trace w).

(** [a || b] on strings: the empty string is falsy. *)
Definition orElse (a b : string) : string :=
  if String.eqb a "" then b else a.

(** [annotationInput.note ? AnnotationNote.create(note) : undefined] *)
Definition makeNote (n : option string)
  : Completion (option AnnotationNote) :=
  if JS.falsy n then Normal None
  else
    match AnnotationNote_create (default "" n) with
    | Thrown e => Thrown e
    | Normal x => Normal (Some x)
    end.

(** The body of [for (const annotationInput of request.annotations)]: the
    annotation built for one input, an early [return err(...)], or an
    exception. *)
Definition buildAnnotation (curatorId : CuratorId.t) (url : URI.t)
  (templateId : AnnotationTemplateId.t) (annotationInput : AnnotationInput)
  (w : World) : Completion (Result Annotation.t t) * World :=
  match AnnotationFieldId_create (annotationFieldId annotationInput) with
  | err _ =>
      (Normal (err (AnnotationCreationFailed "Invalid annotation field ID")), w)
  | ok fieldId =>
      match field_findById (store w) fieldId with
      | Thrown e => (Thrown e, w)
      | Normal None =>
          (Normal (err (AnnotationCreationFailed
             ("Annotation field with ID " ++ annotationFieldId annotationInput
              ++ " not found"))), w)
      | Normal (Some annotationField) =>
          if negb (String.eqb (typeValue (definitionType annotationField))
                     (type annotationInput))
          then
            (Normal (err (AnnotationCreationFailed
               ("Type mismatch: Field expects "
                ++ typeValue (definitionType annotationField)
                ++ " but got " ++ type annotationInput))), w)
          else
            match makeNote (note annotationInput) with
            | Thrown e => (Thrown e, w)
            | Normal note =>
                match AnnotationValueFactory_create
                        (definitionType annotationField) (value annotationInput)
                with
                | err e =>
                    (Normal (err (AnnotationCreationFailed
                       ("Invalid annotation value: " ++ message e))), w)
                | ok value =>
                    match
                      Annotation.create
                        (Annotation.mkArg (Some curatorId) (Some url)
                           (Some annotationField) (Some value)
                           (Some [templateId]) note None None)
                        None
                        (newUniqueEntityID (generated w))
                        (newDate (generated w))
                    with
                    | Thrown e => (Thrown e, tick w)
                    | Normal (err e) =>
                        (Normal (err (AnnotationCreationFailed
                           (orElse (message e) "Failed to create annotation"))),
                         tick w)
                    | Normal (ok annotation) => (Normal (ok annotation), tick w)
                    end
                end
            end
      end
  end.

(** The loop over the inputs; [annotations] are those built so far. *)
Fixpoint buildAnnotations (curatorId : CuratorId.t) (url : URI.t)
  (templateId : AnnotationTemplateId.t) (inputs : list AnnotationInput)
  (annotations : list Annotation.t) (w : World)
  : Completion (Result (list Annotation.t) t) * World :=
  match inputs with
  | [] => (Normal (ok annotations), w)
  | annotationInput :: rest =>
      match buildAnnotation curatorId url templateId annotationInput w with
      | (Thrown e, w') => (Thrown e, w')
      | (Normal (err e), w') => (Normal (err e), w')
      | (Normal (ok annotation), w') =>
          buildAnnotations curatorId url templateId rest
            (annotations ++ [annotation]) w'
      end
  end.

(** [await this.annotationsFromTemplatePublisher.publish(batch)] *)
Definition callPublish (batch : AnnotationsFromTemplate.t) (w : World)
  : Completion (Result (gmap string PublishedRecordId.t) Error) * World :=
  let (publisher', answer) := publisher_publish (publisher w) batch in
  (answer,
   mkWorld (store w) publisher' (generated w) (trace w ++ [EvPublish batch])).

(** [await this.annotationRepository.save(annotation)] *)
Definition callSave (annotation : Annotation.t) (w : World)
  : Completion unit * World :=
  let w' :=
    mkWorld (store w) (publisher w) (generated w)
      (trace w ++ [EvSave annotation]) in
  match annotation_save (store w) annotation with
  | Thrown e => (Thrown e, w')
  | Normal store' =>
      (Normal tt,
       mkWorld store' (publisher w) (generated w)
         (trace w ++ [EvSave annotation]))
  end.

(** The loop that saves the annotations. *)
Fixpoint saveAll (annotations : list Annotation.t) (w : World)
  : Completion unit * World :=
  match annotations with
  | [] => (Normal tt, w)
  | annotation :: rest =>
      match callSave annotation w with
      | (Thrown e, w') => (Thrown e, w')
      | (Normal _, w') => saveAll rest w'
      end
  end.

(** [execute(request)].  An exception of a collaborator is caught by the
    outer [try] and becomes an [UnexpectedError], except in the save loop,
    which has a [try] of its own. *)
Definition execute (request : CreateAndPublishAnnotationsFromTemplateDTO)
  (w : World) : Result Response t * World :=
  let curatorIdOrError := CuratorId_create (curatorId request) in
  match URI.create (url request) with
  | Thrown e => (err (UnexpectedError e), w)
  | Normal urlOrError =>
      let templateIdOrError :=
        AnnotationTemplateId_create (templateId request) in
      match curatorIdOrError, urlOrError, templateIdOrError with
      | ok curatorId, ok url, ok templateId =>
          match template_findById (store w) templateId with
          | Thrown e => (err (UnexpectedError e), w)
          | Normal None =>
              (err (TemplateNotFound
                      (AnnotationTemplateId.getValue templateId)), w)
          | Normal (Some template) =>
              match
                buildAnnotations curatorId url templateId
                  (annotations request) [] w
              with
              | (Thrown e, w1) => (err (UnexpectedError e), w1)
              | (Normal (err e), w1) => (err e, w1)
              | (Normal (ok annotations), w1) =>
                  match
                    AnnotationsFromTemplate.create
                      (AnnotationsFromTemplate.mk annotations template
                         curatorId (newDate (generated w1)))
                  with
                  | err e =>
                      (err (AnnotationCreationFailed
                              (orElse (createErrorText e)
                                 "Annotations do not satisfy template requirements")),
                       tick w1)
                  | ok annotationsFromTemplate =>
                      match callPublish annotationsFromTemplate (tick w1) with
                      | (Thrown e, w2) => (err (UnexpectedError e), w2)
                      | (Normal (err e), w2) =>
                          (err (AnnotationPublishFailed "batch" (message e)), w2)
                      | (Normal (ok publishedRecordIds), w2) =>
                          match
                            AnnotationsFromTemplate.markAllAnnotationsAsPublished
                              annotationsFromTemplate publishedRecordIds
                          with
                          | (err e, _) =>
                              (err (AnnotationPublishFailed "batch"
                                      (markErrorText e)), w2)
                          | (ok _, marked) =>
                              let publishedAnnotationIds :=
                                map AnnotationsFromTemplate.annotationKey
                                  (AnnotationsFromTemplate.annotations marked) in
                              match
                                saveAll
                                  (AnnotationsFromTemplate.annotations marked) w2
                              with
                              | (Thrown e, w3) =>
                                  (err (AnnotationSaveFailed "batch" (message e)),
                                   w3)
                              | (Normal _, w3) =>
                                  (ok (mkResponse publishedAnnotationIds), w3)
                              end
                          end
                      end
                  end
              end
          end
      | _, _, _ =>
          (err (AnnotationCreationFailed "Invalid common properties"), w)
      end
  end.

End WithCollaborators.
End CreateAndPublishAnnotationsFromTemplateUseCase.

(** *** Vocabulary of the statements about [URI.create] *)

(** The characters of a string. *)
Definition chars (s : string) : list ascii := list_ascii_of_string s.

(** What [URI.atUriPattern] describes: [at://], an authority, a
    collection name and a record key, each non-empty and made of the
    characters of its class. *)
Definition atUriShape (mid : list ascii) : Prop :=
  exists authority collection key,
    mid = chars "at://" ++ authority ++ chars "/" ++ collection
            ++ chars "/" ++ key
    /\ authority <> [] /\ collection <> [] /\ key <> []
    /\ forallb isAuthorityChar authority = true
    /\ forallb isCollectionChar collection = true
    /\ forallb isAlnum key = true.

(** Some substring of [s] has that shape. *)
Definition containsAtUri (s : string) : Prop :=
  exists pre mid post, chars s = pre ++ mid ++ post /\ atUriShape mid.

(** The specification's words for the second kind of accepted string, "a
    ledger-style URI matching scheme://authority/collection-name/record-key":
    the whole string is a scheme ending in a colon, an empty segment, and
    three non-empty segments, separated by [/]. *)
Definition ledgerStyleURI (s : string) : bool :=
  match JS.split "/" s with
  | [scheme; empty; authority; collection; key] =>
      match rev (chars scheme) with
      | colon :: name => Ascii.eqb colon ":" && negb (Nat.eqb (length name) 0)
      | [] => false
      end
      && String.eqb empty ""
      && negb (String.eqb authority "")
      && negb (String.eqb collection "")
      && negb (String.eqb key "")
  | _ => false
  end.

(** *** Vocabulary of the statements about [Annotation.create] *)

(** The name of the first of [curatorId], [url], [annotationField] and
    [value] that is absent from the props, if one is. *)
Definition firstAbsent `{Domain} (p : Annotation.AnnotationPropsArg)
  : option string :=
  match Annotation.arg_curatorId p with
  | None => Some "curatorId"
  | Some _ =>
      match Annotation.arg_url p with
      | None => Some "url"
      | Some _ =>
          match Annotation.arg_annotationField p with
          | None => Some "annotationField"
          | Some _ =>
              match Annotation.arg_value p with
              | None => Some "value"
              | Some _ => None
              end
          end
      end
  end.

(** *** Vocabulary of the statements about the batch aggregate *)

Section BatchConditions.
Context `{Domain}.

(** (1) every annotation's curatorId equals the batch curatorId. *)
Definition curatorsAgree (props : AnnotationsFromTemplate.t) : Prop :=
  forall a, In a (AnnotationsFromTemplate.annotations props) ->
    Annotation.curatorId (Annotation.props a)
    = AnnotationsFromTemplate.curatorId props.

(** (2) the field ids referenced by the annotations hold no duplicate. *)
Definition fieldsDistinct (props : AnnotationsFromTemplate.t) : Prop :=
  NoDup (AnnotationsFromTemplate.referencedFieldIds
           (AnnotationsFromTemplate.annotations props)).

(** An annotation of the batch refers to the field of id [i]. *)
Definition refersTo (props : AnnotationsFromTemplate.t)
  (i : AnnotationFieldId.t) : Prop :=
  exists a, In a (AnnotationsFromTemplate.annotations props)
            /\ Annotation.annotationFieldId a = i.

(** (3) every required field of the template has an annotation. *)
Definition requiredCovered (props : AnnotationsFromTemplate.t) : Prop :=
  forall f,
    In f (AnnotationTemplate.annotationFields
            (AnnotationsFromTemplate.template props)) ->
    AnnotationTemplate.required f = true ->
    refersTo props (fieldId (AnnotationTemplate.field f)).

(** The map has an entry for the id of every annotation of the batch. *)
Definition coversBatch (b : AnnotationsFromTemplate.t)
  (idsByAnnotationId : gmap string PublishedRecordId.t) : Prop :=
  forall a, In a (AnnotationsFromTemplate.annotations b) ->
    is_Some (idsByAnnotationId !! AnnotationsFromTemplate.annotationKey a).

End BatchConditions.

(** *** Vocabulary of the statements about the publisher *)

(** A result of the ledger confirms a create. *)
Definition confirmsCreate (r : WriteResult) : Prop :=
  dollarType r = "com.atproto.repo.applyWrites#createResult".

(** The published-record identifier built from a result. *)
Definition recordIdOf (r : WriteResult) : PublishedRecordId.t :=
  PublishedRecordId.create (uri r) (cid r).

(** The ids of the annotations of a batch, in order. *)
Definition annotationKeys `{Domain} (b : AnnotationsFromTemplate.t)
  : list string :=
  map AnnotationsFromTemplate.annotationKey
    (AnnotationsFromTemplate.annotations b).

(** The curator DID under which [publish] acts: the first annotation's. *)
Definition firstCuratorDid `{Domain} (b : AnnotationsFromTemplate.t)
  : option string :=
  match AnnotationsFromTemplate.annotations b with
  | [] => None
  | a :: _ => Some (CuratorId.value (Annotation.curatorId (Annotation.props a)))
  end.

(** A record's uri has been parsed and the record filed under its
    repository in the groups of [unpublish]. *)
Definition filedIn `{Domain} `{DIDClass} {L : Ledger _}
  (groups : ATProtoAnnotationsFromTemplatePublisher.RecordsByRepo)
  (r : PublishedRecordId.t) : Prop :=
  exists atUri records,
    ATUri.new (PublishedRecordId.uri r) = Normal atUri
    /\ In (DID_toString (ATUri.did atUri), records) groups
    /\ In (ATProtoAnnotationsFromTemplatePublisher.mkRecordRef
             (ATUri.rkey atUri) (PublishedRecordId.uri r)) records.

(** *** Vocabulary of the statements about the use case *)

Section Preparation.
Context {P : Platform} {D : Domain} {C : Collaborators D}.

Import CreateAndPublishAnnotationsFromTemplateUseCase.

(** An input of the request cannot be turned into an annotation, for one
    of the reasons that the loop of [execute] checks (or because a
    collaborator throws). *)
Inductive InputFails (st : Store) (x : AnnotationInput) : Prop :=
| InvalidFieldId e :
    AnnotationFieldId_create (annotationFieldId x) = err e ->
    InputFails st x
| FieldNotFound fid :
    AnnotationFieldId_create (annotationFieldId x) = ok fid ->
    field_findById st fid = Normal None ->
    InputFails st x
| FieldLookupThrows fid e :
    AnnotationFieldId_create (annotationFieldId x) = ok fid ->
    field_findById st fid = Thrown e ->
    InputFails st x
| DeclaredTypeMismatch fid f :
    AnnotationFieldId_create (annotationFieldId x) = ok fid ->
    field_findById st fid = Normal (Some f) ->
    typeValue (definitionType f) <> type x ->
    InputFails st x
| NoteThrows e :
    makeNote (note x) = Thrown e ->
    InputFails st x
| InvalidValue fid f e :
    AnnotationFieldId_create (annotationFieldId x) = ok fid ->
    field_findById st fid = Normal (Some f) ->
    AnnotationValueFactory_create (definitionType f) (value x) = err e ->
    InputFails st x
| ConstructionFails fid f v :
    AnnotationFieldId_create (annotationFieldId x) = ok fid ->
    field_findById st fid = Normal (Some f) ->
    AnnotationValueFactory_create (definitionType f) (value x) = ok v ->
    matchesFieldType v f = false ->
    InputFails st x.

(** Some step of [execute] up to and including the assembly of the batch
    aggregate fails. *)
Inductive PreparationFails
  (request : CreateAndPublishAnnotationsFromTemplateDTO) (w : World) : Prop :=
| InvalidCuratorId e :
    CuratorId_create (curatorId request) = err e ->
    PreparationFails request w
| InvalidUrl e :
    URI.create (url request) = Normal (err e) ->
    PreparationFails request w
| InvalidTemplateId e :
    AnnotationTemplateId_create (templateId request) = err e ->
    PreparationFails request w
| TemplateMissing t :
    AnnotationTemplateId_create (templateId request) = ok t ->
    template_findById (store w) t = Normal None ->
    PreparationFails request w
| TemplateLookupThrows t e :
    AnnotationTemplateId_create (templateId request) = ok t ->
    template_findById (store w) t = Thrown e ->
    PreparationFails request w
| SomeInputFails x :
    In x (annotations request) ->
    InputFails (store w) x ->
    PreparationFails request w
| BatchRefused c u t tpl built w1 e :
    CuratorId_create (curatorId request) = ok c ->
    URI.create (url request) = Normal (ok u) ->
    AnnotationTemplateId_create (templateId request) = ok t ->
    template_findById (store w) t = Normal (Some tpl) ->
    buildAnnotations c u t (annotations request) [] w
    = (Normal (ok built), w1) ->
    AnnotationsFromTemplate.create
      (AnnotationsFromTemplate.mk built tpl c (newDate (generated w1)))
    = err e ->
    PreparationFails request w.

(** No call was made between two worlds: the store, the publisher and the
    trace are the same. *)
Definition quiet (w w' : World) : Prop :=
  store w' = store w /\ publisher w' = publisher w /\ trace w' = trace w.

(** Every step of [execute] up to and including the assembly succeeds,
    with [batch] as the aggregate and [w1] as the world at that point. *)
Definition Prepares (request : CreateAndPublishAnnotationsFromTemplateDTO)
  (w : World) (batch : AnnotationsFromTemplate.t) (w1 : World) : Prop :=
  exists c u t tpl built,
    CuratorId_create (curatorId request) = ok c
    /\ URI.create (url request) = Normal (ok u)
    /\ AnnotationTemplateId_create (templateId request) = ok t
    /\ template_findById (store w) t = Normal (Some tpl)
    /\ buildAnnotations c u t (annotations request) [] w
       = (Normal (ok built), w1)
    /\ AnnotationsFromTemplate.create
         (AnnotationsFromTemplate.mk built tpl c (newDate (generated w1)))
       = ok batch.

(** What [execute] does with the assembled batch: publish, mark, save. *)
Definition publishAndPersist (batch : AnnotationsFromTemplate.t) (w : World)
  : Result Response CreateAndPublishAnnotationsFromTemplateErrors.t * World :=
  match callPublish batch w with
  | (Thrown e, w2) =>
      (err (CreateAndPublishAnnotationsFromTemplateErrors.UnexpectedError e), w2)
  | (Normal (err e), w2) =>
      (err (CreateAndPublishAnnotationsFromTemplateErrors.AnnotationPublishFailed
              "batch" (message e)), w2)
  | (Normal (ok publishedRecordIds), w2) =>
      match
        AnnotationsFromTemplate.markAllAnnotationsAsPublished batch
          publishedRecordIds
      with
      | (err e, _) =>
          (err (CreateAndPublishAnnotationsFromTemplateErrors.AnnotationPublishFailed
                  "batch" (markErrorText e)), w2)
      | (ok _, marked) =>
          match saveAll (AnnotationsFromTemplate.annotations marked) w2 with
          | (Thrown e, w3) =>
              (err (CreateAndPublishAnnotationsFromTemplateErrors.AnnotationSaveFailed
                      "batch" (message e)), w3)
          | (Normal _, w3) =>
              (ok (mkResponse
                     (map AnnotationsFromTemplate.annotationKey
                        (AnnotationsFromTemplate.annotations marked))), w3)
          end
      end
  end.

End Preparation.

(** The operations of [Annotation] that write to an annotation. *)
Inductive AnnotationOp `{Domain} : Type :=
| OpMarkAsPublished (r : PublishedRecordId.t)
| OpUpdatePublishedRecordId (r : PublishedRecordId.t)
| OpUpdateValue (v : AnnotationValue).

Definition applyOp `{Domain} (a : Annotation.t) (op : AnnotationOp)
  : Annotation.t :=
  match op with
  | OpMarkAsPublished r => Annotation.markAsPublished a r
  | OpUpdatePublishedRecordId r => Annotation.updatePublishedRecordId a r
  | OpUpdateValue v => snd (Annotation.updateValue a v)
  end.

Definition published `{Domain} (a : Annotation.t) : Prop :=
  is_Some (Annotation.publishedRecordId (Annotation.props a)).

Definition unpublished `{Domain} (a : Annotation.t) : Prop :=
  Annotation.publishedRecordId (Annotation.props a) = None.

(** *** A sample environment

    Concrete collaborators, on which the statements below are evaluated. *)

Module Sample.

(** The URL standard's parser on the strings that, once their leading
    and trailing C0 controls and spaces are stripped and their tabs and
    newlines removed, start with [at://] in either case and whose
    authority holds neither credentials nor brackets: [at] is not a
    special scheme, so the host is opaque (any characters but the
    forbidden host code points, and not empty before a colon), the port
    is a decimal number up to 65535, and nothing after the authority can
    fail.  [other] answers for every other string. *)
Definition forbiddenHostCodePoint (c : ascii) : bool :=
  existsb (Ascii.eqb c)
    [ascii_of_nat 0; ascii_of_nat 9; ascii_of_nat 10; ascii_of_nat 13;
     " "; "#"; "/"; ":"; "<"; ">"; "?"; "@"; "["; "\"; "]"; "^"; "|"]%char.

Definition isTabOrNewline (c : ascii) : bool :=
  existsb (Ascii.eqb c) [ascii_of_nat 9; ascii_of_nat 10; ascii_of_nat 13].

Definition isC0ControlOrSpace (c : ascii) : bool :=
  Nat.leb (nat_of_ascii c) 32.

Definition endsAuthority (c : ascii) : bool :=
  existsb (Ascii.eqb c) ["/"; "?"; "#"]%char.

Fixpoint takeUntil (stop : ascii -> bool) (s : list ascii) : list ascii :=
  match s with
  | [] => []
  | c :: rest => if stop c then [] else c :: takeUntil stop rest
  end.

Fixpoint dropUntil (stop : ascii -> bool) (s : list ascii) : list ascii :=
  match s with
  | [] => []
  | c :: rest => if stop c then s else dropUntil stop rest
  end.

Definition isDigit (c : ascii) : bool := inRange "0" "9" c.

Definition portValue (digits : list ascii) : N :=
  fold_left (fun n c => 10 * n + (N_of_ascii c - 48))%N digits 0%N.

Definition validPort (port : list ascii) : bool :=
  forallb isDigit port && N.leb (portValue port) 65535.

Fixpoint dropWhile (p : ascii -> bool) (s : list ascii) : list ascii :=
  match s with
  | [] => []
  | c :: rest => if p c then dropWhile p rest else s
  end.

(** The input as the parser's state machine sees it. *)
Definition preprocessed (cs : list ascii) : list ascii :=
  List.filter (fun c => negb (isTabOrNewline c))
    (rev (dropWhile isC0ControlOrSpace
            (rev (dropWhile isC0ControlOrSpace cs)))).

Definition lowerCase (c : ascii) : ascii :=
  if inRange "A" "Z" c then ascii_of_nat (nat_of_ascii c + 32) else c.

(** The scheme is [at], in either case, and an authority follows. *)
Definition hasAtAuthority (cs : list ascii) : bool :=
  match cs with
  | a :: t :: colon :: s1 :: s2 :: _ =>
      Ascii.eqb (lowerCase a) "a" && Ascii.eqb (lowerCase t) "t"
      && Ascii.eqb colon ":" && Ascii.eqb s1 "/" && Ascii.eqb s2 "/"
  | _ => false
  end.

Definition parsesAtScheme (other : string -> bool) (s : string) : bool :=
  let cs := preprocessed (chars s) in
  if negb (hasAtAuthority cs) then other s
  else
    let authority := takeUntil endsAuthority (skipn 5 cs) in
    if existsb (fun c => Ascii.eqb c "@" || Ascii.eqb c "[") authority
    then other s
    else
      let host := takeUntil (Ascii.eqb ":") authority in
      match dropUntil (Ascii.eqb ":") authority with
      | [] => negb (existsb forbiddenHostCodePoint host)
      | _ :: port =>
          negb (Nat.eqb (length host) 0)
          && negb (existsb forbiddenHostCodePoint host)
          && validPort port
      end.

(** Outside that fragment the sample platform knows one URL only. *)
Definition platform : Platform :=
  {| parsesAsURL :=
       parsesAtScheme
         (fun s => String.eqb s "https://example.com/resource") |}.

(** Fields and values that carry the tag of their type: a value matches a
    field, or another value, when the tags are equal. *)
Record Field : Type := mkField { field_id : string; field_type : string }.
Record Value : Type := mkValue { value_type : string; payload : nat }.

Definition domain : Domain :=
  {| AnnotationType := string;
     AnnotationField := Field;
     AnnotationValue := Value;
     AnnotationNote := string;
     Date := nat;
     fieldId := fun f => AnnotationFieldId.mk (field_id f);
     definitionType := field_type;
     typeValue := fun ty => ty;
     isSameType := fun a b => String.eqb (value_type a) (value_type b);
     matchesFieldType := fun v f => String.eqb (value_type v) (field_type f);
     missingArgument := fun name => (name ++ " is null or undefined")%string |}.

Definition ratingField : Field := mkField "field-1" "rating".
Definition dyadField : Field := mkField "field-2" "dyad".

Definition curator : CuratorId.t := CuratorId.mk "did:plc:curator123".
Definition resource : URI.t := URI.mk "https://example.com/resource".

(** The props of a rating of 4 on the rating field. *)
Definition ratingProps : @Annotation.AnnotationPropsArg domain :=
  @Annotation.mkArg domain (Some curator) (Some resource) (Some ratingField)
    (Some (mkValue "rating" 4)) None None None None.

(** The same props without a url. *)
Definition propsWithoutUrl : @Annotation.AnnotationPropsArg domain :=
  @Annotation.mkArg domain (Some curator) None (Some ratingField)
    (Some (mkValue "rating" 4)) None None None None.

Definition annotation (id : string) (f : Field) (v : Value)
  : @Annotation.t domain :=
  @Annotation.mk domain id
    (@Annotation.mkProps domain curator resource f v (Some []) None (Some 0)
       None).

Definition rating : @Annotation.t domain :=
  annotation "a-1" ratingField (mkValue "rating" 4).
Definition dyad : @Annotation.t domain :=
  annotation "a-2" dyadField (mkValue "dyad" 7).

(** The props of a dyad of 7 on the dyad field, and the annotation that
    [Annotation.create] makes of them when it is given the id of
    [rating]. *)
Definition dyadProps : @Annotation.AnnotationPropsArg domain :=
  @Annotation.mkArg domain (Some curator) (Some resource) (Some dyadField)
    (Some (mkValue "dyad" 7)) None None None None.
Definition dyadTwin : @Annotation.t domain :=
  annotation "a-1" dyadField (mkValue "dyad" 7).

(** A template with a required rating field and an optional dyad field. *)
Definition template : @AnnotationTemplate.t domain :=
  @AnnotationTemplate.mk domain (AnnotationTemplateId.mk "template-1")
    [ @AnnotationTemplate.mkField domain ratingField true;
      @AnnotationTemplate.mkField domain dyadField false ].

Definition batch (annotations : list (@Annotation.t domain))
  : @AnnotationsFromTemplate.t domain :=
  @AnnotationsFromTemplate.mk domain annotations template curator 0.

(** DIDs are kept as their string. *)
Definition didClass : DIDClass :=
  {| DID := string; DID_new := fun s => Normal s; DID_toString := fun d => d |}.

(** A scripted ledger: its state is the list of results with which it
    answers every request; a create operation is the annotation's id. *)
Definition ledger : Ledger domain :=
  {| CreateOperation := string;
     toCreateOperations := fun b _ =>
       map (@AnnotationsFromTemplate.annotationKey domain)
         (AnnotationsFromTemplate.annotations b);
     LedgerState := list WriteResult;
     applyWrites := fun st _ => (st, Normal (mkResponse (Some st))) |}.

Definition created (rkey : string) : WriteResult :=
  mkWriteResult "com.atproto.repo.applyWrites#createResult"
    ("at://did:plc:curator123/app.annos.annotation/" ++ rkey)%string
    ("cid-" ++ rkey)%string.

Definition agent (script : list WriteResult)
  : @ATProtoAnnotationsFromTemplatePublisher.Agent domain ledger :=
  @ATProtoAnnotationsFromTemplatePublisher.mkAgent domain ledger script [].

(** The store behind the sample repositories. *)
Record SampleStore : Type := mkStore {
  templates : list (@AnnotationTemplate.t domain);
  fields : list Field;
  saved : list (@Annotation.t domain)
}.

(** The digits of the generated ids, in unary: [1], [11], [111], ... *)
Fixpoint tally (n : nat) : string :=
  match n with
  | 0 => "1"
  | S k => String "1" (tally k)
  end.

(** The fake publisher of the use case's test: every annotation gets the
    record [at://fake-did/app.annos.annotation/<id>]. *)
Definition fakeRecord (a : @Annotation.t domain)
  : string * PublishedRecordId.t :=
  (@AnnotationsFromTemplate.annotationKey domain a,
   PublishedRecordId.create
     ("at://fake-did/app.annos.annotation/"
      ++ @AnnotationsFromTemplate.annotationKey domain a)%string
     ("fake-cid-" ++ @AnnotationsFromTemplate.annotationKey domain a)%string).

Definition collaborators : Collaborators domain :=
  {| CuratorId_create := fun s =>
       if JS.startsWith "did:" s then ok (CuratorId.mk s)
       else err (mkError "Invalid curator id");
     AnnotationTemplateId_create := fun i => ok (AnnotationTemplateId.mk i);
     AnnotationFieldId_create := fun i => ok (AnnotationFieldId.mk i);
     AnnotationNote_create := fun s => Normal (s : @AnnotationNote domain);
     AnnotationValueInput := nat;
     AnnotationValueFactory_create := fun ty n =>
       ok (mkValue ty n : @AnnotationValue domain);
     Store := SampleStore;
     template_findById := fun st i =>
       Normal
         (List.find
            (fun t =>
               String.eqb
                 (AnnotationTemplateId.getValue (AnnotationTemplate.templateId t))
                 (AnnotationTemplateId.getValue i))
            (templates st));
     field_findById := fun st i =>
       Normal
         (List.find
            (fun f => String.eqb (field_id f) (AnnotationFieldId.getValue i))
            (fields st) : option (@AnnotationField domain));
     annotation_save := fun st a =>
       Normal (mkStore (templates st) (fields st) (saved st ++ [a]));
     PublisherState := unit;
     publisher_publish := fun _ b =>
       (tt,
        Normal
          (ok (list_to_map
                 (map fakeRecord (AnnotationsFromTemplate.annotations b)))));
     newUniqueEntityID := fun n => ("a-" ++ tally n)%string;
     newDate := fun n => (n : @Date domain);
     createErrorText := fun e =>
       match e with
       | AnnotationsFromTemplate.CuratorMismatch => "curator mismatch"
       | AnnotationsFromTemplate.DuplicateFields => "duplicate fields"
       | AnnotationsFromTemplate.MissingRequiredFields _ =>
           "missing required fields"
       end;
     markErrorText := fun _ => "missing published record id" |}.

Definition world
  : @CreateAndPublishAnnotationsFromTemplateUseCase.World domain collaborators :=
  @CreateAndPublishAnnotationsFromTemplateUseCase.mkWorld domain collaborators
    (mkStore [template] [ratingField; dyadField] []) tt 0 [].

Definition input (fieldId type : string) (n : nat)
  : @CreateAndPublishAnnotationsFromTemplateUseCase.AnnotationInput
      domain collaborators :=
  @CreateAndPublishAnnotationsFromTemplateUseCase.mkInput domain collaborators
    fieldId type n None.

Definition request
  (inputs : list (@CreateAndPublishAnnotationsFromTemplateUseCase.AnnotationInput
                    domain collaborators))
  : @CreateAndPublishAnnotationsFromTemplateUseCase.CreateAndPublishAnnotationsFromTemplateDTO
      domain collaborators :=
  @CreateAndPublishAnnotationsFromTemplateUseCase.mkDTO domain collaborators
    "did:plc:curator123" "https://example.com/resource" "template-1" inputs.

End Sample.

(** *** Vocabulary of the further statements *)

(** A string without the separator of AT-URIs. *)
Definition slashFree (s : string) : Prop := ~ In "/"%char (chars s).

(** [parts.join("/")] *)
Definition join (parts : list string) : string := String.concat "/" parts.

(** The number of [/] in a string. *)
Definition slashes (s : string) : nat := count_occ ascii_dec (chars s) "/"%char.

Section UnpublishVocabulary.
Context {D : Domain} {L : Ledger D} {DI : DIDClass}.

Import ATProtoAnnotationsFromTemplatePublisher.

(** The repository and the record reference that the first loop of
    [unpublish] derives from a record, when its uri parses. *)
Definition parseRecord (r : PublishedRecordId.t)
  : option (string * RecordRef) :=
  match ATUri.new (PublishedRecordId.uri r) with
  | Normal atUri =>
      Some (DID_toString (ATUri.did atUri),
            mkRecordRef (ATUri.rkey atUri) (PublishedRecordId.uri r))
  | Thrown _ => None
  end.

(** The references of the records of one repository, in input order. *)
Fixpoint refsFor (repo : string) (recordIds : list PublishedRecordId.t)
  : list RecordRef :=
  match recordIds with
  | [] => []
  | r :: rest =>
      match parseRecord r with
      | Some (k, ref) =>
          if String.eqb k repo then ref :: refsFor repo rest
          else refsFor repo rest
      | None => refsFor repo rest
      end
  end.

(** [recordsByRepo.get(repo)], or no records. *)
Fixpoint groupOf (repo : string) (groups : RecordsByRepo) : list RecordRef :=
  match groups with
  | [] => []
  | (k, records) :: rest =>
      if String.eqb k repo then records else groupOf repo rest
  end.

(** The ledger after it has been sent a list of requests. *)
Fixpoint replay (l : LedgerState)
  (requests : list (ApplyWritesRequest CreateOperation)) : LedgerState :=
  match requests with
  | [] => l
  | request :: rest => replay (fst (applyWrites l request)) rest
  end.

End UnpublishVocabulary.

Section UseCaseVocabulary.
Context {P : Platform} {D : Domain} {C : Collaborators D}.

Import CreateAndPublishAnnotationsFromTemplateUseCase.

(** An annotation is the one that the loop of [execute] builds for an
    input: it carries the curator, the url and the template id of the
    request, the field found for the input's field id, whose type is the
    declared one, the value made from the input's payload, and its note. *)
Definition builtFrom (c : CuratorId.t) (u : URI.t)
  (t : AnnotationTemplateId.t) (st : Store) (x : AnnotationInput)
  (a : Annotation.t) : Prop :=
  Annotation.curatorId (Annotation.props a) = c
  /\ Annotation.url (Annotation.props a) = u
  /\ Annotation.annotationTemplateIds (Annotation.props a) = Some [t]
  /\ makeNote (note x) = Normal (Annotation.note (Annotation.props a))
  /\ typeValue (definitionType (Annotation.annotationField (Annotation.props a)))
     = type x
  /\ AnnotationValueFactory_create
       (definitionType (Annotation.annotationField (Annotation.props a)))
       (value x)
     = ok (Annotation.value (Annotation.props a))
  /\ exists fid,
       AnnotationFieldId_create (annotationFieldId x) = ok fid
       /\ field_findById st fid
          = Normal (Some (Annotation.annotationField (Annotation.props a))).

(** The ids that [execute] generates for [n] annotations, from a world. *)
Definition generatedIds (w : World) (n : nat) : list UniqueEntityID :=
  map newUniqueEntityID (seq (generated w) n).

End UseCaseVocabulary.

(** The use case constructed with the AT Protocol publisher: the
    collaborators [C], with [ATProtoAnnotationsFromTemplatePublisher] over
    the ledger [L] as the publisher port. *)
Definition withATProtoPublisher {D : Domain} (C : Collaborators D)
  (L : Ledger D) (DI : DIDClass) : Collaborators D :=
  {| CuratorId_create := @CuratorId_create D C;
     AnnotationTemplateId_create := @AnnotationTemplateId_create D C;
     AnnotationFieldId_create := @AnnotationFieldId_create D C;
     AnnotationNote_create := @AnnotationNote_create D C;
     AnnotationValueInput := @AnnotationValueInput D C;
     AnnotationValueFactory_create := @AnnotationValueFactory_create D C;
     Store := @Store D C;
     template_findById := @template_findById D C;
     field_findById := @field_findById D C;
     annotation_save := @annotation_save D C;
     PublisherState := @ATProtoAnnotationsFromTemplatePublisher.Agent D L;
     publisher_publish := fun agent batch =>
       let (result, agent') :=
         @ATProtoAnnotationsFromTemplatePublisher.publish D L batch agent in
       (agent', Normal result);
     newUniqueEntityID := @newUniqueEntityID D C;
     newDate := @newDate D C;
     createErrorText := @createErrorText D C;
     markErrorText := @markErrorText D C |}.

(** *** Further sample collaborators *)

Module Scenario.

(** A ledger that answers a given number of requests, without results,
    and then throws. *)
Definition quotaLedger : Ledger Sample.domain :=
  {| CreateOperation := string;
     toCreateOperations := fun b _ =>
       map (@AnnotationsFromTemplate.annotationKey Sample.domain)
         (AnnotationsFromTemplate.annotations b);
     LedgerState := nat;
     applyWrites := fun quota _ =>
       match quota with
       | 0 => (0, Thrown (mkError "ledger unavailable"))
       | S rest => (rest, Normal (mkResponse None))
       end |}.

Definition quotaAgent (quota : nat)
  : @ATProtoAnnotationsFromTemplatePublisher.Agent Sample.domain quotaLedger :=
  @ATProtoAnnotationsFromTemplatePublisher.mkAgent Sample.domain quotaLedger
    quota [].

(** Three records of two repositories. *)
Definition records : list PublishedRecordId.t :=
  [ PublishedRecordId.create "at://did:plc:alice/app.annos.annotation/k1" "c1";
    PublishedRecordId.create "at://did:plc:bob/app.annos.annotation/k2" "c2";
    PublishedRecordId.create "at://did:plc:alice/app.bsky.feed.post/k3" "c3" ].

(** The sample use case over the scripted ledger. *)
Definition wired : Collaborators Sample.domain :=
  withATProtoPublisher Sample.collaborators Sample.ledger Sample.didClass.

Definition wiredWorld (script : list WriteResult)
  : @CreateAndPublishAnnotationsFromTemplateUseCase.World Sample.domain wired :=
  @CreateAndPublishAnnotationsFromTemplateUseCase.mkWorld Sample.domain wired
    (Sample.mkStore [Sample.template] [Sample.ratingField; Sample.dyadField] [])
    (Sample.agent script) 0 [].

Definition wiredRequest
  (inputs : list (@CreateAndPublishAnnotationsFromTemplateUseCase.AnnotationInput
                    Sample.domain wired))
  : @CreateAndPublishAnnotationsFromTemplateUseCase.CreateAndPublishAnnotationsFromTemplateDTO
      Sample.domain wired :=
  @CreateAndPublishAnnotationsFromTemplateUseCase.mkDTO Sample.domain wired
    "did:plc:curator123" "https://example.com/resource" "template-1" inputs.

Definition wiredInput (fieldId type : string) (n : nat)
  : @CreateAndPublishAnnotationsFromTemplateUseCase.AnnotationInput
      Sample.domain wired :=
  @CreateAndPublishAnnotationsFromTemplateUseCase.mkInput Sample.domain wired
    fieldId type n None.

End Scenario.

(** The messages of the errors of the use case, as the classes of
    [CreateAndPublishAnnotationsFromTemplateErrors] build them;
    [AppError.UnexpectedError] is not among the sources. *)
Definition errorMessage (e : CreateAndPublishAnnotationsFromTemplateErrors.t)
  : option string :=
  match e with
  | CreateAndPublishAnnotationsFromTemplateErrors.TemplateNotFound templateId =>
      Some ("Template with ID " ++ templateId ++ " not found")%string
  | CreateAndPublishAnnotationsFromTemplateErrors.AnnotationCreationFailed m =>
      Some ("Failed to create annotations: " ++ m)%string
  | CreateAndPublishAnnotationsFromTemplateErrors.AnnotationPublishFailed id m =>
      Some ("Failed to publish annotation " ++ id ++ ": " ++ m)%string
  | CreateAndPublishAnnotationsFromTemplateErrors.AnnotationSaveFailed id m =>
      Some ("Failed to save annotation " ++ id ++ ": " ++ m)%string
  | CreateAndPublishAnnotationsFromTemplateErrors.UnexpectedError _ => None
  end.

(** ** Part II.  Properties *)

(** *** The regular-expression matcher *)

Lemma RegExp_nullable_spec (r : RegExp.t) :
  RegExp.nullable r = true <-> RegExp.Matches r [].
Proof.
  split.
  - induction r; simpl; intros Hn; try discriminate.
    + constructor.
    + apply andb_true_iff in Hn as [H1 H2].
      change (@nil ascii) with (@nil ascii ++ []). constructor; auto.
    + apply orb_true_iff in Hn as [H1 | H2];
        [apply RegExp.MAltL | apply RegExp.MAltR]; auto.
    + constructor.
  - intros Hm. remember (@nil ascii) as s eqn:Hs.
    induction Hm; simpl; subst; try discriminate; auto.
    + apply app_eq_nil in Hs as [-> ->]. rewrite IHHm1, IHHm2; auto.
    + rewrite IHHm; auto.
    + rewrite IHHm; auto using orb_true_r.
Qed.

Lemma RegExp_deriv_sound (c : ascii) (r : RegExp.t) :
  forall s, RegExp.Matches (RegExp.deriv c r) s -> RegExp.Matches r (c :: s).
Proof.
  induction r; simpl; intros s Hm.
  - inversion Hm.
  - inversion Hm.
  - destruct (p c) eqn:Hp; inversion Hm; subst. constructor; auto.
  - destruct (RegExp.nullable r1) eqn:Hn.
    + inversion Hm; subst.
      * match goal with H : RegExp.Matches (RegExp.Seq _ _) _ |- _ =>
          inversion H; subst end.
        change (c :: s1 ++ s2) with ((c :: s1) ++ s2). constructor; auto.
      * change (c :: s) with ([] ++ c :: s). constructor; auto.
        apply RegExp_nullable_spec; auto.
    + inversion Hm; subst.
      change (c :: s1 ++ s2) with ((c :: s1) ++ s2). constructor; auto.
  - inversion Hm; subst; [apply RegExp.MAltL | apply RegExp.MAltR]; auto.
  - inversion Hm; subst.
    change (c :: s1 ++ s2) with ((c :: s1) ++ s2). constructor; auto.
Qed.

Lemma RegExp_deriv_complete (c : ascii) (r : RegExp.t) (s : list ascii) :
  RegExp.Matches r (c :: s) -> RegExp.Matches (RegExp.deriv c r) s.
Proof.
  intros Hm. remember (c :: s) as cs eqn:Hcs.
  revert s Hcs. induction Hm; intros t Hcs; simpl; try discriminate.
  - inversion Hcs; subst. rewrite H. constructor.
  - destruct s1 as [|c1 s1].
    + simpl in Hcs. subst s2.
      apply RegExp_nullable_spec in Hm1. rewrite Hm1.
      apply RegExp.MAltR. auto.
    + simpl in Hcs. inversion Hcs; subst.
      destruct (RegExp.nullable r1);
        [apply RegExp.MAltL |]; constructor; auto.
  - apply RegExp.MAltL; auto.
  - apply RegExp.MAltR; auto.
  - destruct s1 as [|c1 s1].
    + simpl in Hcs. apply IHHm2 in Hcs. exact Hcs.
    + simpl in Hcs. inversion Hcs; subst. constructor; auto.
Qed.

Lemma RegExp_fullMatch_spec (s : list ascii) :
  forall r, RegExp.fullMatch r s = true <-> RegExp.Matches r s.
Proof.
  induction s as [|c s IH]; intros r; simpl.
  - apply RegExp_nullable_spec.
  - rewrite IH. split; [apply RegExp_deriv_sound | apply RegExp_deriv_complete].
Qed.

Lemma RegExp_any_star (s : list ascii) : RegExp.Matches (RegExp.Star RegExp.Any) s.
Proof.
  induction s as [|c s IH]; [constructor |].
  change (c :: s) with ([c] ++ s). constructor; auto. constructor. reflexivity.
Qed.

(** [test] is an unanchored search. *)
Lemma RegExp_test_spec (r : RegExp.t) (s : string) :
  RegExp.test r s = true <->
  exists pre mid post,
    list_ascii_of_string s = pre ++ mid ++ post /\ RegExp.Matches r mid.
Proof.
  unfold RegExp.test. rewrite RegExp_fullMatch_spec. split.
  - intros Hm. inversion Hm as [| |r1 r2 pre rest _ Hrest| | | |]; subst.
    inversion Hrest as [| |r1 r2 mid post Hmid _| | | |]; subst.
    exists pre, mid, post. split; auto.
  - intros (pre & mid & post & -> & Hmid).
    repeat constructor; auto using RegExp_any_star.
Qed.

Lemma RegExp_char_spec (c : ascii) (s : list ascii) :
  RegExp.Matches (RegExp.Char c) s <-> s = [c].
Proof.
  unfold RegExp.Char. split.
  - intros Hm. inversion Hm; subst.
    match goal with H : Ascii.eqb _ _ = true |- _ =>
      apply Ascii.eqb_eq in H; subst end. reflexivity.
  - intros ->. constructor. apply Ascii.eqb_refl.
Qed.

Lemma RegExp_literal_spec (l s : list ascii) :
  RegExp.Matches (RegExp.Literal l) s <-> s = l.
Proof.
  revert s. induction l as [|c l IH]; intros s; simpl.
  - split; [intros Hm; inversion Hm; auto | intros ->; constructor].
  - split.
    + intros Hm. inversion Hm; subst.
      match goal with H : RegExp.Matches (RegExp.Char _) _ |- _ =>
        apply RegExp_char_spec in H; subst end.
      match goal with H : RegExp.Matches (RegExp.Literal _) _ |- _ =>
        apply IH in H; subst end. reflexivity.
    + intros ->. change (c :: l) with ([c] ++ l).
      constructor; [apply RegExp_char_spec | apply IH]; reflexivity.
Qed.

Lemma RegExp_class_star_spec (p : ascii -> bool) (s : list ascii) :
  RegExp.Matches (RegExp.Star (RegExp.Class p)) s <-> forallb p s = true.
Proof.
  split.
  - intros Hm. remember (RegExp.Star (RegExp.Class p)) as r eqn:Hr.
    induction Hm; try discriminate; auto.
    injection Hr as ->. inversion Hm1; subst. simpl.
    rewrite IHHm2 by reflexivity. rewrite andb_true_r. assumption.
  - induction s as [|c s IH]; simpl; intros Hp; [constructor |].
    apply andb_true_iff in Hp as [Hc Hs].
    change (c :: s) with ([c] ++ s). constructor; auto. constructor; auto.
Qed.

Lemma RegExp_class_plus_spec (p : ascii -> bool) (s : list ascii) :
  RegExp.Matches (RegExp.Plus (RegExp.Class p)) s <->
  s <> [] /\ forallb p s = true.
Proof.
  unfold RegExp.Plus. split.
  - intros Hm. inversion Hm; subst.
    match goal with H : RegExp.Matches (RegExp.Class _) _ |- _ =>
      inversion H; subst end.
    match goal with H : RegExp.Matches (RegExp.Star _) _ |- _ =>
      apply RegExp_class_star_spec in H end.
    simpl. split; [discriminate |]. apply andb_true_iff; auto.
  - intros [Hne Hp]. destruct s as [|c s]; [congruence |].
    simpl in Hp. apply andb_true_iff in Hp as [Hc Hs].
    change (c :: s) with ([c] ++ s). constructor; [constructor; auto |].
    apply RegExp_class_star_spec; auto.
Qed.

(** *** [URI.create] *)

Lemma RegExp_segments_spec (l : list ascii) (sep : ascii)
  (p1 p2 p3 : ascii -> bool) (mid : list ascii) :
  RegExp.Matches
    (RegExp.Seq (RegExp.Literal l)
       (RegExp.Seq (RegExp.Plus (RegExp.Class p1))
          (RegExp.Seq (RegExp.Char sep)
             (RegExp.Seq (RegExp.Plus (RegExp.Class p2))
                (RegExp.Seq (RegExp.Char sep)
                   (RegExp.Plus (RegExp.Class p3))))))) mid
  <->
  exists a c k,
    mid = l ++ a ++ [sep] ++ c ++ [sep] ++ k
    /\ a <> [] /\ c <> [] /\ k <> []
    /\ forallb p1 a = true /\ forallb p2 c = true /\ forallb p3 k = true.
Proof.
  split.
  - intros Hm.
    inversion Hm as [| |? ? l0 t0 H0 Ht0| | | |]; subst; clear Hm.
    apply RegExp_literal_spec in H0; subst l0.
    inversion Ht0 as [| |? ? a t1 Ha Ht1| | | |]; subst; clear Ht0.
    apply RegExp_class_plus_spec in Ha as [Hane Ha].
    inversion Ht1 as [| |? ? l1 t2 H1 Ht2| | | |]; subst; clear Ht1.
    apply RegExp_char_spec in H1; subst l1.
    inversion Ht2 as [| |? ? c t3 Hc Ht3| | | |]; subst; clear Ht2.
    apply RegExp_class_plus_spec in Hc as [Hcne Hc].
    inversion Ht3 as [| |? ? l2 k H2 Hk| | | |]; subst; clear Ht3.
    apply RegExp_char_spec in H2; subst l2.
    apply RegExp_class_plus_spec in Hk as [Hkne Hk].
    exists a, c, k. repeat split; auto.
  - intros (a & c & k & -> & Hane & Hcne & Hkne & Ha & Hc & Hk).
    constructor; [apply RegExp_literal_spec; reflexivity |].
    constructor; [apply RegExp_class_plus_spec; auto |].
    constructor; [apply RegExp_char_spec; reflexivity |].
    constructor; [apply RegExp_class_plus_spec; auto |].
    constructor; [apply RegExp_char_spec; reflexivity |].
    apply RegExp_class_plus_spec; auto.
Qed.

Lemma atUriPattern_spec (mid : list ascii) :
  RegExp.Matches URI.atUriPattern mid <-> atUriShape mid.
Proof.
  unfold URI.atUriPattern, atUriShape. apply RegExp_segments_spec.
Qed.

Lemma atUriPattern_test (s : string) :
  RegExp.test URI.atUriPattern s = true <-> containsAtUri s.
Proof.
  rewrite RegExp_test_spec. unfold containsAtUri, chars.
  split; intros (pre & mid & post & Hs & Hm); exists pre, mid, post;
    (split; [exact Hs | apply atUriPattern_spec; exact Hm]).
Qed.

Section URIFacts.
Context `{Platform}.

(** The constructor does not throw on a value that [create] has accepted. *)
Lemma URI_new_accepted (s : string) :
  parsesAsURL s = true \/
  (JS.startsWith "at://" s = true /\ RegExp.test URI.atUriPattern s = true) ->
  URI.new s = Normal (URI.mk s).
Proof.
  unfold URI.new. intros [Hp | [Hs Ht]].
  - rewrite Hp. reflexivity.
  - destruct (parsesAsURL s); [reflexivity |]. rewrite Hs, Ht. reflexivity.
Qed.

(** X20: what [URI.create] does.  It never throws; it returns the URI
    holding the value exactly when the value parses as a URL, or starts
    with [at://] and contains, anywhere, a substring of the shape
    [at://authority/collection/key]; every other value gets a format
    error, "Invalid AT URI format" when it starts with [at://] and
    "Invalid URI format" otherwise. *)
Theorem URI_create_accepts (s : string) :
  exists r,
    URI.create s = Normal r
    /\ (isOk r = true <->
        parsesAsURL s = true \/
        (JS.startsWith "at://" s = true /\ containsAtUri s))
    /\ (isOk r = true -> r = ok (URI.mk s))
    /\ (isOk r = false ->
        r = err (mkError
                   ((if JS.startsWith "at://" s
                     then "Invalid AT URI format: "
                     else "Invalid URI format: ") ++ s)%string)).
Proof.
  unfold URI.create, URI.createFallback.
  destruct (parsesAsURL s) eqn:Hp.
  - rewrite (URI_new_accepted s) by auto.
    exists (ok (URI.mk s)). simpl. repeat split; auto; discriminate.
  - destruct (JS.startsWith "at://" s) eqn:Hs.
    + destruct (RegExp.test URI.atUriPattern s) eqn:Ht; simpl.
      * rewrite (URI_new_accepted s) by auto.
        exists (ok (URI.mk s)). simpl. repeat split; auto; try discriminate.
        intros _. right. split; auto. apply atUriPattern_test; auto.
      * eexists. split; [reflexivity |]. simpl. repeat split; auto;
          try discriminate.
        intros [Hc | [_ Hc]]; [discriminate |].
        apply atUriPattern_test in Hc. congruence.
    + eexists. split; [reflexivity |]. simpl. repeat split; auto;
        try discriminate.
      intros [Hc | [Hc _]]; discriminate.
Qed.

End URIFacts.

(** C8: the format check of [URI.create] misses the ledger's grammar on
    both sides.  The first value below does not parse as a URL (its host
    holds spaces) and is not of the form
    scheme://authority/collection/key, yet [URI.create] accepts it: the
    pattern has no anchors and is found at the end of the value.  The
    second value, the AT-URI of the comment in [ATUri.ts], is of that
    form, and the [ATUri] constructor accepts it, yet [URI.create]
    refuses it: the authority class of the pattern has no colon, and the
    value does not parse as a URL either (its colons announce a port that
    is no number). *)
Lemma URI_create_misses_ledger_grammar :
  (@parsesAsURL Sample.platform "at://not a uri/at://a/b/c" = false
   /\ ledgerStyleURI "at://not a uri/at://a/b/c" = false
   /\ @URI.create Sample.platform "at://not a uri/at://a/b/c"
      = Normal (ok (URI.mk "at://not a uri/at://a/b/c")))
  /\ (ledgerStyleURI
        "at://did:plc:lehcqqkwzcwvjvw66uthu5oq/app.bsky.feed.post/3lnxh4zet5c2a"
      = true
      /\ @ATUri.new Sample.didClass
           "at://did:plc:lehcqqkwzcwvjvw66uthu5oq/app.bsky.feed.post/3lnxh4zet5c2a"
         = Normal
             (@ATUri.mk Sample.didClass
                "at://did:plc:lehcqqkwzcwvjvw66uthu5oq/app.bsky.feed.post/3lnxh4zet5c2a"
                "did:plc:lehcqqkwzcwvjvw66uthu5oq" "app.bsky.feed.post"
                "3lnxh4zet5c2a")
      /\ @URI.create Sample.platform
           "at://did:plc:lehcqqkwzcwvjvw66uthu5oq/app.bsky.feed.post/3lnxh4zet5c2a"
         = Normal
             (err (mkError
                     "Invalid AT URI format: at://did:plc:lehcqqkwzcwvjvw66uthu5oq/app.bsky.feed.post/3lnxh4zet5c2a"))).
Proof.
  split; (split; [| split]); vm_compute; reflexivity.
Qed.

(** [URI.create] on the sample platform.  An [https] URL and an [at://]
    URI whose authority is a handle parse as URLs.  The AT-URI of the
    comment in [ATUri.ts], whose authority is a DID, does not parse (its
    colons announce a port that is no number) and does not contain the
    pattern either, whose authority class has no colon: it is refused. *)
Example URI_create_https :
  @URI.create Sample.platform "https://example.com/resource"
  = Normal (ok (URI.mk "https://example.com/resource")).
Proof. vm_compute. reflexivity. Qed.

Example URI_create_handle :
  @URI.create Sample.platform "at://alice.example.com/app.bsky.feed.post/3lnxh4zet5c2a"
  = Normal (ok (URI.mk "at://alice.example.com/app.bsky.feed.post/3lnxh4zet5c2a")).
Proof. vm_compute. reflexivity. Qed.

Example URI_create_did_authority :
  @URI.create Sample.platform
    "at://did:plc:lehcqqkwzcwvjvw66uthu5oq/app.bsky.feed.post/3lnxh4zet5c2a"
  = Normal
      (err (mkError
              "Invalid AT URI format: at://did:plc:lehcqqkwzcwvjvw66uthu5oq/app.bsky.feed.post/3lnxh4zet5c2a")).
Proof. vm_compute. reflexivity. Qed.

Example URI_create_plain_text :
  @URI.create Sample.platform "not a uri"
  = Normal (err (mkError "Invalid URI format: not a uri")).
Proof. vm_compute. reflexivity. Qed.

Example JS_split_at_uri :
  JS.split "/" "at://did:plc:lehcqqkwzcwvjvw66uthu5oq/app.bsky.feed.post/3lnxh4zet5c2a"
  = ["at:"; ""; "did:plc:lehcqqkwzcwvjvw66uthu5oq"; "app.bsky.feed.post";
     "3lnxh4zet5c2a"]%string.
Proof. vm_compute. reflexivity. Qed.

Example JS_split_empty : JS.split "/" "" = [""]%string.
Proof. reflexivity. Qed.

(** *** [Annotation] *)

Section AnnotationFacts.
Context `{Domain}.

Lemma guard_passes_iff (p : Annotation.AnnotationPropsArg) :
  Guard.againstNullOrUndefinedBulk (Annotation.guardArgs p)
  = match firstAbsent p with
    | Some name => err (missingArgument name)
    | None => ok tt
    end.
Proof.
  unfold firstAbsent, Annotation.guardArgs.
  destruct (Annotation.arg_curatorId p), (Annotation.arg_url p),
    (Annotation.arg_annotationField p), (Annotation.arg_value p);
    reflexivity.
Qed.

(** C5: with [curatorId], [url], [annotationField] and [value] present,
    [Annotation.create] fails exactly when the value does not match the
    field's type (and succeeds with the defaulted props otherwise); when
    one of the four is absent it fails with the guard's missing-argument
    error for the first absent one. *)
Theorem Annotation_create_fails_iff (p : Annotation.AnnotationPropsArg)
  (id : option UniqueEntityID) (fresh : UniqueEntityID) (now : Date) :
  (forall c u f v,
      Annotation.arg_curatorId p = Some c ->
      Annotation.arg_url p = Some u ->
      Annotation.arg_annotationField p = Some f ->
      Annotation.arg_value p = Some v ->
      exists r,
        Annotation.create p id fresh now = Normal r
        /\ (isErr r = true <-> matchesFieldType v f = false)
        /\ (matchesFieldType v f = false ->
            r = err (mkError "Value does not match field type"))
        /\ (matchesFieldType v f = true ->
            r = ok (Annotation.mk (default fresh id)
                      (Annotation.mkProps c u f v
                         (Some (default [] (Annotation.arg_annotationTemplateIds p)))
                         (Annotation.arg_note p)
                         (Some (default now (Annotation.arg_createdAt p)))
                         (Annotation.arg_publishedRecordId p)))))
  /\ (forall name,
        firstAbsent p = Some name ->
        Annotation.create p id fresh now
        = Normal (err (mkError (missingArgument name)))).
Proof.
  unfold Annotation.create. rewrite guard_passes_iff. split.
  - intros c u f v Hc Hu Hf Hv. unfold firstAbsent.
    rewrite Hc, Hu, Hf, Hv.
    destruct (matchesFieldType v f) eqn:Hm; simpl; eexists;
      (split; [reflexivity |]); simpl; repeat split; auto; discriminate.
  - intros name Hname. rewrite Hname. reflexivity.
Qed.

(** C7: [updateValue] fails with [InvalidValueTypeError] exactly when the
    new value is not of the type of the current one; otherwise it returns
    success, the value is replaced and every other component of the
    annotation is as before. *)
Theorem Annotation_updateValue_frame (a : Annotation.t) (v : AnnotationValue) :
  (fst (Annotation.updateValue a v)
     = err UpdateAnnotationErrors.InvalidValueTypeError
   <-> isSameType (Annotation.value (Annotation.props a)) v = false)
  /\ (isSameType (Annotation.value (Annotation.props a)) v = true ->
      let a' := snd (Annotation.updateValue a v) in
      fst (Annotation.updateValue a v) = ok tt
      /\ Annotation.value (Annotation.props a') = v
      /\ Annotation._id a' = Annotation._id a
      /\ Annotation.curatorId (Annotation.props a')
         = Annotation.curatorId (Annotation.props a)
      /\ Annotation.url (Annotation.props a') = Annotation.url (Annotation.props a)
      /\ Annotation.annotationField (Annotation.props a')
         = Annotation.annotationField (Annotation.props a)
      /\ Annotation.note (Annotation.props a') = Annotation.note (Annotation.props a)
      /\ Annotation.annotationTemplateIds (Annotation.props a')
         = Annotation.annotationTemplateIds (Annotation.props a)
      /\ Annotation.createdAt (Annotation.props a')
         = Annotation.createdAt (Annotation.props a)
      /\ Annotation.publishedRecordId (Annotation.props a')
         = Annotation.publishedRecordId (Annotation.props a)).
Proof.
  unfold Annotation.updateValue.
  destruct (isSameType (Annotation.value (Annotation.props a)) v) eqn:Hs;
    simpl; split; try (split; congruence); try discriminate.
  intros _. repeat split.
Qed.

End AnnotationFacts.

(** C5 on the sample domain: a rating for a rating field is accepted, and
    props without a url are refused with the guard's error for [url]. *)
Lemma Annotation_create_fails_iff_witness :
  (exists r,
      @Annotation.create Sample.domain Sample.ratingProps None "a-1" 0 = Normal r
      /\ isErr r = false)
  /\ @Annotation.create Sample.domain Sample.propsWithoutUrl None "a-1" 0
     = Normal (err (mkError "url is null or undefined")).
Proof.
  split.
  - destruct (proj1 (@Annotation_create_fails_iff Sample.domain
                       Sample.ratingProps None "a-1" 0)
                _ _ _ _ eq_refl eq_refl eq_refl eq_refl)
      as (r & Hr & Hiff & _ & _).
    exists r. split; [exact Hr |].
    destruct (isErr r); [| reflexivity].
    destruct Hiff as [Hiff _]. specialize (Hiff eq_refl). discriminate Hiff.
  - exact (proj2 (@Annotation_create_fails_iff Sample.domain
                    Sample.propsWithoutUrl None "a-1" 0)
             "url" eq_refl).
Defined.

(** C7 on the sample domain: a rating replaced by another rating. *)
Lemma Annotation_updateValue_frame_witness :
  fst (@Annotation.updateValue Sample.domain Sample.rating
         (Sample.mkValue "rating" 2)) = ok tt
  /\ Annotation.publishedRecordId
       (Annotation.props
          (snd (@Annotation.updateValue Sample.domain Sample.rating
                  (Sample.mkValue "rating" 2)))) = None.
Proof.
  pose proof (proj2 (@Annotation_updateValue_frame Sample.domain Sample.rating
                       (Sample.mkValue "rating" 2)) eq_refl) as Hw.
  cbv zeta in Hw.
  destruct Hw as (Hok & _ & _ & _ & _ & _ & _ & _ & _ & Hpub).
  split; [exact Hok | exact Hpub].
Defined.

(** *** [AnnotationsFromTemplate] *)

Lemma CuratorId_equals_eq (a b : CuratorId.t) :
  CuratorId.equals a b = true <-> a = b.
Proof.
  unfold CuratorId.equals. rewrite String.eqb_eq.
  destruct a, b; simpl. split; congruence.
Qed.

Lemma AnnotationFieldId_equals_eq (a b : AnnotationFieldId.t) :
  AnnotationFieldId.equals a b = true <-> a = b.
Proof.
  unfold AnnotationFieldId.equals. rewrite String.eqb_eq.
  destruct a, b; simpl. split; congruence.
Qed.

Section BatchFacts.
Context `{Domain}.

Lemma sameCurator_all (props : AnnotationsFromTemplate.t) :
  forallb (AnnotationsFromTemplate.sameCurator
             (AnnotationsFromTemplate.curatorId props))
    (AnnotationsFromTemplate.annotations props) = true
  <-> curatorsAgree props.
Proof.
  rewrite forallb_forall. unfold curatorsAgree.
  split; intros Hall a Ha; specialize (Hall a Ha);
    apply CuratorId_equals_eq; exact Hall.
Qed.

Lemma covered_refersTo (props : AnnotationsFromTemplate.t)
  (f : AnnotationTemplate.TemplateField) :
  AnnotationsFromTemplate.covered
    (AnnotationsFromTemplate.annotations props) f = true
  <-> refersTo props (fieldId (AnnotationTemplate.field f)).
Proof.
  unfold AnnotationsFromTemplate.covered, refersTo. rewrite existsb_exists.
  split; intros (a & Ha & Heq); exists a; (split; [exact Ha |]);
    apply AnnotationFieldId_equals_eq; exact Heq.
Qed.

(** The ids reported missing are those of the required fields that no
    annotation refers to. *)
Lemma missingRequired_In (props : AnnotationsFromTemplate.t)
  (i : AnnotationFieldId.t) :
  In i (AnnotationsFromTemplate.missingRequired
          (AnnotationsFromTemplate.template props)
          (AnnotationsFromTemplate.annotations props))
  <->
  exists f,
    In f (AnnotationTemplate.annotationFields
            (AnnotationsFromTemplate.template props))
    /\ AnnotationTemplate.required f = true
    /\ fieldId (AnnotationTemplate.field f) = i
    /\ ~ refersTo props i.
Proof.
  unfold AnnotationsFromTemplate.missingRequired. rewrite in_map_iff.
  split.
  - intros (f & <- & Hf). apply filter_In in Hf as [Hin Hreq].
    apply andb_true_iff in Hreq as [Hreq Hcov].
    exists f. repeat split; auto.
    intros Href. apply covered_refersTo in Href.
    rewrite Href in Hcov. discriminate.
  - intros (f & Hin & Hreq & <- & Hno). exists f. split; [reflexivity |].
    apply filter_In. split; [exact Hin |]. rewrite Hreq. simpl.
    destruct (AnnotationsFromTemplate.covered _ f) eqn:Hcov; [| reflexivity].
    exfalso. apply Hno. apply covered_refersTo. exact Hcov.
Qed.

Lemma missingRequired_nil (props : AnnotationsFromTemplate.t) :
  AnnotationsFromTemplate.missingRequired
    (AnnotationsFromTemplate.template props)
    (AnnotationsFromTemplate.annotations props) = []
  <-> requiredCovered props.
Proof.
  split.
  - intros Hnil f Hin Hreq.
    destruct (AnnotationsFromTemplate.covered
                (AnnotationsFromTemplate.annotations props) f) eqn:Hcov.
    + apply covered_refersTo. exact Hcov.
    + exfalso.
      assert (Hm : In (fieldId (AnnotationTemplate.field f))
                     (AnnotationsFromTemplate.missingRequired
                        (AnnotationsFromTemplate.template props)
                        (AnnotationsFromTemplate.annotations props))).
      { apply missingRequired_In. exists f. repeat split; auto.
        intros Href. apply covered_refersTo in Href. congruence. }
      rewrite Hnil in Hm. exact Hm.
  - intros Hcov.
    destruct (AnnotationsFromTemplate.missingRequired _ _) as [|i l] eqn:Hm;
      [reflexivity |].
    exfalso.
    assert (Hi : In i (AnnotationsFromTemplate.missingRequired
                         (AnnotationsFromTemplate.template props)
                         (AnnotationsFromTemplate.annotations props)))
      by (rewrite Hm; left; reflexivity).
    apply missingRequired_In in Hi as (f & Hin & Hreq & <- & Hno).
    apply Hno. apply Hcov; assumption.
Qed.

(** A batch that [create] accepts is returned as it was given. *)
Lemma create_ok_same (props batch : AnnotationsFromTemplate.t) :
  AnnotationsFromTemplate.create props = ok batch -> batch = props.
Proof.
  unfold AnnotationsFromTemplate.create.
  destruct (negb (forallb _ _)); [discriminate |].
  destruct (negb (bool_decide _)); [discriminate |].
  destruct (AnnotationsFromTemplate.missingRequired _ _); [| discriminate].
  congruence.
Qed.

(** C1: [AnnotationsFromTemplate.create] succeeds exactly when (1) the
    annotations carry the batch's curatorId, (2) no field id is referenced
    twice and (3) every required field of the template has an annotation;
    the checks are made in that order, each failure names the first
    condition that is violated, and for (3) the error lists the required
    fields that have no annotation. *)
Theorem AnnotationsFromTemplate_create_iff (props : AnnotationsFromTemplate.t) :
  (isOk (AnnotationsFromTemplate.create props) = true
   <-> curatorsAgree props /\ fieldsDistinct props /\ requiredCovered props)
  /\ (isOk (AnnotationsFromTemplate.create props) = true ->
      AnnotationsFromTemplate.create props = ok props)
  /\ (~ curatorsAgree props ->
      AnnotationsFromTemplate.create props
      = err AnnotationsFromTemplate.CuratorMismatch)
  /\ (curatorsAgree props -> ~ fieldsDistinct props ->
      AnnotationsFromTemplate.create props
      = err AnnotationsFromTemplate.DuplicateFields)
  /\ (curatorsAgree props -> fieldsDistinct props -> ~ requiredCovered props ->
      exists missing,
        AnnotationsFromTemplate.create props
        = err (AnnotationsFromTemplate.MissingRequiredFields missing)
        /\ missing <> []
        /\ forall i,
             In i missing <->
             exists f,
               In f (AnnotationTemplate.annotationFields
                       (AnnotationsFromTemplate.template props))
               /\ AnnotationTemplate.required f = true
               /\ fieldId (AnnotationTemplate.field f) = i
               /\ ~ refersTo props i).
Proof.
  pose proof (sameCurator_all props) as Hc.
  pose proof (missingRequired_nil props) as Hm.
  pose proof (missingRequired_In props) as Hin.
  unfold AnnotationsFromTemplate.create, fieldsDistinct in *.
  destruct (forallb _ (AnnotationsFromTemplate.annotations props)) eqn:Hfa;
    simpl.
  - assert (Hagree : curatorsAgree props) by (apply Hc; reflexivity).
    destruct (bool_decide (NoDup _)) eqn:Hnd; simpl.
    + apply bool_decide_eq_true in Hnd.
      destruct (AnnotationsFromTemplate.missingRequired _ _) as [|i l] eqn:Hmiss.
      * assert (Hcov : requiredCovered props) by (apply Hm; reflexivity).
        simpl. repeat split; auto; try contradiction; try discriminate.
      * assert (Hncov : ~ requiredCovered props).
        { intros Hcov. apply Hm in Hcov. discriminate. }
        simpl. repeat split; try contradiction; try discriminate.
        -- intros (_ & _ & Hcov). contradiction.
        -- intros _ _ _. eexists. split; [reflexivity |].
           split; [discriminate | exact Hin].
    + apply bool_decide_eq_false in Hnd.
      repeat split; try contradiction; try discriminate.
      intros (_ & Hd & _). contradiction.
  - assert (Hdis : ~ curatorsAgree props).
    { intros Hagree. apply Hc in Hagree. discriminate. }
    repeat split; try contradiction; try discriminate.
    intros (Hagree & _). contradiction.
Qed.

Lemma coversBatch_forallb (b : AnnotationsFromTemplate.t)
  (ids : gmap string PublishedRecordId.t) :
  forallb
    (fun a => bool_decide
                (is_Some (ids !! AnnotationsFromTemplate.annotationKey a)))
    (AnnotationsFromTemplate.annotations b) = true
  <-> coversBatch b ids.
Proof.
  rewrite forallb_forall. unfold coversBatch.
  split; intros Hall a Ha; specialize (Hall a Ha).
  - apply bool_decide_eq_true in Hall. exact Hall.
  - apply bool_decide_eq_true. exact Hall.
Qed.

Lemma markOne_Forall2 (ids : gmap string PublishedRecordId.t)
  (l : list Annotation.t) :
  (forall a, In a l ->
     is_Some (ids !! AnnotationsFromTemplate.annotationKey a)) ->
  Forall2
    (fun a a' =>
       exists r,
         ids !! AnnotationsFromTemplate.annotationKey a = Some r
         /\ a' = Annotation.markAsPublished a r)
    l (map (AnnotationsFromTemplate.markOne ids) l).
Proof.
  induction l as [|a l IH]; intros Hall; simpl; constructor.
  - destruct (Hall a (or_introl eq_refl)) as [r Hr]. exists r.
    unfold AnnotationsFromTemplate.markOne. rewrite Hr. auto.
  - apply IH. intros a' Ha'. apply Hall. right. exact Ha'.
Qed.

(** C3: [markAllAnnotationsAsPublished] is all-or-nothing.  When the map
    lacks the id of some annotation, it fails and the batch, hence every
    annotation and its [publishedRecordId], is as before; when the map has
    the id of every annotation it succeeds, and the annotations are, in
    order, the former ones marked as published with their entry of the
    map. *)
Theorem markAllAnnotationsAsPublished_all_or_nothing
  (b : AnnotationsFromTemplate.t) (ids : gmap string PublishedRecordId.t) :
  ((exists a, In a (AnnotationsFromTemplate.annotations b)
              /\ ids !! AnnotationsFromTemplate.annotationKey a = None) ->
   AnnotationsFromTemplate.markAllAnnotationsAsPublished b ids
   = (err AnnotationsFromTemplate.MissingPublishedRecordId, b))
  /\ (coversBatch b ids ->
      exists b',
        AnnotationsFromTemplate.markAllAnnotationsAsPublished b ids = (ok tt, b')
        /\ AnnotationsFromTemplate.template b' = AnnotationsFromTemplate.template b
        /\ AnnotationsFromTemplate.curatorId b' = AnnotationsFromTemplate.curatorId b
        /\ AnnotationsFromTemplate.createdAt b' = AnnotationsFromTemplate.createdAt b
        /\ Forall2
             (fun a a' =>
                exists r,
                  ids !! AnnotationsFromTemplate.annotationKey a = Some r
                  /\ a' = Annotation.markAsPublished a r)
             (AnnotationsFromTemplate.annotations b)
             (AnnotationsFromTemplate.annotations b')).
Proof.
  pose proof (coversBatch_forallb b ids) as Hcov.
  unfold AnnotationsFromTemplate.markAllAnnotationsAsPublished.
  destruct (forallb _ (AnnotationsFromTemplate.annotations b)) eqn:Hfa.
  - assert (Hall : coversBatch b ids) by (apply Hcov; reflexivity). split.
    + intros (a & Ha & Hnone). destruct (Hall a Ha) as [r Hr]. congruence.
    + intros _. eexists. split; [reflexivity |]. simpl. repeat split.
      apply markOne_Forall2. exact Hall.
  - split; [reflexivity |].
    intros Hall. apply Hcov in Hall. discriminate.
Qed.

End BatchFacts.

(** C1 on the sample template, whose rating field is required and whose
    dyad field is optional: a batch with the rating alone is accepted. *)
Lemma AnnotationsFromTemplate_create_iff_witness :
  @AnnotationsFromTemplate.create Sample.domain (Sample.batch [Sample.rating])
  = ok (Sample.batch [Sample.rating]).
Proof.
  apply (proj1 (proj2 (@AnnotationsFromTemplate_create_iff Sample.domain
                         (Sample.batch [Sample.rating])))).
  vm_compute. reflexivity.
Defined.

(** A batch with the dyad alone lacks the required rating field. *)
Example AnnotationsFromTemplate_create_missing :
  @AnnotationsFromTemplate.create Sample.domain (Sample.batch [Sample.dyad])
  = err (AnnotationsFromTemplate.MissingRequiredFields
           [AnnotationFieldId.mk "field-1"]).
Proof. vm_compute. reflexivity. Qed.

(** C3 on the sample batch: the map lacks the second annotation's id, so
    the first one is not marked either. *)
Lemma markAllAnnotationsAsPublished_all_or_nothing_witness :
  @AnnotationsFromTemplate.markAllAnnotationsAsPublished Sample.domain
    (Sample.batch [Sample.rating; Sample.dyad])
    {[ "a-1" := recordIdOf (Sample.created "a-1") ]}
  = (err AnnotationsFromTemplate.MissingPublishedRecordId,
     Sample.batch [Sample.rating; Sample.dyad]).
Proof.
  apply (proj1 (@markAllAnnotationsAsPublished_all_or_nothing Sample.domain
                  (Sample.batch [Sample.rating; Sample.dyad])
                  {[ "a-1" := recordIdOf (Sample.created "a-1") ]})).
  exists Sample.dyad. split; [right; left; reflexivity |].
  vm_compute. reflexivity.
Defined.

(** *** The publisher *)

Section PublisherFacts.
Context {D : Domain} {L : Ledger D} {DI : DIDClass}.

Import ATProtoAnnotationsFromTemplatePublisher.

Lemma confirmsCreate_eqb (r : WriteResult) :
  String.eqb (dollarType r) createResultType = true <-> confirmsCreate r.
Proof. unfold confirmsCreate, createResultType. apply String.eqb_eq. Qed.

(** A key that no remaining annotation has keeps its entry. *)
Lemma mapResults_other (annotations : list Annotation.t) :
  forall i results acc m k,
    mapResults annotations i results acc = ok m ->
    ~ In k (map AnnotationsFromTemplate.annotationKey annotations) ->
    m !! k = acc !! k.
Proof.
  induction annotations as [|a l IH]; simpl; intros i results acc m k Hm Hk.
  - congruence.
  - destruct (results !! i) as [r|]; [| discriminate].
    destruct (String.eqb (dollarType r) createResultType); simpl in Hm;
      [| discriminate].
    rewrite (IH _ _ _ _ k Hm) by tauto.
    apply lookup_insert_ne. intros Heq. apply Hk. left. exact Heq.
Qed.

(** On success every input position has a create confirmation, and, the
    ids being distinct, the entry of an annotation is built from the
    result at its position. *)
Lemma mapResults_ok (annotations : list Annotation.t) :
  forall i results acc m,
    mapResults annotations i results acc = ok m ->
    forall j a,
      annotations !! j = Some a ->
      exists r,
        results !! (i + j) = Some r /\ confirmsCreate r
        /\ (NoDup (map AnnotationsFromTemplate.annotationKey annotations) ->
            m !! AnnotationsFromTemplate.annotationKey a = Some (recordIdOf r)).
Proof.
  induction annotations as [|a0 l IH]; simpl; intros i results acc m Hm j a Hj.
  - discriminate.
  - destruct (results !! i) as [r|] eqn:Hr; [| discriminate].
    destruct (String.eqb (dollarType r) createResultType) eqn:Ht;
      simpl in Hm; [| discriminate].
    destruct j as [|j]; simpl in Hj.
    + injection Hj as <-. exists r. rewrite Nat.add_0_r.
      split; [exact Hr |]. split; [apply confirmsCreate_eqb; exact Ht |].
      intros Hnd. apply NoDup_cons in Hnd as [Hnotin _].
      rewrite (mapResults_other _ _ _ _ _ _ Hm).
      * apply lookup_insert_eq.
      * rewrite <- list_elem_of_In. exact Hnotin.
    + destruct (IH _ _ _ _ Hm j a Hj) as (r' & Hr' & Hc & Hlook).
      exists r'. replace (i + S j) with (S i + j) by lia.
      split; [exact Hr' |]. split; [exact Hc |].
      intros Hnd. apply NoDup_cons in Hnd as [_ Hnd]. auto.
Qed.

(** The keys of the map on success: those it had, and the ids. *)
Lemma mapResults_keys (annotations : list Annotation.t) :
  forall i results acc m k,
    mapResults annotations i results acc = ok m ->
    is_Some (m !! k) <->
    is_Some (acc !! k)
    \/ In k (map AnnotationsFromTemplate.annotationKey annotations).
Proof.
  induction annotations as [|a l IH]; simpl; intros i results acc m k Hm.
  - injection Hm as <-. tauto.
  - destruct (results !! i) as [r|]; [| discriminate].
    destruct (String.eqb (dollarType r) createResultType); simpl in Hm;
      [| discriminate].
    rewrite (IH _ _ _ _ k Hm).
    destruct (decide (AnnotationId.getStringValue (Annotation.annotationId a) = k))
      as [<- | Hne].
    + rewrite lookup_insert_eq. unfold AnnotationsFromTemplate.annotationKey.
      split; intros _; [right; left; reflexivity | left; eauto].
    + rewrite lookup_insert_ne by exact Hne.
      unfold AnnotationsFromTemplate.annotationKey. tauto.
Qed.

Lemma mapResults_size (annotations : list Annotation.t) :
  forall i results acc m,
    mapResults annotations i results acc = ok m ->
    NoDup (map AnnotationsFromTemplate.annotationKey annotations) ->
    (forall k, In k (map AnnotationsFromTemplate.annotationKey annotations) ->
               acc !! k = None) ->
    size m = size acc + length annotations.
Proof.
  induction annotations as [|a l IH]; simpl; intros i results acc m Hm Hnd Hfresh.
  - injection Hm as <-. lia.
  - destruct (results !! i) as [r|]; [| discriminate].
    destruct (String.eqb (dollarType r) createResultType); simpl in Hm;
      [| discriminate].
    apply NoDup_cons in Hnd as [Hnotin Hnd].
    rewrite (IH _ _ _ _ Hm Hnd).
    + rewrite map_size_insert_None by (apply Hfresh; left; reflexivity). lia.
    + intros k Hk. rewrite lookup_insert_ne.
      * apply Hfresh. right. exact Hk.
      * intros <-. apply Hnotin. apply list_elem_of_In. exact Hk.
Qed.

(** A missing result, or one that is no create confirmation, at an input
    position makes the loop fail. *)
Lemma mapResults_err (annotations : list Annotation.t) :
  forall i results acc j,
    j < length annotations ->
    (forall r, results !! (i + j) = Some r -> ~ confirmsCreate r) ->
    isErr (mapResults annotations i results acc) = true.
Proof.
  induction annotations as [|a l IH]; simpl; intros i results acc j Hj Hbad.
  - lia.
  - destruct (results !! i) as [r|] eqn:Hr; [| reflexivity].
    destruct (String.eqb (dollarType r) createResultType) eqn:Ht; simpl;
      [| reflexivity].
    destruct j as [|j].
    + exfalso. apply (Hbad r).
      * rewrite Nat.add_0_r. exact Hr.
      * apply confirmsCreate_eqb. exact Ht.
    + apply (IH (S i) results _ j); [lia |].
      intros r' Hr'. apply Hbad. replace (i + S j) with (S i + j) by lia.
      exact Hr'.
Qed.

(** The loop succeeds as soon as every input position holds a create
    confirmation: nothing else of the results is looked at. *)
Lemma mapResults_complete (annotations : list Annotation.t) :
  forall i results acc,
    (forall j, j < length annotations ->
       exists r, results !! (i + j) = Some r /\ confirmsCreate r) ->
    isOk (mapResults annotations i results acc) = true.
Proof.
  induction annotations as [|a l IH]; simpl; intros i results acc Hall;
    [reflexivity |].
  destruct (Hall 0) as (r & Hr & Hc); [lia |].
  rewrite Nat.add_0_r in Hr. rewrite Hr.
  apply confirmsCreate_eqb in Hc. rewrite Hc. simpl.
  apply IH. intros j Hj. replace (S i + j) with (i + S j) by lia.
  apply Hall. lia.
Qed.

(** What [publish] does once the batch has a first annotation whose
    curator DID is not empty. *)
Lemma publish_unfold (b : AnnotationsFromTemplate.t) (w : Agent)
  (a : Annotation.t) (rest : list Annotation.t) :
  AnnotationsFromTemplate.annotations b = a :: rest ->
  CuratorId.value (Annotation.curatorId (Annotation.props a)) <> "" ->
  publish b w
  = match
      applyWrites (ledger w)
        (publishRequest b
           (CuratorId.value (Annotation.curatorId (Annotation.props a))))
    with
    | (ledger', Thrown error) =>
        (err (mkError (message error)),
         mkAgent ledger'
           (sent w ++
            [publishRequest b
               (CuratorId.value (Annotation.curatorId (Annotation.props a)))]))
    | (ledger', Normal result) =>
        (mapResults (a :: rest) 0 (default [] (results result)) ∅,
         mkAgent ledger'
           (sent w ++
            [publishRequest b
               (CuratorId.value (Annotation.curatorId (Annotation.props a)))]))
    end.
Proof.
  intros Hb Hdid. unfold publish, call. rewrite Hb. simpl.
  destruct (String.eqb _ "") eqn:He.
  - apply String.eqb_eq in He. contradiction.
  - destruct (applyWrites _ _) as [ledger' [result | error]]; reflexivity.
Qed.

(** A batch without a usable curator DID is refused before any request. *)
Lemma publish_no_curator (b : AnnotationsFromTemplate.t) (w : Agent) :
  match AnnotationsFromTemplate.annotations b with
  | [] => True
  | a :: _ => CuratorId.value (Annotation.curatorId (Annotation.props a)) = ""
  end ->
  publish b w = (err (mkError "No curator DID found in annotations"), w).
Proof.
  unfold publish. destruct (AnnotationsFromTemplate.annotations b) as [|a l];
    simpl; intros Hd; [reflexivity |].
  rewrite Hd. reflexivity.
Qed.

(** C2 (as amended): when [publish] succeeds, the ledger has answered the
    batch's request, every input position holds a create confirmation, the
    map has exactly the annotation ids as keys, and, the ids being
    pairwise distinct, it has as many entries as the batch has annotations,
    the entry of the annotation at position [i] being built from the
    result at position [i].  Once the ledger has answered, [publish]
    succeeds exactly when every input position holds a create
    confirmation: it fails when the result at some input position is
    missing, in particular when the response holds fewer results than the
    batch has annotations, or is not a create confirmation, and results
    beyond the last input position do not make it fail. *)
Theorem publish_positional (b : AnnotationsFromTemplate.t) (w : Agent) :
  (forall m w',
      publish b w = (ok m, w') ->
      exists did response,
        firstCuratorDid b = Some did
        /\ applyWrites (ledger w) (publishRequest b did)
           = (ledger w', Normal response)
        /\ length (AnnotationsFromTemplate.annotations b)
           <= length (default [] (results response))
        /\ (forall i a,
              AnnotationsFromTemplate.annotations b !! i = Some a ->
              exists r,
                default [] (results response) !! i = Some r
                /\ confirmsCreate r
                /\ (NoDup (annotationKeys b) ->
                    m !! AnnotationsFromTemplate.annotationKey a
                    = Some (recordIdOf r)))
        /\ (forall k, is_Some (m !! k) <-> In k (annotationKeys b))
        /\ (NoDup (annotationKeys b) ->
            size m = length (AnnotationsFromTemplate.annotations b)))
  /\ (forall did ledger' response,
        firstCuratorDid b = Some did -> did <> "" ->
        applyWrites (ledger w) (publishRequest b did)
        = (ledger', Normal response) ->
        (isOk (fst (publish b w)) = true <->
         forall i,
           i < length (AnnotationsFromTemplate.annotations b) ->
           exists r,
             default [] (results response) !! i = Some r /\ confirmsCreate r)
        /\ (length (default [] (results response))
            < length (AnnotationsFromTemplate.annotations b)
            \/ (exists i r,
                  i < length (AnnotationsFromTemplate.annotations b)
                  /\ default [] (results response) !! i = Some r
                  /\ ~ confirmsCreate r) ->
            isErr (fst (publish b w)) = true)).
Proof.
  unfold firstCuratorDid, annotationKeys. split.
  - intros m w' Hp.
    destruct (AnnotationsFromTemplate.annotations b) as [|a rest] eqn:Hb.
    { rewrite publish_no_curator in Hp by (rewrite Hb; exact I).
      discriminate. }
    destruct (String.eqb
                (CuratorId.value (Annotation.curatorId (Annotation.props a))) "")
      eqn:He.
    { apply String.eqb_eq in He.
      rewrite publish_no_curator in Hp by (rewrite Hb; exact He).
      discriminate. }
    apply String.eqb_neq in He.
    rewrite (publish_unfold b w a rest Hb He) in Hp.
    destruct (applyWrites _ _) as [ledger' [response | error]] eqn:Ha;
      [| discriminate].
    apply pair_equal_spec in Hp as [Hm <-]. simpl.
    exists (CuratorId.value (Annotation.curatorId (Annotation.props a))),
      response.
    split; [reflexivity |]. split; [exact Ha |].
    pose proof (mapResults_ok _ _ _ _ _ Hm) as Hpos.
    assert (Hlookup :
              forall i x, (a :: rest) !! i = Some x ->
                exists r, default [] (results response) !! i = Some r
                  /\ confirmsCreate r
                  /\ (NoDup (map AnnotationsFromTemplate.annotationKey (a :: rest)) ->
                      m !! AnnotationsFromTemplate.annotationKey x
                      = Some (recordIdOf r))).
    { intros i x Hx. exact (Hpos i x Hx). }
    split; [| split; [exact Hlookup | split]].
    + destruct (le_lt_dec (length (a :: rest))
                  (length (default [] (results response)))) as [Hle | Hlt];
        [exact Hle | exfalso].
      destruct (lookup_lt_is_Some_2 (a :: rest)
                  (length (default [] (results response))) Hlt) as [x Hx].
      destruct (Hlookup _ x Hx) as (r & Hr & _).
      apply lookup_lt_Some in Hr. lia.
    + intros k. rewrite (mapResults_keys _ _ _ _ _ k Hm).
      rewrite lookup_empty. split; [intros [[? Hn] | Hk] | intros Hk].
      * discriminate.
      * exact Hk.
      * right. exact Hk.
    + intros Hnd. rewrite (mapResults_size _ _ _ _ _ Hm Hnd).
      * rewrite map_size_empty. reflexivity.
      * intros k _. apply lookup_empty.
  - intros did ledger' response Hdid Hne Ha.
    destruct (AnnotationsFromTemplate.annotations b) as [|a rest] eqn:Hb;
      [discriminate |].
    injection Hdid as <-.
    rewrite (publish_unfold b w a rest Hb Hne), Ha. cbn [fst].
    split; [split |].
    + destruct (mapResults (a :: rest) 0 (default [] (results response)) ∅)
        as [m | e] eqn:Hm; [| discriminate].
      intros _ i Hi.
      destruct (lookup_lt_is_Some_2 (a :: rest) i Hi) as [x Hx].
      destruct (mapResults_ok _ _ _ _ _ Hm i x Hx) as (r & Hr & Hc & _).
      exists r. split; [exact Hr | exact Hc].
    + intros Hall. apply mapResults_complete. exact Hall.
    + intros [Hshort | (i & r & Hi & Hr & Hnc)].
      * apply (mapResults_err _ 0 _ _ (length (default [] (results response))));
          [exact Hshort |].
        intros r Hr. simpl in Hr. apply lookup_lt_Some in Hr. lia.
      * apply (mapResults_err _ 0 _ _ i); [exact Hi |].
        intros r' Hr'. simpl in Hr'. congruence.
Qed.

(** C9: the empty batch is refused with "No curator DID found in
    annotations" and nothing is sent: the agent is as before.  For a batch
    that is not empty exactly one request is sent, under the first
    annotation's curatorId, with the batch's create operations and
    [validate: false]; a curator id is a validated value, and the one of
    the first annotation is taken not to hold the empty string. *)
Theorem publish_request_identity (b : AnnotationsFromTemplate.t) (w : Agent) :
  (AnnotationsFromTemplate.annotations b = [] ->
   publish b w = (err (mkError "No curator DID found in annotations"), w))
  /\ (forall a rest,
        AnnotationsFromTemplate.annotations b = a :: rest ->
        CuratorId.value (Annotation.curatorId (Annotation.props a)) <> "" ->
        sent (snd (publish b w))
        = sent w ++
          [mkRequest
             (CuratorId.value (Annotation.curatorId (Annotation.props a)))
             (map Create (toCreateOperations b COLLECTION))
             false]).
Proof.
  split.
  - intros Hb. apply publish_no_curator. rewrite Hb. exact I.
  - intros a rest Hb Hd. rewrite (publish_unfold b w a rest Hb Hd).
    destruct (applyWrites _ _) as [ledger' [response | error]]; reflexivity.
Qed.

End PublisherFacts.

(** C2 (as stated) fails, on two batches that
    [AnnotationsFromTemplate.create] accepts.  The ledger answers a batch
    of one annotation with two create confirmations, and [publish]
    succeeds although the number of results is not the number of inputs.
    And a batch of two annotations that [Annotation.create] was given the
    same id for, answered with two create confirmations, gets one
    identifier, not two, built from the result at the second position. *)
Lemma publish_count_not_as_claimed :
  (@AnnotationsFromTemplate.create Sample.domain (Sample.batch [Sample.rating])
   = ok (Sample.batch [Sample.rating])
   /\ length (AnnotationsFromTemplate.annotations (Sample.batch [Sample.rating]))
      = 1
   /\ snd (@applyWrites Sample.domain Sample.ledger
             [Sample.created "a-1"; Sample.created "extra"]
             (@ATProtoAnnotationsFromTemplatePublisher.publishRequest
                Sample.domain Sample.ledger (Sample.batch [Sample.rating])
                "did:plc:curator123"))
      = Normal
          (mkResponse (Some [Sample.created "a-1"; Sample.created "extra"]))
   /\ fst (@ATProtoAnnotationsFromTemplatePublisher.publish
             Sample.domain Sample.ledger (Sample.batch [Sample.rating])
             (Sample.agent [Sample.created "a-1"; Sample.created "extra"]))
      = ok {[ "a-1" := recordIdOf (Sample.created "a-1") ]})
  /\ (@Annotation.create Sample.domain Sample.ratingProps (Some "a-1") "a-9" 0
      = Normal (ok Sample.rating)
      /\ @Annotation.create Sample.domain Sample.dyadProps (Some "a-1") "a-9" 0
         = Normal (ok Sample.dyadTwin)
      /\ @AnnotationsFromTemplate.create Sample.domain
           (Sample.batch [Sample.rating; Sample.dyadTwin])
         = ok (Sample.batch [Sample.rating; Sample.dyadTwin])
      /\ fst (@ATProtoAnnotationsFromTemplatePublisher.publish
                Sample.domain Sample.ledger
                (Sample.batch [Sample.rating; Sample.dyadTwin])
                (Sample.agent [Sample.created "k0"; Sample.created "k1"]))
         = ok {[ "a-1" := recordIdOf (Sample.created "k1") ]}).
Proof.
  split.
  - split; [vm_compute; reflexivity |].
    split; [reflexivity | split; [reflexivity | vm_compute; reflexivity]].
  - split; [vm_compute; reflexivity |].
    split; [vm_compute; reflexivity |].
    split; vm_compute; reflexivity.
Qed.

(** C2 on the sample ledger: two annotations, two create confirmations
    and a third result, two identifiers. *)
Lemma publish_positional_witness :
  exists m,
    fst (@ATProtoAnnotationsFromTemplatePublisher.publish
           Sample.domain Sample.ledger
           (Sample.batch [Sample.rating; Sample.dyad])
           (Sample.agent
              [Sample.created "a-1"; Sample.created "a-2";
               Sample.created "extra"]))
    = ok m
    /\ size m = 2
    /\ m !! "a-2" = Some (recordIdOf (Sample.created "a-2")).
Proof.
  destruct (@ATProtoAnnotationsFromTemplatePublisher.publish
              Sample.domain Sample.ledger
              (Sample.batch [Sample.rating; Sample.dyad])
              (Sample.agent
                 [Sample.created "a-1"; Sample.created "a-2";
                  Sample.created "extra"]))
    as [res w'] eqn:Hp.
  assert (Hok : isOk res = true).
  { change res with (fst (res, w')). rewrite <- Hp.
    apply (proj1 (proj2 (@publish_positional Sample.domain Sample.ledger
                           (Sample.batch [Sample.rating; Sample.dyad])
                           (Sample.agent
                              [Sample.created "a-1"; Sample.created "a-2";
                               Sample.created "extra"]))
                    "did:plc:curator123"
                    [Sample.created "a-1"; Sample.created "a-2";
                     Sample.created "extra"]
                    (mkResponse
                       (Some [Sample.created "a-1"; Sample.created "a-2";
                              Sample.created "extra"]))
                    eq_refl ltac:(discriminate) eq_refl)).
    intros i Hi. simpl in Hi.
    destruct i as [|[|i]]; [| | lia]; eexists; (split; [reflexivity |]);
      reflexivity. }
  destruct res as [m | e]; [| discriminate].
  destruct (proj1 (@publish_positional Sample.domain Sample.ledger
                     (Sample.batch [Sample.rating; Sample.dyad])
                     (Sample.agent
                        [Sample.created "a-1"; Sample.created "a-2";
                         Sample.created "extra"]))
              m w' Hp)
    as (did & response & Hdid & Happly & _ & Hpos & _ & Hsize).
  assert (Hnd : NoDup (@annotationKeys Sample.domain
                         (Sample.batch [Sample.rating; Sample.dyad]))).
  { apply (bool_decide_unpack _). vm_compute. exact I. }
  exists m. split; [reflexivity |]. split; [exact (Hsize Hnd) |].
  destruct (Hpos 1 Sample.dyad eq_refl) as (r & Hr & _ & Hm).
  injection Hdid as <-. simpl in Happly. injection Happly as _ <-.
  simpl in Hr. injection Hr as <-. exact (Hm Hnd).
Defined.

(** C9 on the sample ledger: the request goes out under the curator of
    the first annotation. *)
Lemma publish_request_identity_witness :
  ATProtoAnnotationsFromTemplatePublisher.sent
    (snd (@ATProtoAnnotationsFromTemplatePublisher.publish
            Sample.domain Sample.ledger
            (Sample.batch [Sample.rating; Sample.dyad])
            (Sample.agent [Sample.created "a-1"; Sample.created "a-2"])))
  = [mkRequest "did:plc:curator123" [Create "a-1"; Create "a-2"] false].
Proof.
  refine (proj2 (@publish_request_identity Sample.domain Sample.ledger
                   (Sample.batch [Sample.rating; Sample.dyad])
                   (Sample.agent [Sample.created "a-1"; Sample.created "a-2"]))
            Sample.rating [Sample.dyad] eq_refl _).
  discriminate.
Defined.

Section UnpublishFacts.
Context {D : Domain} {L : Ledger D} {DI : DIDClass}.

Import ATProtoAnnotationsFromTemplatePublisher.

Lemma ATUri_new_invalid (uri : string) :
  length (JS.split "/" uri) <> 5 ->
  ATUri.new uri = Thrown (mkError "Invalid AT URI").
Proof.
  intros Hlen. unfold ATUri.new.
  destruct (Nat.eqb (length (JS.split "/" uri)) 5) eqn:He; [| reflexivity].
  apply Nat.eqb_eq in He. contradiction.
Qed.

(** One unparsable uri, wherever it stands, makes the first loop throw. *)
Lemma groupByRepo_invalid (recordIds : list PublishedRecordId.t) :
  forall acc,
    (exists r, In r recordIds
               /\ length (JS.split "/" (PublishedRecordId.uri r)) <> 5) ->
    exists e, groupByRepo recordIds acc = Thrown e.
Proof.
  induction recordIds as [|r0 l IH]; intros acc (r & Hin & Hlen).
  - destruct Hin.
  - simpl. unfold StrongRef.atUri, StrongRef.ofRecord, PublishedRecordId.getValue.
    simpl. destruct (ATUri.new (PublishedRecordId.uri r0)) as [u | e] eqn:Hu.
    + destruct Hin as [<- | Hin].
      * rewrite ATUri_new_invalid in Hu by exact Hlen. discriminate.
      * apply IH. exists r. auto.
    + exists e. reflexivity.
Qed.

Lemma pushRecord_new (repo : string) (record : RecordRef) (m : RecordsByRepo) :
  exists records, In (repo, records) (pushRecord repo record m)
                  /\ In record records.
Proof.
  induction m as [|[k rs] m IH]; simpl.
  - exists [record]. split; left; reflexivity.
  - destruct (String.eqb k repo) eqn:He.
    + apply String.eqb_eq in He. subst k. exists (rs ++ [record]).
      split; [left; reflexivity |]. apply in_or_app. right. left. reflexivity.
    + destruct IH as (records & Hin & Hrec). exists records.
      split; [right; exact Hin | exact Hrec].
Qed.

Lemma pushRecord_keeps (repo : string) (record : RecordRef) (m : RecordsByRepo)
  (k : string) (rs : list RecordRef) (x : RecordRef) :
  In (k, rs) m -> In x rs ->
  exists rs', In (k, rs') (pushRecord repo record m) /\ In x rs'.
Proof.
  induction m as [|[k0 rs0] m IH]; simpl; intros Hin Hx.
  - destruct Hin.
  - destruct (String.eqb k0 repo) eqn:He.
    + destruct Hin as [Heq | Hin].
      * injection Heq as -> ->. exists (rs ++ [record]).
        split; [left; reflexivity |]. apply in_or_app. left. exact Hx.
      * exists rs. split; [right; exact Hin | exact Hx].
    + destruct Hin as [Heq | Hin].
      * injection Heq as -> ->. exists rs. split; [left; reflexivity | exact Hx].
      * destruct (IH Hin Hx) as (rs' & Hin' & Hx'). exists rs'.
        split; [right; exact Hin' | exact Hx'].
Qed.

(** When the first loop returns, every uri has been parsed and every
    record is filed under its repository. *)
Lemma groupByRepo_files (recordIds : list PublishedRecordId.t) :
  forall acc groups,
    groupByRepo recordIds acc = Normal groups ->
    (forall r, In r recordIds -> filedIn groups r)
    /\ (forall k rs x, In (k, rs) acc -> In x rs ->
          exists rs', In (k, rs') groups /\ In x rs').
Proof.
  induction recordIds as [|r0 l IH]; simpl; intros acc groups Hg.
  - injection Hg as <-. split; [intros r [] | eauto].
  - unfold StrongRef.atUri, StrongRef.ofRecord, PublishedRecordId.getValue in Hg.
    simpl in Hg.
    destruct (ATUri.new (PublishedRecordId.uri r0)) as [u | e] eqn:Hu;
      [| discriminate].
    destruct (IH _ _ Hg) as [Hfiled Hkept]. split.
    + intros r [<- | Hin]; [| apply Hfiled; exact Hin].
      destruct (pushRecord_new (DID_toString (ATUri.did u))
                  (mkRecordRef (ATUri.rkey u) (PublishedRecordId.uri r0)) acc)
        as (records & Hin & Hrec).
      destruct (Hkept _ _ _ Hin Hrec) as (rs' & Hin' & Hrec').
      exists u, rs'. auto.
    + intros k rs x Hin Hx.
      destruct (pushRecord_keeps (DID_toString (ATUri.did u))
                  (mkRecordRef (ATUri.rkey u) (PublishedRecordId.uri r0))
                  acc k rs x Hin Hx) as (rs1 & Hin1 & Hx1).
      exact (Hkept _ _ _ Hin1 Hx1).
Qed.

(** The second loop sends the delete requests of the groups in order,
    all of them unless a request throws. *)
Lemma deleteEach_sent (entries : RecordsByRepo) :
  forall w c w',
    deleteEach entries w = (c, w') ->
    exists n,
      n <= length entries
      /\ sent w' = sent w ++ map deleteRequest (take n entries)
      /\ (c = Normal tt -> n = length entries).
Proof.
  induction entries as [|entry rest IH]; simpl; intros w c w' Hd.
  - injection Hd as <- <-. exists 0. simpl. rewrite app_nil_r. auto.
  - unfold call in Hd.
    destruct (applyWrites (ledger w) (deleteRequest entry))
      as [ledger' [response | e]].
    + destruct (IH _ _ _ Hd) as (n & Hn & Hsent & Hall).
      exists (S n). simpl in *. rewrite Hsent, <- app_assoc. simpl.
      repeat split; auto with arith.
    + injection Hd as <- <-. exists 1. simpl.
      repeat split; auto with arith. discriminate.
Qed.

(** C10: [unpublish] parses and groups all record uris before it sends
    anything.  If some record's uri does not split into exactly five
    [/]-separated parts, the exception is caught, [unpublish] returns an
    error and the agent is as before: no delete request was sent.  And
    whenever the agent has changed, the whole list had been parsed and
    filed by repository, and the requests sent are the delete requests of
    the groups, in order (all of them when [unpublish] succeeds). *)
Theorem unpublish_parses_before_deleting
  (recordIds : list PublishedRecordId.t) (w : Agent) :
  ((exists r, In r recordIds
              /\ length (JS.split "/" (PublishedRecordId.uri r)) <> 5) ->
   exists e, unpublish recordIds w = (err e, w))
  /\ (snd (unpublish recordIds w) = w
      \/ exists groups n,
           groupByRepo recordIds [] = Normal groups
           /\ (forall r, In r recordIds -> filedIn groups r)
           /\ n <= length groups
           /\ sent (snd (unpublish recordIds w))
              = sent w ++ map deleteRequest (take n groups)
           /\ (isOk (fst (unpublish recordIds w)) = true ->
               n = length groups)).
Proof.
  unfold unpublish. split.
  - intros Hbad. destruct (groupByRepo_invalid recordIds [] Hbad) as [e He].
    rewrite He. eexists. reflexivity.
  - destruct (groupByRepo recordIds []) as [groups | e] eqn:Hg;
      [| left; reflexivity].
    right. destruct (groupByRepo_files _ _ _ Hg) as [Hfiled _].
    destruct (deleteEach groups w) as [c w'] eqn:Hd.
    destruct (deleteEach_sent _ _ _ _ Hd) as (n & Hn & Hsent & Hall).
    exists groups, n. split; [reflexivity |]. split; [exact Hfiled |].
    split; [exact Hn |].
    destruct c as [[] | e]; simpl; split; auto; discriminate.
Qed.

End UnpublishFacts.

(** C10 on the sample ledger: the second uri has four parts only, so
    nothing is deleted, not even the first record. *)
Lemma unpublish_parses_before_deleting_witness :
  exists e,
    @ATProtoAnnotationsFromTemplatePublisher.unpublish
      Sample.domain Sample.ledger Sample.didClass
      [ PublishedRecordId.create
          "at://did:plc:curator123/app.annos.annotation/a-1" "cid-a-1";
        PublishedRecordId.create "at://did:plc:curator123/a-2" "cid-a-2" ]
      (Sample.agent [])
    = (err e, Sample.agent []).
Proof.
  apply (proj1 (@unpublish_parses_before_deleting
                  Sample.domain Sample.ledger Sample.didClass _ _)).
  exists (PublishedRecordId.create "at://did:plc:curator123/a-2" "cid-a-2").
  split; [right; left; reflexivity | vm_compute; discriminate].
Defined.

(** *** The use case *)

Section UseCaseFacts.
Context {P : Platform} {D : Domain} {C : Collaborators D}.

Import CreateAndPublishAnnotationsFromTemplateUseCase.

Lemma quiet_refl (w : World) : quiet w w.
Proof. repeat split. Qed.

Lemma quiet_tick (w w' : World) : quiet w w' -> quiet w (tick w').
Proof. intros (Hs & Hp & Ht). repeat split; assumption. Qed.

Lemma quiet_trans (w1 w2 w3 : World) : quiet w1 w2 -> quiet w2 w3 -> quiet w1 w3.
Proof.
  intros (Hs & Hp & Ht) (Hs' & Hp' & Ht'). repeat split; congruence.
Qed.

Ltac step_tac H :=
  match type of H with
  | (_, _) = (_, _) => apply pair_equal_spec in H as [? ?]; subst
  end.

(** The body of the loop makes no call. *)
Lemma buildAnnotation_quiet (c : CuratorId.t) (u : URI.t)
  (t : AnnotationTemplateId.t) (x : AnnotationInput) (w : World)
  (r : Completion (Result Annotation.t CreateAndPublishAnnotationsFromTemplateErrors.t))
  (w' : World) :
  buildAnnotation c u t x w = (r, w') -> quiet w w'.
Proof.
  unfold buildAnnotation. intros Hb.
  destruct (AnnotationFieldId_create _);
    [destruct (field_findById _ _) as [[f|]|];
       [destruct (negb _);
          [| destruct (makeNote _);
               [destruct (AnnotationValueFactory_create _ _);
                  [destruct (Annotation.create _ _ _ _) as [[?|?]|] | ] | ]]
       | | ]
    | ];
    step_tac Hb; auto using quiet_refl, quiet_tick.
Qed.

(** An annotation that the body of the loop returns is unpublished, and
    its input passed every check. *)
Lemma buildAnnotation_ok (c : CuratorId.t) (u : URI.t)
  (t : AnnotationTemplateId.t) (x : AnnotationInput) (w : World)
  (a : Annotation.t) (w' : World) :
  buildAnnotation c u t x w = (Normal (ok a), w') ->
  ~ InputFails (store w) x /\ unpublished a.
Proof.
  unfold buildAnnotation. intros Hb.
  destruct (AnnotationFieldId_create _) as [fid | e0] eqn:Hfid;
    [| step_tac Hb; discriminate].
  destruct (field_findById _ _) as [[f|] | e1] eqn:Hfind;
    [| step_tac Hb; discriminate | step_tac Hb; discriminate].
  destruct (String.eqb (typeValue (definitionType f)) (type x)) eqn:Hty;
    simpl in Hb; [| step_tac Hb; discriminate].
  apply String.eqb_eq in Hty.
  destruct (makeNote (note x)) as [n | e2] eqn:Hnote;
    [| step_tac Hb; discriminate].
  destruct (AnnotationValueFactory_create _ _) as [v | e3] eqn:Hval;
    [| step_tac Hb; discriminate].
  unfold Annotation.create in Hb. simpl in Hb.
  destruct (matchesFieldType v f) eqn:Hm; simpl in Hb;
    [| step_tac Hb; discriminate].
  apply pair_equal_spec in Hb as [Ha _].
  injection Ha as <-. split; [| reflexivity].
  intros Hfail. destruct Hfail; congruence.
Qed.

(** The loop makes no call; when it returns annotations, every input
    passed every check, and the annotations added are unpublished. *)
Lemma buildAnnotations_spec (c : CuratorId.t) (u : URI.t)
  (t : AnnotationTemplateId.t) (inputs : list AnnotationInput) :
  forall acc w r w',
    buildAnnotations c u t inputs acc w = (r, w') ->
    quiet w w'
    /\ forall built,
         r = Normal (ok built) ->
         (forall x, In x inputs -> ~ InputFails (store w) x)
         /\ exists new, built = acc ++ new /\ Forall unpublished new.
Proof.
  induction inputs as [|x rest IH]; simpl; intros acc w r w' Hb.
  - step_tac Hb. split; [apply quiet_refl |].
    intros built Hbuilt. injection Hbuilt as <-.
    split; [intros x [] |]. exists []. rewrite app_nil_r. auto.
  - destruct (buildAnnotation c u t x w) as [[[a | e] | e] w0] eqn:Hx;
      pose proof (buildAnnotation_quiet _ _ _ _ _ _ _ Hx) as Hq.
    + destruct (IH _ _ _ _ Hb) as [Hq' Hok].
      split; [exact (quiet_trans _ _ _ Hq Hq') |].
      intros built Hbuilt. destruct (Hok built Hbuilt) as (Hin & new & -> & Hnew).
      destruct (buildAnnotation_ok _ _ _ _ _ _ _ Hx) as [Hx_ok Ha].
      split.
      * intros y [<- | Hy]; [exact Hx_ok |].
        destruct Hq as (Hstore & _). rewrite <- Hstore. apply Hin. exact Hy.
      * exists (a :: new). rewrite <- app_assoc. split; [reflexivity |].
        constructor; assumption.
    + step_tac Hb. split; [exact Hq | discriminate].
    + step_tac Hb. split; [exact Hq | discriminate].
Qed.

(** Either the preparation succeeds and [execute] continues with the
    assembled batch, or it does not and [execute] returns an error having
    made no call. *)
Lemma execute_cases (request : CreateAndPublishAnnotationsFromTemplateDTO)
  (w : World) :
  (exists batch w1,
      Prepares request w batch w1 /\ quiet w w1
      /\ execute request w = publishAndPersist batch (tick w1))
  \/ ((forall batch w1, ~ Prepares request w batch w1)
      /\ isErr (fst (execute request w)) = true
      /\ quiet w (snd (execute request w))).
Proof.
  unfold execute.
  assert (Hno : forall (A : Prop), A -> A) by auto.
  destruct (URI.create (url request)) as [[u | eu] | eu] eqn:Hu;
    destruct (CuratorId_create (curatorId request)) as [c | ec] eqn:Hc;
    destruct (AnnotationTemplateId_create (templateId request)) as [t | et]
      eqn:Ht;
    try (right; split;
         [intros batch w1 (c' & u' & t' & tpl' & built' & H1 & H2 & H3 & _);
          congruence
         | split; [reflexivity | apply quiet_refl]]).
  destruct (template_findById (store w) t) as [[tpl |] | e] eqn:Htpl;
    try (right; split;
         [intros batch w1 (c' & u' & t' & tpl' & built' & H1 & H2 & H3 & H4 & _);
          congruence
         | split; [reflexivity | apply quiet_refl]]).
  destruct (buildAnnotations c u t (annotations request) [] w)
    as [[[built | e] | e] w1] eqn:Hb;
    destruct (buildAnnotations_spec _ _ _ _ _ _ _ _ Hb) as [Hq _];
    try (right; split;
         [intros batch w1' (c' & u' & t' & tpl' & built' & H1 & H2 & H3 & H4
                            & H5 & _);
          congruence
         | split; [reflexivity | exact Hq]]).
  destruct (AnnotationsFromTemplate.create _) as [batch | e] eqn:Hcreate.
  - left. exists batch, w1. split; [| split; [exact Hq | reflexivity]].
    exists c, u, t, tpl, built. repeat split; assumption.
  - right. split.
    + intros batch w1' (c' & u' & t' & tpl' & built' & H1 & H2 & H3 & H4
                        & H5 & H6).
      assert (c' = c) by congruence. assert (u' = u) by congruence.
      assert (t' = t) by congruence. subst c' u' t'.
      assert (tpl' = tpl) by congruence. subst tpl'.
      rewrite Hb in H5. apply pair_equal_spec in H5 as [H5 <-].
      injection H5 as <-. congruence.
    + split; [reflexivity | apply quiet_tick; exact Hq].
Qed.

(** A failing step rules out a successful preparation. *)
Lemma PreparationFails_not_Prepares
  (request : CreateAndPublishAnnotationsFromTemplateDTO) (w : World) :
  PreparationFails request w ->
  forall batch w1, ~ Prepares request w batch w1.
Proof.
  intros Hfail batch w1 (c & u & t & tpl & built & Hc & Hu & Ht & Htpl & Hb
                         & Hcreate).
  destruct Hfail as [e He | e He | e He | t' Ht' Hnone | t' e Ht' Hthrow
                    | x Hin Hx | c' u' t' tpl' built' w1' e Hc' Hu' Ht' Htpl'
                                   Hb' Hcreate'].
  1-5: congruence.
  - destruct (buildAnnotations_spec _ _ _ _ _ _ _ _ Hb) as [_ Hok].
    destruct (Hok built eq_refl) as [Hall _]. exact (Hall x Hin Hx).
  - assert (c' = c) by congruence. assert (u' = u) by congruence.
    assert (t' = t) by congruence. subst c' u' t'.
    assert (tpl' = tpl) by congruence. subst tpl'.
    rewrite Hb in Hb'. apply pair_equal_spec in Hb' as [Hb' <-].
    injection Hb' as <-. congruence.
Qed.

(** C4: when a step of [execute] up to and including the assembly of the
    batch fails (an invalid curatorId, url or templateId, a template or a
    field that is not found, a declared type that is not the field's, an
    invalid value, an annotation that cannot be constructed, a batch that
    violates an invariant), [execute] returns an error, and neither the
    publisher's [publish] nor the repository's [save] has been called:
    the trace of calls, the store and the publisher are as before. *)
Theorem execute_fail_fast
  (request : CreateAndPublishAnnotationsFromTemplateDTO) (w : World) :
  PreparationFails request w ->
  isErr (fst (execute request w)) = true
  /\ trace (snd (execute request w)) = trace w
  /\ store (snd (execute request w)) = store w
  /\ publisher (snd (execute request w)) = publisher w.
Proof.
  intros Hfail.
  destruct (execute_cases request w)
    as [(batch & w1 & Hprep & _) | (_ & Herr & Hs & Hp & Ht)].
  - exfalso. exact (PreparationFails_not_Prepares _ _ Hfail _ _ Hprep).
  - auto.
Qed.

(** The save loop records one [save] per annotation, in order, up to
    the first that throws. *)
Lemma saveAll_trace (l : list Annotation.t) :
  forall w c w',
    saveAll l w = (c, w') ->
    exists n,
      n <= length l
      /\ trace w' = trace w ++ map EvSave (take n l)
      /\ (c = Normal tt -> n = length l).
Proof.
  induction l as [|a rest IH]; simpl; intros w c w' Hs.
  - step_tac Hs. exists 0. simpl. rewrite app_nil_r. auto.
  - unfold callSave in Hs.
    destruct (annotation_save (store w) a) as [store' | e].
    + destruct (IH _ _ _ Hs) as (n & Hn & Ht & Hall).
      exists (S n). simpl in *. rewrite Ht, <- app_assoc. simpl.
      repeat split; auto with arith.
    + step_tac Hs. exists 1. simpl.
      repeat split; auto with arith. discriminate.
Qed.

(** The annotations of an assembled batch are unpublished. *)
Lemma Prepares_unpublished
  (request : CreateAndPublishAnnotationsFromTemplateDTO) (w : World)
  (batch : AnnotationsFromTemplate.t) (w1 : World) :
  Prepares request w batch w1 ->
  Forall unpublished (AnnotationsFromTemplate.annotations batch).
Proof.
  intros (c & u & t & tpl & built & _ & _ & _ & _ & Hb & Hcreate).
  destruct (buildAnnotations_spec _ _ _ _ _ _ _ _ Hb) as [_ Hok].
  destruct (Hok built eq_refl) as (_ & new & -> & Hnew).
  apply create_ok_same in Hcreate. subst batch. exact Hnew.
Qed.

Lemma applyOp_published (a : Annotation.t) (op : AnnotationOp) :
  published a -> published (applyOp a op).
Proof.
  unfold published. destruct op as [r | r | v]; simpl; intros Hp; eauto.
  unfold Annotation.updateValue.
  destruct (negb _); simpl; exact Hp.
Qed.

(** C6: through the pipeline of [execute], the [publishedRecordId] of an
    annotation is absent until publication and is then set exactly once.
    No operation of [Annotation] makes a published annotation unpublished
    again.  And in every run of [execute], either nothing is published, or
    the batch handed to the publisher holds unpublished annotations only;
    if marking takes place, each annotation is marked once, with its entry
    of the publisher's answer, and it is these marked annotations, as they
    are, that are saved in order and whose ids are returned. *)
Theorem publishedRecordId_lifecycle
  (request : CreateAndPublishAnnotationsFromTemplateDTO) (w : World) :
  (forall (a : Annotation.t) (ops : list AnnotationOp),
      published a -> published (fold_left applyOp ops a))
  /\ (trace (snd (execute request w)) = trace w
      \/ exists batch,
           Forall unpublished (AnnotationsFromTemplate.annotations batch)
           /\ (trace (snd (execute request w)) = trace w ++ [EvPublish batch]
               \/ exists ids marked n,
                    snd (publisher_publish (publisher w) batch)
                    = Normal (ok ids)
                    /\ Forall2
                         (fun a a' =>
                            exists r,
                              ids !! AnnotationsFromTemplate.annotationKey a
                              = Some r
                              /\ a' = Annotation.markAsPublished a r)
                         (AnnotationsFromTemplate.annotations batch) marked
                    /\ Forall published marked
                    /\ trace (snd (execute request w))
                       = trace w ++ EvPublish batch :: map EvSave (take n marked)
                    /\ (forall response,
                          fst (execute request w) = ok response ->
                          n = length marked
                          /\ annotationIds response
                             = map AnnotationsFromTemplate.annotationKey marked))).
Proof.
  split.
  - intros a ops. revert a.
    induction ops as [|op ops IH]; simpl; intros a Hp; [exact Hp |].
    apply IH. apply applyOp_published. exact Hp.
  - destruct (execute_cases request w)
      as [(batch & w1 & Hprep & (Hs & Hp & Ht) & He) | (_ & _ & _ & _ & Ht)];
      [| left; exact Ht].
    right. exists batch. split; [exact (Prepares_unpublished _ _ _ _ Hprep) |].
    rewrite He. unfold publishAndPersist, callPublish. simpl.
    rewrite Hp, Ht.
    destruct (publisher_publish (publisher w) batch) as [p' [[ids | e] | e]]
      eqn:Hpub; simpl; [| left; reflexivity | left; reflexivity].
    unfold AnnotationsFromTemplate.markAllAnnotationsAsPublished.
    destruct (forallb _ (AnnotationsFromTemplate.annotations batch)) eqn:Hall;
      [| left; reflexivity].
    right. simpl.
    destruct (saveAll _ _) as [c w3] eqn:Hsave.
    destruct (saveAll_trace _ _ _ _ Hsave) as (n & Hn & Htr & Hfull).
    simpl in Htr.
    assert (Hmarked :
              Forall2
                (fun a a' =>
                   exists r,
                     ids !! AnnotationsFromTemplate.annotationKey a = Some r
                     /\ a' = Annotation.markAsPublished a r)
                (AnnotationsFromTemplate.annotations batch)
                (map (AnnotationsFromTemplate.markOne ids)
                   (AnnotationsFromTemplate.annotations batch))).
    { apply markOne_Forall2. apply coversBatch_forallb. exact Hall. }
    exists ids, (map (AnnotationsFromTemplate.markOne ids)
                   (AnnotationsFromTemplate.annotations batch)), n.
    split; [reflexivity |]. split; [exact Hmarked |]. split.
    { clear - Hmarked.
      induction Hmarked as [|a a' l l' (r & _ & ->) _ IH]; constructor; auto.
      unfold published. simpl. eauto. }
    split.
    + destruct c as [[] | e]; simpl; rewrite Htr, <- app_assoc; reflexivity.
    + intros response Hresp. destruct c as [[] | e]; simpl in Hresp;
        [| discriminate].
      injection Hresp as <-. split; [apply Hfull; reflexivity | reflexivity].
Qed.

End UseCaseFacts.

(** C4 on the sample collaborators: a dyad declared for the rating field
    is refused, and nothing is published or saved. *)
Lemma execute_fail_fast_witness :
  isErr (fst (@CreateAndPublishAnnotationsFromTemplateUseCase.execute
                Sample.platform Sample.domain Sample.collaborators
                (Sample.request [Sample.input "field-1" "dyad" 7])
                Sample.world)) = true
  /\ CreateAndPublishAnnotationsFromTemplateUseCase.trace
       (snd (@CreateAndPublishAnnotationsFromTemplateUseCase.execute
               Sample.platform Sample.domain Sample.collaborators
               (Sample.request [Sample.input "field-1" "dyad" 7])
               Sample.world)) = [].
Proof.
  destruct (@execute_fail_fast Sample.platform Sample.domain
              Sample.collaborators
              (Sample.request [Sample.input "field-1" "dyad" 7]) Sample.world)
    as (Herr & Htrace & _).
  - apply (@SomeInputFails Sample.platform Sample.domain Sample.collaborators
             _ _ (Sample.input "field-1" "dyad" 7)); [left; reflexivity |].
    apply (@DeclaredTypeMismatch Sample.domain Sample.collaborators _ _
             (AnnotationFieldId.mk "field-1") Sample.ratingField);
      [reflexivity | reflexivity | discriminate].
  - split; [exact Herr | exact Htrace].
Defined.

(** C6 on the sample collaborators: a rating and a dyad are published and
    saved; the batch handed to the publisher is unpublished, the saved
    annotations carry the fake publisher's records. *)
Lemma publishedRecordId_lifecycle_witness :
  exists batch saved,
    CreateAndPublishAnnotationsFromTemplateUseCase.trace
      (snd (@CreateAndPublishAnnotationsFromTemplateUseCase.execute
              Sample.platform Sample.domain Sample.collaborators
              (Sample.request
                 [Sample.input "field-1" "rating" 4;
                  Sample.input "field-2" "dyad" 7])
              Sample.world))
    = CreateAndPublishAnnotationsFromTemplateUseCase.EvPublish batch
        :: map CreateAndPublishAnnotationsFromTemplateUseCase.EvSave saved
    /\ Forall unpublished (AnnotationsFromTemplate.annotations batch)
    /\ Forall published saved
    /\ length saved = 2.
Proof.
  destruct (proj2 (@publishedRecordId_lifecycle Sample.platform Sample.domain
                     Sample.collaborators
                     (Sample.request
                        [Sample.input "field-1" "rating" 4;
                         Sample.input "field-2" "dyad" 7])
                     Sample.world))
    as [Hnone | (batch & Hun & [Honly | (ids & marked & n & _ & Hm & Hpub & Htr
                                          & Hok)])].
  - exfalso. vm_compute in Hnone. discriminate Hnone.
  - exfalso. vm_compute in Honly.
    apply (f_equal (@length _)) in Honly. discriminate Honly.
  - exists batch, (take n marked). simpl in Htr.
    split; [exact Htr |]. split; [exact Hun |].
    split; [apply Forall_take; exact Hpub |].
    apply (f_equal (@length _)) in Htr. rewrite length_cons, length_map in Htr.
    vm_compute in Htr. injection Htr as Htr. symmetry. exact Htr.
Defined.

(** ** Part III.  Further properties of the modelled code *)

(** *** [String.prototype.split] and [join] *)

Lemma chars_append (a b : string) : chars (a ++ b) = chars a ++ chars b.
Proof.
  unfold chars. induction a as [|c a IH]; simpl; [reflexivity |].
  rewrite IH. reflexivity.
Qed.

Lemma chars_of_list (l : list ascii) : chars (string_of_list_ascii l) = l.
Proof. apply list_ascii_of_string_of_list_ascii. Qed.

Lemma of_chars (s : string) : string_of_list_ascii (chars s) = s.
Proof. apply string_of_list_ascii_of_string. Qed.

Lemma chars_inj (a b : string) : chars a = chars b -> a = b.
Proof.
  intros Heq. rewrite <- (of_chars a), <- (of_chars b), Heq. reflexivity.
Qed.

(** As many segments as separators, plus one. *)
Lemma splitAux_length (sep : ascii) (l : list ascii) :
  forall cur,
    length (JS.splitAux sep cur l) = S (count_occ ascii_dec l sep).
Proof.
  induction l as [|c l IH]; intros cur; simpl; [reflexivity |].
  destruct (Ascii.eqb c sep) eqn:He.
  - apply Ascii.eqb_eq in He. subst c. simpl. rewrite IH.
    destruct (ascii_dec sep sep); [reflexivity | contradiction].
  - apply Ascii.eqb_neq in He. rewrite IH.
    destruct (ascii_dec c sep); [contradiction | reflexivity].
Qed.

(** Characters other than the separator extend the current segment. *)
Lemma splitAux_segment (sep : ascii) (l : list ascii) :
  forall cur rest,
    ~ In sep l ->
    JS.splitAux sep cur (l ++ rest) = JS.splitAux sep (rev l ++ cur) rest.
Proof.
  induction l as [|c l IH]; intros cur rest Hno; simpl; [reflexivity |].
  destruct (Ascii.eqb c sep) eqn:He.
  - apply Ascii.eqb_eq in He. subst c. exfalso. apply Hno. left. reflexivity.
  - rewrite IH by (intros Hin; apply Hno; right; exact Hin).
    rewrite <- app_assoc. reflexivity.
Qed.

Lemma splitAux_sep (sep : ascii) (cur rest : list ascii) :
  JS.splitAux sep cur (sep :: rest)
  = string_of_list_ascii (rev cur) :: JS.splitAux sep [] rest.
Proof. simpl. rewrite Ascii.eqb_refl. reflexivity. Qed.

Lemma splitAux_end (sep : ascii) (l cur : list ascii) :
  ~ In sep l ->
  JS.splitAux sep cur l = [string_of_list_ascii (rev cur ++ l)].
Proof.
  intros Hno. rewrite <- (app_nil_r l) at 1.
  rewrite splitAux_segment by exact Hno. simpl.
  rewrite rev_app_distr, rev_involutive. reflexivity.
Qed.

(** A segment without separator, then a separator. *)
Lemma splitAux_cons (sep : ascii) (l cur rest : list ascii) :
  ~ In sep l ->
  JS.splitAux sep cur (l ++ sep :: rest)
  = string_of_list_ascii (rev cur ++ l) :: JS.splitAux sep [] rest.
Proof.
  intros Hno. rewrite splitAux_segment by exact Hno. rewrite splitAux_sep.
  rewrite rev_app_distr, rev_involutive. reflexivity.
Qed.

(** Joining and splitting again gives the segments back. *)
Lemma split_join (p : string) (ps : list string) :
  Forall slashFree (p :: ps) ->
  JS.split "/" (join (p :: ps)) = p :: ps.
Proof.
  unfold JS.split, join. revert p.
  induction ps as [|q ps IH]; intros p Hall; inversion Hall as [|? ? Hp Hps];
    subst; simpl.
  - fold (chars p). rewrite splitAux_end by exact Hp. simpl.
    rewrite of_chars. reflexivity.
  - fold (chars (p ++ "/" ++ String.concat "/" (q :: ps))).
    rewrite chars_append. change ("/" ++ ?x)%string with (String "/" x).
    change (chars (String "/" ?x)) with ("/"%char :: chars x).
    rewrite splitAux_cons by exact Hp. simpl. rewrite of_chars.
    f_equal. apply IH. exact Hps.
Qed.

(** The segments of a split hold no separator, and joined they give the
    string back. *)
Lemma splitAux_join (l : list ascii) :
  forall cur,
    ~ In "/"%char cur ->
    Forall slashFree (JS.splitAux "/" cur l)
    /\ chars (join (JS.splitAux "/" cur l)) = rev cur ++ l.
Proof.
  induction l as [|c l IH]; intros cur Hcur; simpl.
  - split.
    + constructor; [| constructor]. unfold slashFree. rewrite chars_of_list.
      rewrite <- in_rev. exact Hcur.
    + unfold join. simpl. rewrite chars_of_list, app_nil_r. reflexivity.
  - destruct (Ascii.eqb c "/") eqn:He.
    + apply Ascii.eqb_eq in He. subst c.
      destruct (IH [] (fun H => H)) as [Hall Hjoin]. split.
      * constructor; [| exact Hall]. unfold slashFree. rewrite chars_of_list.
        rewrite <- in_rev. exact Hcur.
      * unfold join in *. simpl.
        destruct (JS.splitAux "/" [] l) as [|q qs] eqn:Hq.
        { pose proof (splitAux_length "/" l []) as Hlen.
          rewrite Hq in Hlen. discriminate. }
        rewrite chars_append, chars_of_list.
        change ("/" ++ ?x)%string with (String "/" x).
        change (chars (String "/" ?x)) with ("/"%char :: chars x).
        rewrite Hjoin. reflexivity.
    + apply Ascii.eqb_neq in He.
      destruct (IH (c :: cur)) as [Hall Hjoin].
      { intros [Hc | Hin]; [congruence | contradiction]. }
      split; [exact Hall |]. rewrite Hjoin. simpl.
      rewrite <- app_assoc. reflexivity.
Qed.

Lemma join_split (s : string) :
  Forall slashFree (JS.split "/" s) /\ join (JS.split "/" s) = s.
Proof.
  destruct (splitAux_join (chars s) [] (fun H => H)) as [Hall Hjoin].
  split; [exact Hall |]. apply chars_inj. exact Hjoin.
Qed.

Lemma split_length (s : string) : length (JS.split "/" s) = S (slashes s).
Proof. apply splitAux_length. Qed.

(** *** [ATUri] *)

Section ATUriFacts.
Context `{DIDClass}.

(** X1: the [ATUri] constructor looks at the number of [/] only.  A uri
    that does not hold exactly four of them is refused with "Invalid AT
    URI"; a uri that does is five segments without [/], and the outcome is
    that of the [DID] constructor on the third one, the collection and the
    record key being the fourth and fifth and [value] the uri itself. *)
Theorem ATUri_new_by_slashes (uri : string) :
  (slashes uri <> 4 -> ATUri.new uri = Thrown (mkError "Invalid AT URI"))
  /\ (slashes uri = 4 ->
      exists p0 p1 p2 p3 p4,
        Forall slashFree [p0; p1; p2; p3; p4]
        /\ uri = join [p0; p1; p2; p3; p4]
        /\ ATUri.new uri
           = match DID_new p2 with
             | Thrown e => Thrown e
             | Normal d => Normal (ATUri.mk uri d p3 p4)
             end).
Proof.
  pose proof (split_length uri) as Hlen.
  destruct (join_split uri) as [Hfree Hjoin].
  unfold ATUri.new. split.
  - intros Hn. destruct (Nat.eqb (length (JS.split "/" uri)) 5) eqn:He;
      [| reflexivity].
    apply Nat.eqb_eq in He. lia.
  - intros Hn. rewrite Hn in Hlen.
    destruct (JS.split "/" uri) as [|p0 [|p1 [|p2 [|p3 [|p4 [|p5 l]]]]]];
      try discriminate Hlen.
    exists p0, p1, p2, p3, p4. split; [exact Hfree |].
    split; [symmetry; exact Hjoin |]. reflexivity.
Qed.

(** X2: the constructor checks neither the scheme nor the second
    segment: any five segments without [/], joined by [/], are accepted as
    soon as the [DID] constructor accepts the third. *)
Theorem ATUri_new_segments (p0 p1 p2 p3 p4 : string) :
  Forall slashFree [p0; p1; p2; p3; p4] ->
  ATUri.new (join [p0; p1; p2; p3; p4])
  = match DID_new p2 with
    | Thrown e => Thrown e
    | Normal d => Normal (ATUri.mk (join [p0; p1; p2; p3; p4]) d p3 p4)
    end.
Proof.
  intros Hfree. unfold ATUri.new. rewrite (split_join _ _ Hfree). reflexivity.
Qed.

End ATUriFacts.

(** X2 on the sample DIDs: an [https] URL with two path segments is
    taken for an AT-URI. *)
Lemma ATUri_new_segments_witness :
  @ATUri.new Sample.didClass "https://example.com/app.annos.annotation/3abc"
  = Normal
      (@ATUri.mk Sample.didClass
         "https://example.com/app.annos.annotation/3abc"
         "example.com" "app.annos.annotation" "3abc").
Proof.
  refine (@ATUri_new_segments Sample.didClass
            "https:" "" "example.com" "app.annos.annotation" "3abc" _).
  repeat (apply List.Forall_cons;
          [unfold slashFree, chars; simpl; intuition discriminate |]).
  apply List.Forall_nil.
Defined.

(** *** [URI], further *)

Lemma class_chars_slashFree (p : ascii -> bool) (l : list ascii) :
  p "/"%char = false -> forallb p l = true -> ~ In "/"%char l.
Proof.
  intros Hp Hall Hin. rewrite forallb_forall in Hall.
  specialize (Hall _ Hin). congruence.
Qed.

Lemma count_slash_zero (l : list ascii) :
  count_occ ascii_dec l "/"%char = 0 -> ~ In "/"%char l.
Proof. intros Hc. apply (count_occ_not_In ascii_dec). exact Hc. Qed.

(** In a string of five segments, an occurrence of the AT-URI pattern
    has the third segment as its authority. *)
Lemma atUriPattern_in_five_segments (s p0 p1 a c k : string) :
  JS.split "/" s = [p0; p1; a; c; k] ->
  RegExp.test URI.atUriPattern s = true ->
  forallb isAuthorityChar (chars a) = true.
Proof.
  intros Hsplit Htest.
  apply atUriPattern_test in Htest
    as (pre & mid & post & Hs & a' & c' & k' & Hmid & _ & _ & _ & Ha & Hc & Hk).
  pose proof (class_chars_slashFree _ _ eq_refl Ha) as Hfa.
  pose proof (class_chars_slashFree _ _ eq_refl Hc) as Hfc.
  pose proof (class_chars_slashFree _ _ eq_refl Hk) as Hfk.
  assert (Hchars :
            chars s
            = (pre ++ chars "at:") ++ "/"%char
                :: ([] ++ "/"%char
                      :: (a' ++ "/"%char :: (c' ++ "/"%char :: (k' ++ post))))).
  { rewrite Hs, Hmid. unfold chars.
    repeat (progress (rewrite <- ?app_assoc; simpl)). reflexivity. }
  pose proof (split_length s) as Hlen. rewrite Hsplit in Hlen.
  unfold slashes in Hlen. rewrite Hchars in Hlen. simpl in Hlen.
  repeat (rewrite ?count_occ_app, ?count_occ_cons_eq in Hlen by reflexivity;
          simpl in Hlen).
  assert (Hpre : ~ In "/"%char (pre ++ chars "at:")).
  { intros Hin. apply in_app_or in Hin as [Hin | Hin].
    - apply (count_slash_zero pre); [lia | exact Hin].
    - simpl in Hin. intuition discriminate. }
  assert (Hpost : ~ In "/"%char (k' ++ post)).
  { intros Hin. apply in_app_or in Hin as [Hin | Hin]; [contradiction |].
    apply (count_slash_zero post); [lia | exact Hin]. }
  unfold JS.split in Hsplit. fold (chars s) in Hsplit. rewrite Hchars in Hsplit.
  rewrite splitAux_cons in Hsplit by exact Hpre.
  rewrite splitAux_cons in Hsplit by (intros []).
  rewrite splitAux_cons in Hsplit by exact Hfa.
  rewrite splitAux_cons in Hsplit by exact Hfc.
  rewrite splitAux_end in Hsplit by exact Hpost.
  simpl in Hsplit. injection Hsplit as _ _ Heq _ _.
  rewrite <- Heq, chars_of_list. exact Ha.
Qed.

Section URIFurther.
Context `{Platform}.

(** X3: the constructor and [create] hold the same validation: the
    constructor returns a URI exactly when [create] returns it as a
    success, and throws an error exactly when [create] returns that error
    as a failure. *)
Theorem URI_new_create_agree (s : string) :
  (forall u, URI.new s = Normal u <-> URI.create s = Normal (ok u))
  /\ (forall e, URI.new s = Thrown e <-> URI.create s = Normal (err e)).
Proof.
  unfold URI.create, URI.createFallback, URI.new.
  destruct (parsesAsURL s); [split; intros; split; congruence |].
  destruct (JS.startsWith "at://" s);
    [| split; intros; split; congruence].
  destruct (RegExp.test URI.atUriPattern s); simpl;
    split; intros; split; congruence.
Qed.

(** X4: a value of five [/]-separated segments whose third segment, the
    authority, holds a character outside [[a-zA-Z0-9.-]] (the colons of a
    DID, for one) does not contain the AT-URI pattern: unless the platform
    parses it as a URL, [URI.create] refuses it, although the [ATUri]
    constructor accepts the same value when the authority is a DID. *)
Theorem URI_create_refuses_authority `{DIDClass} (s p0 p1 a c k : string) :
  parsesAsURL s = false ->
  JS.split "/" s = [p0; p1; a; c; k] ->
  (exists ch, In ch (chars a) /\ isAuthorityChar ch = false) ->
  URI.create s
  = Normal
      (err (mkError
              ((if JS.startsWith "at://" s
                then "Invalid AT URI format: "
                else "Invalid URI format: ") ++ s)%string))
  /\ (forall d, DID_new a = Normal d ->
        ATUri.new s = Normal (ATUri.mk s d c k)).
Proof.
  intros Hurl Hsplit (ch & Hin & Hch). split.
  - unfold URI.create, URI.createFallback. rewrite Hurl.
    destruct (JS.startsWith "at://" s); [| reflexivity].
    destruct (RegExp.test URI.atUriPattern s) eqn:Ht; [| reflexivity].
    exfalso.
    pose proof (atUriPattern_in_five_segments _ _ _ _ _ _ Hsplit Ht) as Hall.
    rewrite forallb_forall in Hall. specialize (Hall _ Hin). congruence.
  - intros d Hd. unfold ATUri.new. rewrite Hsplit. simpl. rewrite Hd.
    reflexivity.
Qed.

End URIFurther.

(** X4 on the sample platform: the AT-URI of the comment in [ATUri.ts]. *)
Lemma URI_create_refuses_authority_witness :
  @URI.create Sample.platform
    "at://did:plc:lehcqqkwzcwvjvw66uthu5oq/app.bsky.feed.post/3lnxh4zet5c2a"
  = Normal
      (err (mkError
              "Invalid AT URI format: at://did:plc:lehcqqkwzcwvjvw66uthu5oq/app.bsky.feed.post/3lnxh4zet5c2a"))
  /\ @ATUri.new Sample.didClass
       "at://did:plc:lehcqqkwzcwvjvw66uthu5oq/app.bsky.feed.post/3lnxh4zet5c2a"
     = Normal
         (@ATUri.mk Sample.didClass
            "at://did:plc:lehcqqkwzcwvjvw66uthu5oq/app.bsky.feed.post/3lnxh4zet5c2a"
            "did:plc:lehcqqkwzcwvjvw66uthu5oq" "app.bsky.feed.post"
            "3lnxh4zet5c2a").
Proof.
  destruct (@URI_create_refuses_authority Sample.platform Sample.didClass
              "at://did:plc:lehcqqkwzcwvjvw66uthu5oq/app.bsky.feed.post/3lnxh4zet5c2a"
              "at:" "" "did:plc:lehcqqkwzcwvjvw66uthu5oq" "app.bsky.feed.post"
              "3lnxh4zet5c2a")
    as [Hcreate Hat].
  - vm_compute. reflexivity.
  - vm_compute. reflexivity.
  - exists ":"%char. split; [unfold chars; simpl; intuition | reflexivity].
  - split; [exact Hcreate | apply Hat; reflexivity].
Defined.

(** *** [Annotation], further *)

Section AnnotationFurther.
Context `{Domain}.

(** X5: what [Annotation.create] establishes.  An annotation that it
    returns has the curator, the url, the field and the value of the
    props, a value that matches its field, a template-id list and a
    creation date that are defined, the given id or else the fresh one,
    and the note and published-record id of the props as they were. *)
Theorem Annotation_create_establishes (p : Annotation.AnnotationPropsArg)
  (id : option UniqueEntityID) (fresh : UniqueEntityID) (now : Date)
  (a : Annotation.t) :
  Annotation.create p id fresh now = Normal (ok a) ->
  matchesFieldType (Annotation.value (Annotation.props a))
    (Annotation.annotationField (Annotation.props a)) = true
  /\ Annotation.arg_curatorId p = Some (Annotation.curatorId (Annotation.props a))
  /\ Annotation.arg_url p = Some (Annotation.url (Annotation.props a))
  /\ Annotation.arg_annotationField p
     = Some (Annotation.annotationField (Annotation.props a))
  /\ Annotation.arg_value p = Some (Annotation.value (Annotation.props a))
  /\ Annotation.annotationTemplateIds (Annotation.props a)
     = Some (default [] (Annotation.arg_annotationTemplateIds p))
  /\ Annotation.createdAt (Annotation.props a)
     = Some (default now (Annotation.arg_createdAt p))
  /\ Annotation._id a = default fresh id
  /\ Annotation.note (Annotation.props a) = Annotation.arg_note p
  /\ Annotation.publishedRecordId (Annotation.props a)
     = Annotation.arg_publishedRecordId p.
Proof.
  unfold Annotation.create. rewrite guard_passes_iff. unfold firstAbsent.
  destruct (Annotation.arg_curatorId p) as [c|]; [| discriminate].
  destruct (Annotation.arg_url p) as [u|]; [| discriminate].
  destruct (Annotation.arg_annotationField p) as [f|]; [| discriminate].
  destruct (Annotation.arg_value p) as [v|]; [| discriminate].
  destruct (matchesFieldType v f) eqn:Hm; simpl; [| discriminate].
  intros Ha. injection Ha as <-. simpl. repeat split; auto.
Qed.

(** X6: whatever operations are applied to an annotation, in whatever
    order, its id, curator, url, field, note, template ids and creation
    date stay as they were: only the value and the published-record id
    can change. *)
Theorem Annotation_ops_frame (ops : list AnnotationOp) (a : Annotation.t) :
  let a' := fold_left applyOp ops a in
  Annotation._id a' = Annotation._id a
  /\ Annotation.annotationId a' = Annotation.annotationId a
  /\ Annotation.curatorId (Annotation.props a')
     = Annotation.curatorId (Annotation.props a)
  /\ Annotation.url (Annotation.props a') = Annotation.url (Annotation.props a)
  /\ Annotation.annotationField (Annotation.props a')
     = Annotation.annotationField (Annotation.props a)
  /\ Annotation.note (Annotation.props a') = Annotation.note (Annotation.props a)
  /\ Annotation.annotationTemplateIds (Annotation.props a')
     = Annotation.annotationTemplateIds (Annotation.props a)
  /\ Annotation.createdAt (Annotation.props a')
     = Annotation.createdAt (Annotation.props a).
Proof.
  cbv zeta. revert a. induction ops as [|op ops IH]; intros a; simpl.
  - repeat split.
  - destruct (IH (applyOp a op)) as (H1 & H2 & H3 & H4 & H5 & H6 & H7 & H8).
    rewrite H1, H2, H3, H4, H5, H6, H7, H8.
    unfold Annotation.annotationId.
    destruct op as [r | r | v]; simpl; unfold Annotation.updateValue;
      try destruct (negb _); simpl; repeat split.
Qed.

(** X7: the invariant of [create] is kept.  If values of the same type
    match the same fields, an annotation whose value matches its field
    still has a value that matches its field after any operations. *)
Theorem Annotation_ops_keep_type (ops : list AnnotationOp) (a : Annotation.t) :
  (forall v v' f,
      isSameType v v' = true -> matchesFieldType v f = true ->
      matchesFieldType v' f = true) ->
  matchesFieldType (Annotation.value (Annotation.props a))
    (Annotation.annotationField (Annotation.props a)) = true ->
  matchesFieldType
    (Annotation.value (Annotation.props (fold_left applyOp ops a)))
    (Annotation.annotationField (Annotation.props (fold_left applyOp ops a)))
  = true.
Proof.
  intros Hcompat. revert a. induction ops as [|op ops IH]; intros a Hm; simpl;
    [exact Hm |].
  apply IH. destruct op as [r | r | v]; simpl; try exact Hm.
  unfold Annotation.updateValue.
  destruct (isSameType (Annotation.value (Annotation.props a)) v) eqn:Hs;
    simpl; [| exact Hm].
  exact (Hcompat _ _ _ Hs Hm).
Qed.

(** X8: marking is unconditional and independent of the value.
    [markAsPublished] sets the record id whatever the annotation held
    before, so that a second [markAsPublished] replaces the record id of
    the first; [updatePublishedRecordId] does what [markAsPublished] does,
    on every annotation; and marking before or after [updateValue] gives
    the same result and the same annotation. *)
Theorem Annotation_mark_composes (a : Annotation.t)
  (r1 r2 : PublishedRecordId.t) (v : AnnotationValue) :
  Annotation.publishedRecordId
    (Annotation.props (Annotation.markAsPublished a r1)) = Some r1
  /\ Annotation.markAsPublished (Annotation.markAsPublished a r1) r2
     = Annotation.markAsPublished a r2
  /\ Annotation.updatePublishedRecordId a r1 = Annotation.markAsPublished a r1
  /\ Annotation.updateValue (Annotation.markAsPublished a r1) v
     = (fst (Annotation.updateValue a v),
        Annotation.markAsPublished (snd (Annotation.updateValue a v)) r1).
Proof.
  unfold Annotation.updateValue, Annotation.markAsPublished,
    Annotation.updatePublishedRecordId. simpl.
  destruct (negb _); repeat split.
Qed.

End AnnotationFurther.

(** X5 on the sample domain. *)
Lemma Annotation_create_establishes_witness :
  exists a,
    @Annotation.create Sample.domain Sample.ratingProps None "a-1" 0
    = Normal (ok a)
    /\ Annotation._id a = "a-1"
    /\ Annotation.annotationTemplateIds (Annotation.props a) = Some []
    /\ Annotation.createdAt (Annotation.props a) = Some 0.
Proof.
  destruct (@Annotation.create Sample.domain Sample.ratingProps None "a-1" 0)
    as [[a | e] | e] eqn:Hc; try (vm_compute in Hc; discriminate Hc).
  destruct (@Annotation_create_establishes Sample.domain _ _ _ _ _ Hc)
    as (_ & _ & _ & _ & _ & Ht & Hd & Hid & _).
  exists a. repeat split; assumption.
Defined.

(** X7 on the sample domain: a rating stays a rating, an update to a dyad
    being refused. *)
Lemma Annotation_ops_keep_type_witness :
  @matchesFieldType Sample.domain
    (Annotation.value
       (Annotation.props
          (fold_left (@applyOp Sample.domain)
             [@OpUpdateValue Sample.domain (Sample.mkValue "rating" 2);
              @OpMarkAsPublished Sample.domain (recordIdOf (Sample.created "a-1"));
              @OpUpdateValue Sample.domain (Sample.mkValue "dyad" 7)]
             Sample.rating)))
    Sample.ratingField = true.
Proof.
  refine (@Annotation_ops_keep_type Sample.domain _ Sample.rating _ _).
  - intros v v' f Hs Hm. simpl in *.
    apply String.eqb_eq in Hs. apply String.eqb_eq in Hm.
    apply String.eqb_eq. congruence.
  - reflexivity.
Defined.

(** *** The publisher, further *)

Section PublisherFurther.
Context {D : Domain} {L : Ledger D} {DI : DIDClass}.

Import ATProtoAnnotationsFromTemplatePublisher.

(** An error of the loop of [publish] names the annotation at the first
    position without a create confirmation. *)
Lemma mapResults_err_first (annotations : list Annotation.t) :
  forall i results acc e,
    mapResults annotations i results acc = err e ->
    exists j a,
      annotations !! j = Some a
      /\ (forall k, k < j ->
            exists r, results !! (i + k) = Some r /\ confirmsCreate r)
      /\ (forall r, results !! (i + j) = Some r -> ~ confirmsCreate r)
      /\ e = mkError
               ("No create result found for annotation "
                ++ AnnotationsFromTemplate.annotationKey a)%string.
Proof.
  induction annotations as [|a l IH]; simpl; intros i results acc e Hm;
    [discriminate |].
  destruct (results !! i) as [r|] eqn:Hr.
  - destruct (String.eqb (dollarType r) createResultType) eqn:Ht; simpl in Hm.
    + destruct (IH _ _ _ _ Hm) as (j & x & Hx & Hbefore & Hbad & He).
      exists (S j), x. split; [exact Hx |]. split; [| split; [| exact He]].
      * intros k Hk. destruct k as [|k].
        -- exists r. rewrite Nat.add_0_r. split; [exact Hr |].
           apply confirmsCreate_eqb. exact Ht.
        -- replace (i + S k) with (S i + k) by lia. apply Hbefore. lia.
      * intros r' Hr'. apply Hbad. replace (S i + j) with (i + S j) by lia.
        exact Hr'.
    + exists 0, a. split; [reflexivity |]. split; [intros k Hk; lia |].
      split; [| injection Hm as <-; reflexivity].
      intros r' Hr'. rewrite Nat.add_0_r, Hr in Hr'. injection Hr' as <-.
      intros Hc. apply confirmsCreate_eqb in Hc. congruence.
  - exists 0, a. split; [reflexivity |]. split; [intros k Hk; lia |].
    split; [| injection Hm as <-; reflexivity].
    intros r' Hr'. rewrite Nat.add_0_r, Hr in Hr'. discriminate.
Qed.

(** X9: the three ways in which [publish] fails.  Either no curator DID
    is found and nothing is sent; or the request is sent and the ledger
    client throws, and the error carries its message; or the request is
    sent and answered, and the error names the annotation at the first
    input position whose result is missing or is no create confirmation.
    In the last two cases the ledger is left as the request left it. *)
Theorem publish_failure_causes (b : AnnotationsFromTemplate.t) (w : Agent)
  (e : Error) (w' : Agent) :
  publish b w = (err e, w') ->
  (e = mkError "No curator DID found in annotations" /\ w' = w)
  \/ exists did,
       firstCuratorDid b = Some did
       /\ w' = mkAgent (fst (applyWrites (ledger w) (publishRequest b did)))
                 (sent w ++ [publishRequest b did])
       /\ ((exists thrown,
              snd (applyWrites (ledger w) (publishRequest b did))
              = Thrown thrown
              /\ e = mkError (message thrown))
           \/ exists response j a,
                snd (applyWrites (ledger w) (publishRequest b did))
                = Normal response
                /\ AnnotationsFromTemplate.annotations b !! j = Some a
                /\ (forall k, k < j ->
                      exists r,
                        default [] (results response) !! k = Some r
                        /\ confirmsCreate r)
                /\ (forall r,
                      default [] (results response) !! j = Some r ->
                      ~ confirmsCreate r)
                /\ e = mkError
                         ("No create result found for annotation "
                          ++ AnnotationsFromTemplate.annotationKey a)%string).
Proof.
  intros Hp. unfold firstCuratorDid.
  destruct (AnnotationsFromTemplate.annotations b) as [|a rest] eqn:Hb.
  { rewrite publish_no_curator in Hp by (rewrite Hb; exact Logic.I).
    left. apply pair_equal_spec in Hp as [He Hw]. split; congruence. }
  destruct (String.eqb
              (CuratorId.value (Annotation.curatorId (Annotation.props a))) "")
    eqn:He.
  { apply String.eqb_eq in He.
    rewrite publish_no_curator in Hp by (rewrite Hb; exact He).
    left. apply pair_equal_spec in Hp as [He' Hw]. split; congruence. }
  apply String.eqb_neq in He. right.
  exists (CuratorId.value (Annotation.curatorId (Annotation.props a))).
  split; [reflexivity |].
  rewrite (publish_unfold b w a rest Hb He) in Hp.
  destruct (applyWrites _ _) as [ledger' [response | thrown]] eqn:Ha;
    apply pair_equal_spec in Hp as [Hm <-]; (split; [reflexivity |]).
  - right. destruct (mapResults_err_first _ _ _ _ _ Hm)
      as (j & x & Hx & Hbefore & Hbad & Hmsg).
    exists response, j, x. repeat split; assumption.
  - left. exists thrown. split; [reflexivity | congruence].
Qed.

Lemma groupOf_pushRecord_same (repo : string) (record : RecordRef)
  (m : RecordsByRepo) :
  groupOf repo (pushRecord repo record m) = groupOf repo m ++ [record].
Proof.
  induction m as [|[k rs] m IH]; simpl.
  - rewrite String.eqb_refl. reflexivity.
  - destruct (String.eqb k repo) eqn:He; simpl; rewrite He; auto.
Qed.

Lemma groupOf_pushRecord_other (repo k : string) (record : RecordRef)
  (m : RecordsByRepo) :
  repo <> k -> groupOf k (pushRecord repo record m) = groupOf k m.
Proof.
  intros Hne. induction m as [|[k0 rs] m IH]; simpl.
  - destruct (String.eqb repo k) eqn:He; [| reflexivity].
    apply String.eqb_eq in He. contradiction.
  - destruct (String.eqb k0 repo) eqn:He; simpl.
    + apply String.eqb_eq in He. subst k0.
      destruct (String.eqb repo k) eqn:He'; [| reflexivity].
      apply String.eqb_eq in He'. contradiction.
    + rewrite IH. reflexivity.
Qed.

Lemma pushRecord_keys (repo : string) (record : RecordRef) (m : RecordsByRepo) :
  map fst (pushRecord repo record m)
  = if bool_decide (repo ∈ map fst m) then map fst m
    else map fst m ++ [repo].
Proof.
  induction m as [|[k rs] m IH]; simpl; [reflexivity |].
  destruct (String.eqb k repo) eqn:He; simpl.
  - apply String.eqb_eq in He. subst k.
    rewrite bool_decide_eq_true_2 by (apply list_elem_of_here). reflexivity.
  - apply String.eqb_neq in He. rewrite IH.
    destruct (bool_decide (repo ∈ map fst m)) eqn:Hd.
    + apply bool_decide_eq_true in Hd.
      rewrite bool_decide_eq_true_2 by (apply list_elem_of_further; exact Hd).
      reflexivity.
    + apply bool_decide_eq_false in Hd.
      rewrite bool_decide_eq_false_2; [reflexivity |].
      intros Hin. apply elem_of_cons in Hin as [Heq | Hin];
        [congruence | contradiction].
Qed.

Lemma pushRecord_NoDup (repo : string) (record : RecordRef) (m : RecordsByRepo) :
  NoDup (map fst m) -> NoDup (map fst (pushRecord repo record m)).
Proof.
  intros Hnd. rewrite pushRecord_keys.
  destruct (bool_decide (repo ∈ map fst m)) eqn:Hd; [exact Hnd |].
  apply bool_decide_eq_false in Hd.
  apply NoDup_app. split; [exact Hnd |]. split.
  - intros x Hx Hx'. apply list_elem_of_singleton in Hx'. subst x.
    contradiction.
  - apply NoDup_singleton.
Qed.

Lemma pushRecord_total (repo : string) (record : RecordRef) (m : RecordsByRepo) :
  length (concat (map snd (pushRecord repo record m)))
  = S (length (concat (map snd m))).
Proof.
  induction m as [|[k rs] m IH]; simpl; [reflexivity |].
  destruct (String.eqb k repo); simpl.
  - rewrite !length_app. simpl. lia.
  - rewrite !length_app, IH. lia.
Qed.

Lemma groupOf_In (m : RecordsByRepo) (k : string) (rs : list RecordRef) :
  NoDup (map fst m) -> In (k, rs) m -> groupOf k m = rs.
Proof.
  induction m as [|[k0 rs0] m IH]; simpl; intros Hnd Hin; [destruct Hin |].
  apply NoDup_cons in Hnd as [Hnotin Hnd'].
  destruct Hin as [Heq | Hin].
  - injection Heq as -> ->. rewrite String.eqb_refl. reflexivity.
  - destruct (String.eqb k0 k) eqn:He; [| apply IH; assumption].
    apply String.eqb_eq in He. subst k0. exfalso. apply Hnotin.
    apply list_elem_of_In. apply (in_map fst) in Hin. exact Hin.
Qed.

(** The first loop of [unpublish], from any groups gathered so far. *)
Lemma groupByRepo_groups (recordIds : list PublishedRecordId.t) :
  forall acc groups,
    groupByRepo recordIds acc = Normal groups ->
    NoDup (map fst acc) ->
    NoDup (map fst groups)
    /\ (forall repo,
          groupOf repo groups = groupOf repo acc ++ refsFor repo recordIds)
    /\ length (concat (map snd groups))
       = length (concat (map snd acc)) + length recordIds.
Proof.
  induction recordIds as [|r0 l IH]; simpl; intros acc groups Hg Hnd.
  - injection Hg as <-. split; [exact Hnd |].
    split; [intros repo; rewrite app_nil_r; reflexivity | lia].
  - unfold StrongRef.atUri, StrongRef.ofRecord, PublishedRecordId.getValue in Hg.
    simpl in Hg. unfold parseRecord.
    destruct (ATUri.new (PublishedRecordId.uri r0)) as [u | e] eqn:Hu;
      [| discriminate].
    destruct (IH _ _ Hg (pushRecord_NoDup _ _ _ Hnd)) as (Hnd' & Hgroup & Hlen).
    split; [exact Hnd' |]. split.
    + intros repo. rewrite Hgroup.
      destruct (String.eqb (DID_toString (ATUri.did u)) repo) eqn:He.
      * apply String.eqb_eq in He. subst repo.
        rewrite groupOf_pushRecord_same, <- app_assoc. reflexivity.
      * apply String.eqb_neq in He.
        rewrite groupOf_pushRecord_other by exact He. reflexivity.
    + rewrite Hlen, pushRecord_total. lia.
Qed.

Lemma pushRecord_nonempty (repo : string) (record : RecordRef)
  (m : RecordsByRepo) :
  (forall k rs, In (k, rs) m -> rs <> []) ->
  forall k rs, In (k, rs) (pushRecord repo record m) -> rs <> [].
Proof.
  induction m as [|[k0 rs0] m IH]; simpl; intros Hm k rs Hin.
  - destruct Hin as [Heq | []]. injection Heq as _ <-. discriminate.
  - destruct (String.eqb k0 repo); destruct Hin as [Heq | Hin].
    + injection Heq as _ <-. intros Hnil.
      apply app_eq_nil in Hnil as [_ Hnil]. discriminate.
    + apply (Hm k rs). right. exact Hin.
    + injection Heq as <- <-. apply (Hm k0 rs0). left. reflexivity.
    + apply (IH (fun k' rs' H' => Hm k' rs' (or_intror H')) k rs). exact Hin.
Qed.

Lemma groupByRepo_nonempty (recordIds : list PublishedRecordId.t) :
  forall acc groups,
    groupByRepo recordIds acc = Normal groups ->
    (forall k rs, In (k, rs) acc -> rs <> []) ->
    forall k rs, In (k, rs) groups -> rs <> [].
Proof.
  induction recordIds as [|r0 l IH]; simpl; intros acc groups Hg Hacc.
  - injection Hg as <-. exact Hacc.
  - unfold StrongRef.atUri, StrongRef.ofRecord, PublishedRecordId.getValue in Hg.
    simpl in Hg.
    destruct (ATUri.new (PublishedRecordId.uri r0)) as [u | e];
      [| discriminate].
    apply (IH _ _ Hg). apply pushRecord_nonempty. exact Hacc.
Qed.

(** The second loop of [unpublish]: what was sent, how the ledger was
    left, and, when a request throws, which one. *)
Lemma deleteEach_run (entries : RecordsByRepo) :
  forall w c w',
    deleteEach entries w = (c, w') ->
    (c = Normal tt
     /\ w' = mkAgent (replay (ledger w) (map deleteRequest entries))
               (sent w ++ map deleteRequest entries))
    \/ exists n last thrown,
         c = Thrown thrown
         /\ entries !! n = Some last
         /\ snd (applyWrites
                   (replay (ledger w) (map deleteRequest (take n entries)))
                   (deleteRequest last)) = Thrown thrown
         /\ w' = mkAgent
                   (replay (ledger w) (map deleteRequest (take (S n) entries)))
                   (sent w ++ map deleteRequest (take (S n) entries)).
Proof.
  induction entries as [|entry rest IH]; simpl; intros w c w' Hd.
  - apply pair_equal_spec in Hd as [<- <-]. left.
    split; [reflexivity |]. destruct w. simpl. rewrite app_nil_r. reflexivity.
  - unfold call in Hd.
    destruct (applyWrites (ledger w) (deleteRequest entry))
      as [ledger' [response | thrown]] eqn:Ha.
    + destruct (IH _ _ _ Hd)
        as [[-> ->] | (n & last & thrown & -> & Hlast & Hthrow & ->)];
        simpl.
      * left. split; [reflexivity |]. rewrite <- app_assoc. reflexivity.
      * right. exists (S n), last, thrown. simpl. rewrite Ha. simpl.
        rewrite <- app_assoc. auto.
    + apply pair_equal_spec in Hd as [<- <-]. right.
      exists 0, entry, thrown. simpl. rewrite Ha. simpl. auto.
Qed.

(** X10: what a successful [unpublish] has sent: one request per
    repository, no repository twice; the request of a repository deletes
    the record keys of the input records of that repository, in input
    order and always in the collection [app.annos.annotation], with
    [validate: false]; altogether as many deletes as there are records. *)
Theorem unpublish_requests (recordIds : list PublishedRecordId.t)
  (w w' : Agent) :
  unpublish recordIds w = (ok tt, w') ->
  exists requests,
    sent w' = sent w ++ requests
    /\ ledger w' = replay (ledger w) requests
    /\ NoDup (map repo requests)
    /\ (forall request,
          In request requests ->
          writes request
          = map (fun ref => Delete "app.annos.annotation" (rkey ref))
              (refsFor (repo request) recordIds)
          /\ writes request <> []
          /\ validate request = false)
    /\ length (concat (map writes requests)) = length recordIds.
Proof.
  unfold unpublish. intros Hu.
  destruct (groupByRepo recordIds []) as [groups | e] eqn:Hg; [| discriminate].
  destruct (deleteEach groups w) as [c w1] eqn:Hd.
  destruct c as [[] | e]; [| discriminate].
  apply pair_equal_spec in Hu as [_ <-].
  destruct (deleteEach_run _ _ _ _ Hd)
    as [[_ ->] | (n & last & thrown & Hc & _)]; [| discriminate].
  destruct (groupByRepo_groups _ _ _ Hg NoDup_nil_2)
    as (Hnd & Hgroup & Hlen).
  exists (map deleteRequest groups). simpl.
  split; [reflexivity |]. split; [reflexivity |]. split; [| split].
  - rewrite map_map. simpl. exact Hnd.
  - intros request Hin. apply in_map_iff in Hin as ([k rs] & <- & Hin).
    simpl. pose proof (Hgroup k) as Hk. simpl in Hk.
    rewrite <- Hk, (groupOf_In _ _ _ Hnd Hin).
    split; [reflexivity |]. split; auto.
    pose proof (groupByRepo_nonempty _ _ _ Hg (fun _ _ H => match H with end)
                  _ _ Hin) as Hne.
    destruct rs; [congruence | discriminate].
  - rewrite map_map. simpl in *.
    rewrite <- Hlen. clear.
    induction groups as [|[k rs] groups IH]; simpl; [reflexivity |].
    rewrite !length_app, length_map, IH. reflexivity.
Qed.

(** X11: [unpublish] does not roll back.  When it fails after the
    grouping, the requests of the repositories before the failing one have
    been sent and answered, the failing request is the last one sent, the
    requests of the later repositories are never sent, the error carries
    the message thrown, and the ledger is left as these requests left
    it. *)
Theorem unpublish_no_rollback (recordIds : list PublishedRecordId.t)
  (w : Agent) (e : Error) (w' : Agent) :
  unpublish recordIds w = (err e, w') ->
  ((exists thrown,
       groupByRepo recordIds [] = Thrown thrown /\ e = mkError (message thrown))
   /\ w' = w)
  \/ exists groups n last thrown,
       groupByRepo recordIds [] = Normal groups
       /\ groups !! n = Some last
       /\ sent w' = sent w ++ map deleteRequest (take (S n) groups)
       /\ ledger w' = replay (ledger w) (map deleteRequest (take (S n) groups))
       /\ snd (applyWrites
                 (replay (ledger w) (map deleteRequest (take n groups)))
                 (deleteRequest last)) = Thrown thrown
       /\ e = mkError (message thrown).
Proof.
  unfold unpublish. intros Hu.
  destruct (groupByRepo recordIds []) as [groups | thrown] eqn:Hg.
  - right. destruct (deleteEach groups w) as [c w1] eqn:Hd.
    destruct (deleteEach_run _ _ _ _ Hd)
      as [[-> _] | (n & last & thrown & -> & Hlast & Hthrow & ->)];
      [discriminate |].
    apply pair_equal_spec in Hu as [He <-]. injection He as <-.
    exists groups, n, last, thrown. simpl. repeat split; auto.
  - left. apply pair_equal_spec in Hu as [He <-]. injection He as <-.
    split; [exists thrown; auto | reflexivity].
Qed.

End PublisherFurther.

(** X9 on the scripted ledger: one result for two annotations; the
    request went out and the error names the second annotation. *)
Lemma publish_failure_causes_witness :
  exists e w',
    @ATProtoAnnotationsFromTemplatePublisher.publish Sample.domain Sample.ledger
      (Sample.batch [Sample.rating; Sample.dyad])
      (Sample.agent [Sample.created "a-1"])
    = (err e, w')
    /\ e = mkError "No create result found for annotation a-2"
    /\ length (ATProtoAnnotationsFromTemplatePublisher.sent w') = 1.
Proof.
  destruct (@ATProtoAnnotationsFromTemplatePublisher.publish
              Sample.domain Sample.ledger
              (Sample.batch [Sample.rating; Sample.dyad])
              (Sample.agent [Sample.created "a-1"])) as [[m | e] w'] eqn:Hp;
    [vm_compute in Hp; discriminate Hp |].
  exists e, w'. split; [reflexivity |].
  assert (He : e = mkError "No create result found for annotation a-2").
  { apply (f_equal fst) in Hp. vm_compute in Hp. injection Hp as <-.
    reflexivity. }
  split; [exact He |].
  destruct (@publish_failure_causes Sample.domain Sample.ledger _ _ _ _ Hp)
    as [[He' _] | (did & _ & -> & _)].
  - rewrite He in He'. discriminate He'.
  - reflexivity.
Defined.

(** X10 on the scripted ledger: three records of two repositories, two
    requests, three deletes. *)
Lemma unpublish_requests_witness :
  exists w',
    @ATProtoAnnotationsFromTemplatePublisher.unpublish
      Sample.domain Sample.ledger Sample.didClass Scenario.records
      (Sample.agent [])
    = (ok tt, w')
    /\ length
         (concat (map writes (ATProtoAnnotationsFromTemplatePublisher.sent w')))
       = 3.
Proof.
  destruct (@ATProtoAnnotationsFromTemplatePublisher.unpublish
              Sample.domain Sample.ledger Sample.didClass Scenario.records
              (Sample.agent [])) as [[[] | e] w'] eqn:Hu;
    [| vm_compute in Hu; discriminate Hu].
  exists w'. split; [reflexivity |].
  destruct (@unpublish_requests Sample.domain Sample.ledger Sample.didClass
              _ _ _ Hu) as (requests & Hsent & _ & _ & _ & Hlen).
  rewrite Hsent. exact Hlen.
Defined.

(** X11 on a ledger that answers one request and then throws: the
    request of the first repository stays sent and answered. *)
Lemma unpublish_no_rollback_witness :
  exists e w',
    @ATProtoAnnotationsFromTemplatePublisher.unpublish
      Sample.domain Scenario.quotaLedger Sample.didClass Scenario.records
      (Scenario.quotaAgent 1)
    = (err e, w')
    /\ length (ATProtoAnnotationsFromTemplatePublisher.sent w') = 2.
Proof.
  destruct (@ATProtoAnnotationsFromTemplatePublisher.unpublish
              Sample.domain Scenario.quotaLedger Sample.didClass
              Scenario.records (Scenario.quotaAgent 1))
    as [[[] | e] w'] eqn:Hu; [vm_compute in Hu; discriminate Hu |].
  exists e, w'. split; [reflexivity |].
  destruct (@unpublish_no_rollback Sample.domain Scenario.quotaLedger
              Sample.didClass _ _ _ _ Hu)
    as [[(thrown & Hg & _) _] | (groups & n & last & thrown & Hg & Hlast & Hsent
                                  & _)].
  - vm_compute in Hg. discriminate Hg.
  - apply (f_equal snd) in Hu. simpl in Hu. rewrite <- Hu.
    vm_compute. reflexivity.
Defined.

(** *** The use case, further *)

Section UseCaseFurther.
Context {P : Platform} {D : Domain} {C : Collaborators D}.

Import CreateAndPublishAnnotationsFromTemplateUseCase.
Import CreateAndPublishAnnotationsFromTemplateErrors.

(** The annotation that the body of the loop builds for an input. *)
Lemma buildAnnotation_shape (c : CuratorId.t) (u : URI.t)
  (t : AnnotationTemplateId.t) (x : AnnotationInput) (w : World)
  (a : Annotation.t) (w' : World) :
  buildAnnotation c u t x w = (Normal (ok a), w') ->
  generated w' = S (generated w)
  /\ Annotation._id a = newUniqueEntityID (generated w)
  /\ builtFrom c u t (store w) x a.
Proof.
  unfold buildAnnotation, builtFrom. intros Hb.
  destruct (AnnotationFieldId_create _) as [fid | e0] eqn:Hfid;
    [| apply pair_equal_spec in Hb as [Hb _]; discriminate].
  destruct (field_findById _ _) as [[f|] | e1] eqn:Hfind;
    [| apply pair_equal_spec in Hb as [Hb _]; discriminate
     | apply pair_equal_spec in Hb as [Hb _]; discriminate].
  destruct (String.eqb (typeValue (definitionType f)) (type x)) eqn:Hty;
    simpl in Hb; [| apply pair_equal_spec in Hb as [Hb _]; discriminate].
  apply String.eqb_eq in Hty.
  destruct (makeNote (note x)) as [n | e2] eqn:Hnote;
    [| apply pair_equal_spec in Hb as [Hb _]; discriminate].
  destruct (AnnotationValueFactory_create _ _) as [v | e3] eqn:Hval;
    [| apply pair_equal_spec in Hb as [Hb _]; discriminate].
  unfold Annotation.create in Hb. simpl in Hb.
  destruct (matchesFieldType v f) eqn:Hm; simpl in Hb;
    [| apply pair_equal_spec in Hb as [Hb _]; discriminate].
  apply pair_equal_spec in Hb as [Ha <-].
  injection Ha as <-. simpl. repeat split; auto.
  exists fid. auto.
Qed.

(** The annotations that the loop builds: one per input, in order, with
    the ids generated in sequence. *)
Lemma buildAnnotations_shape (c : CuratorId.t) (u : URI.t)
  (t : AnnotationTemplateId.t) (inputs : list AnnotationInput) :
  forall acc w built w1,
    buildAnnotations c u t inputs acc w = (Normal (ok built), w1) ->
    generated w1 = generated w + length inputs
    /\ exists new,
         built = acc ++ new
         /\ Forall2 (builtFrom c u t (store w)) inputs new
         /\ map Annotation._id new = generatedIds w (length inputs).
Proof.
  unfold generatedIds.
  induction inputs as [|x rest IH]; simpl; intros acc w built w1 Hb.
  - apply pair_equal_spec in Hb as [Hb <-]. injection Hb as <-.
    split; [lia |]. exists []. rewrite app_nil_r. repeat split. constructor.
  - destruct (buildAnnotation c u t x w) as [[[a | e] | e] w0] eqn:Hx;
      [| apply pair_equal_spec in Hb as [Hb _]; discriminate
       | apply pair_equal_spec in Hb as [Hb _]; discriminate].
    destruct (buildAnnotation_shape _ _ _ _ _ _ _ Hx) as (Hgen & Hid & Hfrom).
    destruct (buildAnnotation_quiet _ _ _ _ _ _ _ Hx) as (Hstore & _).
    destruct (IH _ _ _ _ Hb) as (Hgen' & new & -> & Hall & Hids).
    split; [lia |]. exists (a :: new). rewrite <- app_assoc.
    split; [reflexivity |]. split.
    + constructor; [exact Hfrom |]. rewrite <- Hstore. exact Hall.
    + simpl. rewrite Hid, Hids, Hgen. reflexivity.
Qed.

Lemma annotationKey_markOne (ids : gmap string PublishedRecordId.t)
  (a : Annotation.t) :
  AnnotationsFromTemplate.annotationKey (AnnotationsFromTemplate.markOne ids a)
  = Annotation._id a.
Proof.
  unfold AnnotationsFromTemplate.markOne, AnnotationsFromTemplate.annotationKey.
  destruct (ids !! _); reflexivity.
Qed.

(** Marking leaves an annotation what it was built as, and published. *)
Lemma markOne_built (c : CuratorId.t) (u : URI.t) (t : AnnotationTemplateId.t)
  (st : Store) (ids : gmap string PublishedRecordId.t)
  (inputs : list AnnotationInput) (built : list Annotation.t) :
  Forall2 (builtFrom c u t st) inputs built ->
  (forall a, In a built ->
     is_Some (ids !! AnnotationsFromTemplate.annotationKey a)) ->
  Forall2 (fun x a => builtFrom c u t st x a /\ published a)
    inputs (map (AnnotationsFromTemplate.markOne ids) built).
Proof.
  induction 1 as [|x a inputs built Hfrom _ IH]; intros Hcov; simpl;
    constructor.
  - destruct (Hcov a (or_introl eq_refl)) as [r Hr].
    unfold AnnotationsFromTemplate.markOne. rewrite Hr.
    split; [exact Hfrom |]. unfold published. simpl. eauto.
  - apply IH. intros a' Ha'. apply Hcov. right. exact Ha'.
Qed.

Lemma saveAll_publisher (l : list Annotation.t) :
  forall w c w', saveAll l w = (c, w') -> publisher w' = publisher w.
Proof.
  induction l as [|a rest IH]; simpl; intros w c w' Hs.
  - apply pair_equal_spec in Hs as [_ <-]. reflexivity.
  - unfold callSave in Hs.
    destruct (annotation_save (store w) a) as [store' | e].
    + rewrite (IH _ _ _ Hs). reflexivity.
    + apply pair_equal_spec in Hs as [_ <-]. reflexivity.
Qed.

(** When the save loop throws, the save that threw is the last call. *)
Lemma saveAll_thrown (l : list Annotation.t) :
  forall w e w',
    saveAll l w = (Thrown e, w') ->
    exists n,
      n < length l
      /\ trace w' = trace w ++ map EvSave (take (S n) l).
Proof.
  induction l as [|a rest IH]; simpl; intros w e w' Hs.
  - apply pair_equal_spec in Hs as [Hs _]. discriminate.
  - unfold callSave in Hs.
    destruct (annotation_save (store w) a) as [store' | e'].
    + destruct (IH _ _ _ Hs) as (n & Hn & Ht). exists (S n).
      split; [lia |]. rewrite Ht. simpl. rewrite <- app_assoc. reflexivity.
    + apply pair_equal_spec in Hs as [_ <-]. exists 0.
      split; [lia |]. reflexivity.
Qed.

(** A successful run of [execute], step by step. *)
Lemma execute_success_run
  (request : CreateAndPublishAnnotationsFromTemplateDTO) (w : World)
  (response : Response) :
  fst (execute request w) = ok response ->
  exists batch w1 ids,
    Prepares request w batch w1
    /\ quiet w w1
    /\ publisher_publish (publisher w) batch
       = (publisher (snd (execute request w)), Normal (ok ids))
    /\ coversBatch batch ids
    /\ trace (snd (execute request w))
       = trace w ++ EvPublish batch
           :: map EvSave
                (map (AnnotationsFromTemplate.markOne ids)
                   (AnnotationsFromTemplate.annotations batch))
    /\ annotationIds response
       = map Annotation._id (AnnotationsFromTemplate.annotations batch).
Proof.
  intros Hok.
  destruct (execute_cases request w)
    as [(batch & w1 & Hprep & Hq & He) | (_ & Herr & _)];
    [| rewrite Hok in Herr; discriminate].
  rewrite He in *. clear He.
  destruct Hq as (Hs & Hp & Ht).
  unfold publishAndPersist, callPublish in *. simpl in *.
  rewrite Hp, Ht in *.
  destruct (publisher_publish (publisher w) batch) as [p' [[ids | e] | e]]
    eqn:Hpub; simpl in Hok; try discriminate.
  unfold AnnotationsFromTemplate.markAllAnnotationsAsPublished in *.
  destruct (forallb _ (AnnotationsFromTemplate.annotations batch)) eqn:Hall;
    simpl in Hok; [| discriminate].
  simpl in *.
  destruct (saveAll _ _) as [c w3] eqn:Hsave.
  destruct c as [[] | e]; simpl in Hok; [| discriminate].
  destruct (saveAll_trace _ _ _ _ Hsave) as (n & Hn & Htr & Hfull).
  rewrite (Hfull eq_refl), firstn_all in Htr. simpl in Htr.
  pose proof (saveAll_publisher _ _ _ _ Hsave) as Hpub'. simpl in Hpub'.
  exists batch, w1, ids. simpl.
  split; [exact Hprep |]. split; [repeat split; assumption |].
  split; [rewrite Hpub'; exact Hpub |].
  split; [apply coversBatch_forallb; exact Hall |].
  split; [rewrite Htr, <- app_assoc; reflexivity |].
  injection Hok as <-. simpl. rewrite map_map.
  apply map_ext. intros a. apply annotationKey_markOne.
Qed.

(** X12: the output of a successful [execute].  The response lists one id
    per input, in input order: the ids generated in sequence.  The calls
    made are one [publish] and then one [save] per input, in input order;
    the annotation saved for an input carries the curator, the url and the
    template id of the request, the field found for the input's field id,
    the value made from its payload, and a published-record id. *)
Theorem execute_success_output
  (request : CreateAndPublishAnnotationsFromTemplateDTO) (w : World)
  (response : Response) :
  fst (execute request w) = ok response ->
  exists c u t batch saved,
    CuratorId_create (curatorId request) = ok c
    /\ URI.create (url request) = Normal (ok u)
    /\ AnnotationTemplateId_create (templateId request) = ok t
    /\ annotationIds response
       = generatedIds w (length (annotations request))
    /\ trace (snd (execute request w))
       = trace w ++ EvPublish batch :: map EvSave saved
    /\ map AnnotationsFromTemplate.annotationKey saved = annotationIds response
    /\ Forall2 (fun x a => builtFrom c u t (store w) x a /\ published a)
         (annotations request) saved.
Proof.
  intros Hok.
  destruct (execute_success_run _ _ _ Hok)
    as (batch & w1 & ids & Hprep & _ & _ & Hcov & Htr & Hids).
  destruct Hprep as (c & u & t & tpl & built & Hc & Hu & Ht & _ & Hb & Hcreate).
  apply create_ok_same in Hcreate. subst batch. simpl in *.
  destruct (buildAnnotations_shape _ _ _ _ _ _ _ _ Hb)
    as (_ & new & -> & Hall & Hnew).
  simpl in *.
  exists c, u, t,
    (AnnotationsFromTemplate.mk new tpl c (newDate (generated w1))),
    (map (AnnotationsFromTemplate.markOne ids) new).
  split; [exact Hc |]. split; [exact Hu |]. split; [exact Ht |].
  split; [rewrite Hids; exact Hnew |]. split; [exact Htr |]. split.
  - rewrite Hids, map_map. apply map_ext. intros a.
    apply annotationKey_markOne.
  - apply markOne_built; [exact Hall | exact Hcov].
Qed.

Lemma buildAnnotation_err_kind (c : CuratorId.t) (u : URI.t)
  (t : AnnotationTemplateId.t) (x : AnnotationInput) (w : World)
  (e : CreateAndPublishAnnotationsFromTemplateErrors.t) (w' : World) :
  buildAnnotation c u t x w = (Normal (err e), w') ->
  exists m, e = AnnotationCreationFailed m.
Proof.
  unfold buildAnnotation. intros Hb.
  destruct (AnnotationFieldId_create _);
    [destruct (field_findById _ _) as [[f|]|];
       [destruct (negb _);
          [| destruct (makeNote _);
               [destruct (AnnotationValueFactory_create _ _);
                  [destruct (Annotation.create _ _ _ _) as [[?|?]|] | ] | ]]
       | | ]
    | ];
    apply pair_equal_spec in Hb as [Hb _]; try discriminate;
    injection Hb as <-; eauto.
Qed.

Lemma buildAnnotations_err_kind (c : CuratorId.t) (u : URI.t)
  (t : AnnotationTemplateId.t) (inputs : list AnnotationInput) :
  forall acc w e w',
    buildAnnotations c u t inputs acc w = (Normal (err e), w') ->
    exists m, e = AnnotationCreationFailed m.
Proof.
  induction inputs as [|x rest IH]; simpl; intros acc w e w' Hb.
  - apply pair_equal_spec in Hb as [Hb _]. discriminate.
  - destruct (buildAnnotation c u t x w) as [[[a | e0] | e0] w0] eqn:Hx.
    + exact (IH _ _ _ _ Hb).
    + apply pair_equal_spec in Hb as [Hb _]. injection Hb as <-.
      exact (buildAnnotation_err_kind _ _ _ _ _ _ _ Hx).
    + apply pair_equal_spec in Hb as [Hb _]. discriminate.
Qed.

(** X13: the kind of error that [execute] returns tells which calls were
    made.  [TemplateNotFound] and [AnnotationCreationFailed]: none.
    [AnnotationPublishFailed]: the publisher was called, for the whole
    batch, and nothing was saved.  [AnnotationSaveFailed]: the publisher
    had returned successfully, and the save that threw is the last call,
    after the saves of the annotations before it.  [UnexpectedError]:
    none, or the call of the publisher that threw. *)
Theorem execute_error_effects
  (request : CreateAndPublishAnnotationsFromTemplateDTO) (w : World) :
  match fst (execute request w) with
  | ok _ => True
  | err (TemplateNotFound _) => quiet w (snd (execute request w))
  | err (AnnotationCreationFailed _) => quiet w (snd (execute request w))
  | err (AnnotationPublishFailed id _) =>
      id = "batch"
      /\ store (snd (execute request w)) = store w
      /\ exists batch,
           trace (snd (execute request w)) = trace w ++ [EvPublish batch]
  | err (AnnotationSaveFailed id _) =>
      id = "batch"
      /\ exists batch ids n,
           snd (publisher_publish (publisher w) batch) = Normal (ok ids)
           /\ n < length (AnnotationsFromTemplate.annotations batch)
           /\ trace (snd (execute request w))
              = trace w ++ EvPublish batch
                  :: map EvSave
                       (take (S n)
                          (map (AnnotationsFromTemplate.markOne ids)
                             (AnnotationsFromTemplate.annotations batch)))
  | err (UnexpectedError _) =>
      quiet w (snd (execute request w))
      \/ (store (snd (execute request w)) = store w
          /\ exists batch,
               trace (snd (execute request w)) = trace w ++ [EvPublish batch])
  end.
Proof.
  unfold execute.
  destruct (URI.create (url request)) as [[u | eu] | eu] eqn:Hu;
    destruct (CuratorId_create (curatorId request)) as [c | ec] eqn:Hc;
    destruct (AnnotationTemplateId_create (templateId request)) as [t | et]
      eqn:Ht;
    simpl; try apply quiet_refl; try (left; apply quiet_refl).
  destruct (template_findById (store w) t) as [[tpl |] | e] eqn:Htpl;
    simpl; try apply quiet_refl; try (left; apply quiet_refl).
  destruct (buildAnnotations c u t (annotations request) [] w)
    as [[[built | e] | e] w1] eqn:Hb;
    destruct (buildAnnotations_spec _ _ _ _ _ _ _ _ Hb) as [Hq _];
    simpl; [| | left; exact Hq].
  2: { destruct (buildAnnotations_err_kind _ _ _ _ _ _ _ _ Hb) as [m ->].
       exact Hq. }
  destruct (AnnotationsFromTemplate.create _) as [batch | e] eqn:Hcreate;
    simpl; [| apply quiet_tick; exact Hq].
  destruct Hq as (Hs & Hp & Htr).
  unfold callPublish. simpl. rewrite Hp, Htr.
  destruct (publisher_publish (publisher w) batch) as [p' [[ids | e] | e]]
    eqn:Hpub; simpl.
  - unfold AnnotationsFromTemplate.markAllAnnotationsAsPublished.
    destruct (forallb _ (AnnotationsFromTemplate.annotations batch)); simpl.
    + destruct (saveAll _ _) as [[[] | e] w3] eqn:Hsave; simpl; [exact Logic.I |].
      split; [reflexivity |].
      destruct (saveAll_thrown _ _ _ _ Hsave) as (n & Hn & Htrace).
      exists batch, ids, n. rewrite Hpub. simpl.
      split; [reflexivity |].
      split; [rewrite length_map in Hn; exact Hn |].
      rewrite Htrace. simpl. rewrite <- app_assoc. reflexivity.
    + split; [reflexivity |]. split; [exact Hs |]. exists batch. reflexivity.
  - split; [reflexivity |]. split; [exact Hs |]. exists batch. reflexivity.
  - right. split; [exact Hs |]. exists batch. reflexivity.
Qed.

End UseCaseFurther.

(** X12 on the sample collaborators: two inputs, two ids, in order. *)
Lemma execute_success_output_witness :
  exists response,
    fst (@CreateAndPublishAnnotationsFromTemplateUseCase.execute
           Sample.platform Sample.domain Sample.collaborators
           (Sample.request
              [Sample.input "field-1" "rating" 4;
               Sample.input "field-2" "dyad" 7])
           Sample.world) = ok response
    /\ CreateAndPublishAnnotationsFromTemplateUseCase.annotationIds response
       = ["a-1"; "a-11"]%string.
Proof.
  destruct (fst (@CreateAndPublishAnnotationsFromTemplateUseCase.execute
                   Sample.platform Sample.domain Sample.collaborators
                   (Sample.request
                      [Sample.input "field-1" "rating" 4;
                       Sample.input "field-2" "dyad" 7])
                   Sample.world)) as [response | e] eqn:Hok;
    [| vm_compute in Hok; discriminate Hok].
  exists response. split; [reflexivity |].
  destruct (@execute_success_output Sample.platform Sample.domain
              Sample.collaborators _ _ _ Hok)
    as (c & u & t & batch & saved & _ & _ & _ & Hids & _).
  rewrite Hids. reflexivity.
Defined.

(** *** The use case with the AT Protocol publisher *)

Lemma NoDup_map_inj {A B : Type} (f : A -> B) (l : list A) :
  (forall x y, f x = f y -> x = y) -> NoDup l -> NoDup (map f l).
Proof.
  intros Hinj. induction l as [|x l IH]; intros Hnd; simpl;
    [apply NoDup_nil_2 |].
  apply NoDup_cons in Hnd as [Hx Hnd]. apply NoDup_cons. split; [| auto].
  intros Hin. apply list_elem_of_In, in_map_iff in Hin as (y & Heq & Hy).
  apply Hinj in Heq. subst y. apply Hx. apply list_elem_of_In. exact Hy.
Qed.

Lemma lookup_map {A B : Type} (f : A -> B) (l : list A) (i : nat) :
  map f l !! i = f <$> (l !! i).
Proof.
  revert i. induction l as [|x l IH]; intros [|i]; simpl; auto.
Qed.

Section WiredFacts.
Context {P : Platform} {D : Domain} (C : Collaborators D) (L : Ledger D)
  (DI : DIDClass).

Import CreateAndPublishAnnotationsFromTemplateUseCase.

(** X14: with the AT Protocol publisher, a request without annotations
    never succeeds, whatever the template requires, and nothing is sent
    to the ledger or saved. *)
Theorem wired_empty_request_fails
  (request : @CreateAndPublishAnnotationsFromTemplateDTO D
               (withATProtoPublisher C L DI))
  (w : @World D (withATProtoPublisher C L DI)) :
  annotations request = [] ->
  isErr (fst (@execute P D (withATProtoPublisher C L DI) request w)) = true
  /\ publisher (snd (@execute P D (withATProtoPublisher C L DI) request w))
     = publisher w
  /\ store (snd (@execute P D (withATProtoPublisher C L DI) request w))
     = store w
  /\ Forall (fun ev => exists batch, ev = EvPublish batch)
       (drop (length (trace w))
          (trace (snd (@execute P D (withATProtoPublisher C L DI) request w)))).
Proof.
  intros Hempty.
  destruct (@execute_cases P D (withATProtoPublisher C L DI) request w)
    as [(batch & w1 & Hprep & Hq & He) | (_ & Herr & Hs & Hp & Ht)].
  - destruct Hprep as (c & u & t & tpl & built & _ & _ & _ & _ & Hb & Hcreate).
    rewrite Hempty in Hb. simpl in Hb.
    apply pair_equal_spec in Hb as [Hb <-]. injection Hb as <-.
    apply create_ok_same in Hcreate. subst batch.
    rewrite He. unfold publishAndPersist, callPublish. simpl.
    simpl. repeat split.
    rewrite drop_app_length. repeat constructor. eexists. reflexivity.
  - split; [exact Herr |]. split; [exact Hp |]. split; [exact Hs |].
    rewrite Ht, drop_all. constructor.
Qed.

(** X15: with the AT Protocol publisher and entity ids that are never
    generated twice, a successful [execute] has sent exactly one request
    to the ledger, under the request's curator, and the annotation saved
    for the input at a position carries the published-record id built
    from the create confirmation at the same position of the ledger's
    answer. *)
Theorem wired_success_aligned
  (request : @CreateAndPublishAnnotationsFromTemplateDTO D
               (withATProtoPublisher C L DI))
  (w : @World D (withATProtoPublisher C L DI))
  (response : Response) :
  (forall i j, @newUniqueEntityID D C i = @newUniqueEntityID D C j -> i = j) ->
  fst (@execute P D (withATProtoPublisher C L DI) request w) = ok response ->
  exists c u t batch answer saved,
    @CuratorId_create D C (curatorId request) = ok c
    /\ ATProtoAnnotationsFromTemplatePublisher.sent
         (publisher (snd (@execute P D (withATProtoPublisher C L DI) request w)))
       = ATProtoAnnotationsFromTemplatePublisher.sent (publisher w)
         ++ [ATProtoAnnotationsFromTemplatePublisher.publishRequest batch
               (CuratorId.value c)]
    /\ snd (applyWrites
              (ATProtoAnnotationsFromTemplatePublisher.ledger (publisher w))
              (ATProtoAnnotationsFromTemplatePublisher.publishRequest batch
                 (CuratorId.value c)))
       = Normal answer
    /\ trace (snd (@execute P D (withATProtoPublisher C L DI) request w))
       = trace w ++ EvPublish batch :: map EvSave saved
    /\ length saved = length (annotations request)
    /\ forall i a,
         saved !! i = Some a ->
         exists x r,
           annotations request !! i = Some x
           /\ @builtFrom D (withATProtoPublisher C L DI) c u t (store w) x a
           /\ default [] (results answer) !! i = Some r
           /\ confirmsCreate r
           /\ Annotation.publishedRecordId (Annotation.props a)
              = Some (recordIdOf r).
Proof.
  intros Hinj Hok.
  destruct (@execute_success_run P D (withATProtoPublisher C L DI) _ _ _ Hok)
    as (batch & w1 & ids & Hprep & _ & Hpub & Hcov & Htr & _).
  destruct Hprep as (c & u & t & tpl & built & Hc & _ & _ & _ & Hb & Hcreate).
  apply create_ok_same in Hcreate. subst batch. simpl in *.
  destruct (@buildAnnotations_shape D (withATProtoPublisher C L DI)
              _ _ _ _ _ _ _ _ Hb) as (_ & new & -> & Hall & Hnew).
  simpl in *.
  set (batch := AnnotationsFromTemplate.mk new tpl c
                  (@newDate D C (generated w1))) in *.
  destruct (@ATProtoAnnotationsFromTemplatePublisher.publish D L batch
              (publisher w)) as [res agent'] eqn:Hp.
  apply pair_equal_spec in Hpub as [Hagent Hres].
  injection Hres as ->.
  assert (Hkeys : NoDup (map AnnotationsFromTemplate.annotationKey new)).
  { change (map AnnotationsFromTemplate.annotationKey new)
      with (map Annotation._id new).
    rewrite Hnew. unfold generatedIds.
    apply NoDup_map_inj; [exact Hinj | apply NoDup_seq]. }
  destruct new as [|a0 rest] eqn:Hnewlist.
  { rewrite publish_no_curator in Hp by exact Logic.I. discriminate. }
  assert (Hdid0 : Annotation.curatorId (Annotation.props a0) = c).
  { inversion Hall as [|x0 ? ? ? (Hcur & _) _]. exact Hcur. }
  destruct (String.eqb (CuratorId.value c) "") eqn:He.
  { apply String.eqb_eq in He.
    rewrite publish_no_curator in Hp
      by (simpl; rewrite Hdid0; exact He).
    discriminate. }
  apply String.eqb_neq in He.
  rewrite (publish_unfold batch (publisher w) a0 rest eq_refl) in Hp
    by (rewrite Hdid0; exact He).
  rewrite Hdid0 in Hp.
  destruct (applyWrites _ _) as [ledger' [answer | thrown]] eqn:Happly;
    apply pair_equal_spec in Hp as [Hm Hagent']; [| discriminate].
  exists c, u, t, batch, answer,
    (map (AnnotationsFromTemplate.markOne ids) (a0 :: rest)).
  split; [exact Hc |].
  split; [rewrite <- Hagent, <- Hagent'; reflexivity |].
  split; [rewrite Happly; reflexivity |]. split; [exact Htr |].
  split.
  { rewrite length_map. symmetry.
    apply (Forall2_length _ _ _ Hall). }
  intros i a Ha. rewrite lookup_map in Ha.
  destruct ((a0 :: rest) !! i) as [b|] eqn:Hb'; [| discriminate].
  simpl in Ha. injection Ha as <-.
  destruct (Forall2_lookup_r _ _ _ _ _ Hall Hb') as (x & Hx & Hfrom).
  destruct (mapResults_ok _ _ _ _ _ Hm i b Hb') as (r & Hr & Hconf & Hlook).
  specialize (Hlook Hkeys).
  exists x, r. split; [exact Hx |].
  unfold AnnotationsFromTemplate.markOne. rewrite Hlook. simpl.
  split; [exact Hfrom |]. repeat split; assumption.
Qed.

End WiredFacts.

(** The sample ids are never generated twice. *)
Lemma sample_ids_distinct (i j : nat) :
  @newUniqueEntityID Sample.domain Sample.collaborators i
  = @newUniqueEntityID Sample.domain Sample.collaborators j ->
  i = j.
Proof.
  simpl. intros Heq.
  assert (Hlen : forall n, String.length (Sample.tally n) = S n).
  { induction n as [|n IH]; simpl; [reflexivity | rewrite IH; reflexivity]. }
  cbv [append] in Heq. injection Heq as Heq.
  apply (f_equal String.length) in Heq. rewrite !Hlen in Heq. lia.
Qed.

(** X14 on the sample use case over the scripted ledger. *)
Lemma wired_empty_request_fails_witness :
  isErr (fst (@CreateAndPublishAnnotationsFromTemplateUseCase.execute
                Sample.platform Sample.domain Scenario.wired
                (Scenario.wiredRequest [])
                (Scenario.wiredWorld [Sample.created "a-1"]))) = true
  /\ CreateAndPublishAnnotationsFromTemplateUseCase.publisher
       (snd (@CreateAndPublishAnnotationsFromTemplateUseCase.execute
               Sample.platform Sample.domain Scenario.wired
               (Scenario.wiredRequest [])
               (Scenario.wiredWorld [Sample.created "a-1"])))
     = Sample.agent [Sample.created "a-1"].
Proof.
  destruct (@wired_empty_request_fails Sample.platform Sample.domain
              Sample.collaborators Sample.ledger Sample.didClass
              (Scenario.wiredRequest [])
              (Scenario.wiredWorld [Sample.created "a-1"]) eq_refl)
    as (Herr & Hpub & _).
  split; [exact Herr | exact Hpub].
Defined.

(** X15 on the sample use case over the scripted ledger: the second
    saved annotation carries the record of the second result. *)
Lemma wired_success_aligned_witness :
  exists batch saved a,
    CreateAndPublishAnnotationsFromTemplateUseCase.trace
      (snd (@CreateAndPublishAnnotationsFromTemplateUseCase.execute
              Sample.platform Sample.domain Scenario.wired
              (Scenario.wiredRequest
                 [Scenario.wiredInput "field-1" "rating" 4;
                  Scenario.wiredInput "field-2" "dyad" 7])
              (Scenario.wiredWorld
                 [Sample.created "k1"; Sample.created "k2"])))
    = CreateAndPublishAnnotationsFromTemplateUseCase.EvPublish batch
        :: map CreateAndPublishAnnotationsFromTemplateUseCase.EvSave saved
    /\ saved !! 1 = Some a
    /\ Annotation.publishedRecordId (Annotation.props a)
       = Some (recordIdOf (Sample.created "k2")).
Proof.
  destruct (fst (@CreateAndPublishAnnotationsFromTemplateUseCase.execute
                   Sample.platform Sample.domain Scenario.wired
                   (Scenario.wiredRequest
                      [Scenario.wiredInput "field-1" "rating" 4;
                       Scenario.wiredInput "field-2" "dyad" 7])
                   (Scenario.wiredWorld
                      [Sample.created "k1"; Sample.created "k2"])))
    as [response | e] eqn:Hok; [| vm_compute in Hok; discriminate Hok].
  destruct (@wired_success_aligned Sample.platform Sample.domain
              Sample.collaborators Sample.ledger Sample.didClass _ _ _
              sample_ids_distinct Hok)
    as (c & u & t & batch & answer & saved & _ & _ & Hans & Htr & Hlen & Hpos).
  simpl in Hans. injection Hans as <-. simpl in Hlen.
  destruct saved as [|a1 [|a2 [|a3 saved]]]; try discriminate Hlen.
  exists batch, [a1; a2], a2. split; [exact Htr |]. split; [reflexivity |].
  destruct (Hpos 1 a2 eq_refl) as (x & r & _ & _ & Hr & _ & Hid).
  simpl in Hr. injection Hr as <-. exact Hid.
Defined.

(** *** [URI]: equality and string projection *)

Section URIRoundTrip.
Context `{Platform}.

(** [create] has no path on which it throws: the constructor is only
    reached with a value that it accepts. *)
Lemma URI_create_not_thrown (s : string) (e : Error) :
  URI.create s <> Thrown e.
Proof.
  unfold URI.create, URI.createFallback, URI.new.
  destruct (parsesAsURL s); [discriminate |].
  destruct (JS.startsWith "at://" s); [| discriminate].
  destruct (RegExp.test URI.atUriPattern s); simpl; discriminate.
Qed.

(** X16: a URI that [create] returns projects to the string it was
    created from, and creating from that string gives the same URI again;
    [equals] holds between two URIs exactly when they are the same. *)
Theorem URI_toString_round_trip (s : string) (u : URI.t) :
  URI.create s = Normal (ok u) ->
  URI.toString u = s
  /\ URI.create (URI.toString u) = Normal (ok u)
  /\ forall v, URI.equals u v = true <-> u = v.
Proof.
  intros Hc.
  assert (Hu : u = URI.mk s).
  { unfold URI.create, URI.createFallback, URI.new in Hc.
    destruct (parsesAsURL s); [congruence |].
    destruct (JS.startsWith "at://" s); [| discriminate].
    destruct (RegExp.test URI.atUriPattern s); simpl in Hc; congruence. }
  subst u. simpl. split; [reflexivity |]. split; [exact Hc |].
  intros [v]. unfold URI.equals. simpl. rewrite String.eqb_eq.
  split; congruence.
Qed.

End URIRoundTrip.

(** X16 on the sample platform. *)
Lemma URI_toString_round_trip_witness :
  URI.toString (URI.mk "https://example.com/resource")
  = "https://example.com/resource"
  /\ @URI.create Sample.platform
       (URI.toString (URI.mk "https://example.com/resource"))
     = Normal (ok (URI.mk "https://example.com/resource")).
Proof.
  destruct (@URI_toString_round_trip Sample.platform
              "https://example.com/resource"
              (URI.mk "https://example.com/resource"))
    as (Hs & Hc & _).
  - vm_compute. reflexivity.
  - split; [exact Hs | exact Hc].
Defined.

(** *** The use case: which error, and when the publisher is called *)

Section UseCaseOrder.
Context {P : Platform} {D : Domain} {C : Collaborators D}.

Import CreateAndPublishAnnotationsFromTemplateUseCase.
Import CreateAndPublishAnnotationsFromTemplateErrors.

(** X17: the first checks of [execute] come before everything else.  An
    invalid curatorId, url or templateId gives "Invalid common
    properties", whatever the repositories hold; with the three valid, a
    template that is not found gives [TemplateNotFound] with the template
    id in its message, whatever the annotation inputs are.  In both cases
    the world is as before. *)
Theorem execute_first_checks
  (request : CreateAndPublishAnnotationsFromTemplateDTO) (w : World) :
  ((isErr (CuratorId_create (curatorId request)) = true
    \/ (exists e, URI.create (url request) = Normal (err e))
    \/ isErr (AnnotationTemplateId_create (templateId request)) = true) ->
   execute request w
   = (err (AnnotationCreationFailed "Invalid common properties"), w))
  /\ (forall c u t,
        CuratorId_create (curatorId request) = ok c ->
        URI.create (url request) = Normal (ok u) ->
        AnnotationTemplateId_create (templateId request) = ok t ->
        template_findById (store w) t = Normal None ->
        execute request w
        = (err (TemplateNotFound (AnnotationTemplateId.getValue t)), w)
        /\ errorMessage (TemplateNotFound (AnnotationTemplateId.getValue t))
           = Some ("Template with ID " ++ AnnotationTemplateId.getValue t
                   ++ " not found")%string).
Proof.
  unfold execute. split.
  - intros Hbad.
    destruct (URI.create (url request)) as [[u | eu] | eu] eqn:Hu;
      [| | exfalso; exact (URI_create_not_thrown _ _ Hu)];
      destruct (CuratorId_create (curatorId request)) as [c | ec];
      destruct (AnnotationTemplateId_create (templateId request)) as [t | et];
      try reflexivity; exfalso;
      destruct Hbad as [Hb | [(e & Hb) | Hb]]; discriminate.
  - intros c u t Hc Hu Ht Htpl. rewrite Hu, Hc, Ht, Htpl.
    split; reflexivity.
Qed.

(** An input that fails for none of the reasons of [InputFails] gives an
    annotation, and one generated id is used. *)
Lemma buildAnnotation_complete (c : CuratorId.t) (u : URI.t)
  (t : AnnotationTemplateId.t) (x : AnnotationInput) (w : World) :
  ~ InputFails (store w) x ->
  exists a, buildAnnotation c u t x w = (Normal (ok a), tick w).
Proof.
  intros Hno. unfold buildAnnotation.
  destruct (AnnotationFieldId_create _) as [fid | e0] eqn:Hfid;
    [| exfalso; apply Hno; eapply InvalidFieldId; eauto].
  destruct (field_findById _ _) as [[f|] | e1] eqn:Hfind;
    [| exfalso; apply Hno; eapply FieldNotFound; eauto
     | exfalso; apply Hno; eapply FieldLookupThrows; eauto].
  destruct (String.eqb (typeValue (definitionType f)) (type x)) eqn:Hty;
    simpl;
    [| exfalso; apply Hno; eapply DeclaredTypeMismatch; eauto;
       apply String.eqb_neq; exact Hty].
  destruct (makeNote (note x)) as [n | e2] eqn:Hnote;
    [| exfalso; apply Hno; eapply NoteThrows; eauto].
  destruct (AnnotationValueFactory_create _ _) as [v | e3] eqn:Hval;
    [| exfalso; apply Hno; eapply InvalidValue; eauto].
  unfold Annotation.create. simpl.
  destruct (matchesFieldType v f) eqn:Hm; simpl;
    [| exfalso; apply Hno; eapply ConstructionFails; eauto].
  eauto.
Qed.

Lemma buildAnnotations_complete (c : CuratorId.t) (u : URI.t)
  (t : AnnotationTemplateId.t) (inputs : list AnnotationInput) :
  forall acc w,
    (forall x, In x inputs -> ~ InputFails (store w) x) ->
    exists built w1,
      buildAnnotations c u t inputs acc w = (Normal (ok built), w1).
Proof.
  induction inputs as [|x rest IH]; simpl; intros acc w Hall; [eauto |].
  destruct (buildAnnotation_complete c u t x w) as [a ->]; [auto |].
  apply IH. intros y Hy. simpl. auto.
Qed.

(** The loop stops at the first input that fails: the inputs before it
    only use up generated ids, the inputs after it are not looked at. *)
Lemma buildAnnotations_first_failure (c : CuratorId.t) (u : URI.t)
  (t : AnnotationTemplateId.t) (x : AnnotationInput)
  (rest : list AnnotationInput) (good : list AnnotationInput) :
  forall acc w,
    (forall y, In y good -> ~ InputFails (store w) y) ->
    exists acc' w',
      quiet w w'
      /\ buildAnnotations c u t (good ++ x :: rest) acc w
         = match buildAnnotation c u t x w' with
           | (Normal (ok a), w'') =>
               buildAnnotations c u t rest (acc' ++ [a]) w''
           | (Normal (err e), w'') => (Normal (err e), w'')
           | (Thrown e, w'') => (Thrown e, w'')
           end.
Proof.
  induction good as [|y good IH]; simpl; intros acc w Hall.
  - exists acc, w. split; [apply quiet_refl |].
    destruct (buildAnnotation c u t x w) as [[[a | e] | e] w0]; reflexivity.
  - destruct (buildAnnotation_complete c u t y w) as [a ->]; [auto |].
    destruct (IH (acc ++ [a]) (tick w)) as (acc' & w' & Hq & Heq);
      [intros z Hz; simpl; auto |].
    exists acc', w'. split; [| exact Heq].
    apply quiet_trans with (tick w); [apply quiet_tick, quiet_refl | exact Hq].
Qed.

(** When no step of the preparation fails, the preparation succeeds. *)
Lemma not_fails_Prepares
  (request : CreateAndPublishAnnotationsFromTemplateDTO) (w : World) :
  ~ PreparationFails request w ->
  exists batch w1, Prepares request w batch w1.
Proof.
  intros Hno. unfold Prepares.
  destruct (CuratorId_create (curatorId request)) as [c | ec] eqn:Hc;
    [| exfalso; apply Hno; eapply InvalidCuratorId; eauto].
  destruct (URI.create (url request)) as [[u | eu] | eu] eqn:Hu;
    [| exfalso; apply Hno; eapply InvalidUrl; eauto
     | exfalso; exact (URI_create_not_thrown _ _ Hu)].
  destruct (AnnotationTemplateId_create (templateId request)) as [t | et]
    eqn:Ht; [| exfalso; apply Hno; eapply InvalidTemplateId; eauto].
  destruct (template_findById (store w) t) as [[tpl |] | e] eqn:Htpl;
    [| exfalso; apply Hno; eapply TemplateMissing; eauto
     | exfalso; apply Hno; eapply TemplateLookupThrows; eauto].
  destruct (buildAnnotations_complete c u t (annotations request) [] w)
    as (built & w1 & Hb).
  { intros x Hx Hfail. apply Hno. eapply SomeInputFails; eauto. }
  destruct (AnnotationsFromTemplate.create
              (AnnotationsFromTemplate.mk built tpl c (newDate (generated w1))))
    as [batch | e] eqn:Hcreate;
    [| exfalso; apply Hno; eapply BatchRefused; eauto].
  exists batch, w1, c, u, t, tpl, built. repeat split; assumption.
Qed.

(** What is left of [execute] after the preparation starts with the call
    of the publisher. *)
Lemma publishAndPersist_trace (batch : AnnotationsFromTemplate.t)
  (w : World) :
  exists more,
    trace (snd (publishAndPersist batch w))
    = trace w ++ EvPublish batch :: more.
Proof.
  unfold publishAndPersist, callPublish.
  destruct (publisher_publish (publisher w) batch) as [p' [[ids | e] | e]];
    simpl; [| exists []; reflexivity | exists []; reflexivity].
  destruct (AnnotationsFromTemplate.markAllAnnotationsAsPublished batch ids)
    as [[? | ?] marked]; simpl; [| exists []; reflexivity].
  destruct (saveAll _ _) as [[[] | e] w3] eqn:Hsave; simpl.
  - destruct (saveAll_trace _ _ _ _ Hsave) as (n & _ & Htrace & _).
    rewrite Htrace. simpl. rewrite <- app_assoc. eauto.
  - destruct (saveAll_trace _ _ _ _ Hsave) as (n & _ & Htrace & _).
    rewrite Htrace. simpl. rewrite <- app_assoc. eauto.
Qed.

(** X18: [execute] calls the publisher exactly when no step of the
    preparation fails (the curatorId, url and templateId are valid, the
    template is found, every input gives an annotation, the batch is
    accepted); the call of the publisher is then the first call it
    makes. *)
Theorem execute_publishes_iff_prepared
  (request : CreateAndPublishAnnotationsFromTemplateDTO) (w : World) :
  (exists batch more,
      trace (snd (execute request w)) = trace w ++ EvPublish batch :: more)
  <-> ~ PreparationFails request w.
Proof.
  split.
  - intros (batch & more & Htrace) Hfail.
    destruct (execute_cases request w)
      as [(b & w1 & Hprep & _) | (_ & _ & (_ & _ & Hq))].
    + exact (PreparationFails_not_Prepares _ _ Hfail _ _ Hprep).
    + rewrite Hq in Htrace.
      rewrite <- (app_nil_r (trace w)) in Htrace at 1.
      apply app_inv_head in Htrace. discriminate.
  - intros Hno. destruct (not_fails_Prepares _ _ Hno) as (b0 & w0 & Hprep0).
    destruct (execute_cases request w)
      as [(b & w1 & Hprep & (_ & _ & Hq) & Hex) | (Hnone & _)];
      [| exfalso; exact (Hnone _ _ Hprep0)].
    rewrite Hex.
    destruct (publishAndPersist_trace b (tick w1)) as (more & Htrace).
    exists b, more. rewrite Htrace. simpl. rewrite Hq. reflexivity.
Qed.

(** X19: the error that [execute] returns for the annotation inputs is
    that of the first input that fails, whatever the inputs after it
    are: a field that is not found, or a declared type that is not the
    field's, is reported with that input's field id or types in the
    message, and no call has been made. *)
Theorem execute_first_failing_input
  (request : CreateAndPublishAnnotationsFromTemplateDTO) (w : World)
  (c : CuratorId.t) (u : URI.t) (t : AnnotationTemplateId.t)
  (tpl : AnnotationTemplate.t)
  (good : list AnnotationInput) (x : AnnotationInput)
  (rest : list AnnotationInput) (fid : AnnotationFieldId.t) :
  CuratorId_create (curatorId request) = ok c ->
  URI.create (url request) = Normal (ok u) ->
  AnnotationTemplateId_create (templateId request) = ok t ->
  template_findById (store w) t = Normal (Some tpl) ->
  annotations request = good ++ x :: rest ->
  (forall y, In y good -> ~ InputFails (store w) y) ->
  AnnotationFieldId_create (annotationFieldId x) = ok fid ->
  (field_findById (store w) fid = Normal None ->
   fst (execute request w)
   = err (AnnotationCreationFailed
            ("Annotation field with ID " ++ annotationFieldId x
             ++ " not found"))
   /\ quiet w (snd (execute request w)))
  /\ (forall f,
        field_findById (store w) fid = Normal (Some f) ->
        typeValue (definitionType f) <> type x ->
        fst (execute request w)
        = err (AnnotationCreationFailed
                 ("Type mismatch: Field expects "
                  ++ typeValue (definitionType f)
                  ++ " but got " ++ type x))
        /\ quiet w (snd (execute request w))).
Proof.
  intros Hc Hu Ht Htpl Hin Hgood Hfid.
  destruct (buildAnnotations_first_failure c u t x rest good [] w Hgood)
    as (acc' & w' & Hq & Hrun).
  rewrite <- Hin in Hrun.
  pose proof Hq as (Hs & _).
  split.
  - intros Hnone. unfold execute. rewrite Hu, Hc, Ht, Htpl, Hrun.
    unfold buildAnnotation. rewrite Hfid, Hs, Hnone.
    split; [reflexivity | exact Hq].
  - intros f Hf Hty. unfold execute. rewrite Hu, Hc, Ht, Htpl, Hrun.
    unfold buildAnnotation. rewrite Hfid, Hs, Hf.
    apply String.eqb_neq in Hty. rewrite Hty.
    split; [reflexivity | exact Hq].
Qed.

End UseCaseOrder.

(** X17 on the sample collaborators: a curator id that is not a DID, and
    a template that the store does not hold. *)
Lemma execute_first_checks_witness :
  fst (@CreateAndPublishAnnotationsFromTemplateUseCase.execute
         Sample.platform Sample.domain Sample.collaborators
         (@CreateAndPublishAnnotationsFromTemplateUseCase.mkDTO
            Sample.domain Sample.collaborators
            "curator123" "https://example.com/resource" "template-9" [])
         Sample.world)
  = err (CreateAndPublishAnnotationsFromTemplateErrors.AnnotationCreationFailed
           "Invalid common properties")
  /\ fst (@CreateAndPublishAnnotationsFromTemplateUseCase.execute
            Sample.platform Sample.domain Sample.collaborators
            (@CreateAndPublishAnnotationsFromTemplateUseCase.mkDTO
               Sample.domain Sample.collaborators
               "did:plc:curator123" "https://example.com/resource"
               "template-9" [Sample.input "field-9" "rating" 4])
            Sample.world)
     = err (CreateAndPublishAnnotationsFromTemplateErrors.TemplateNotFound
              "template-9").
Proof.
  split.
  - rewrite (proj1 (@execute_first_checks Sample.platform Sample.domain
                      Sample.collaborators _ Sample.world));
      [reflexivity | left; reflexivity].
  - destruct (proj2 (@execute_first_checks Sample.platform Sample.domain
                       Sample.collaborators
                       (@CreateAndPublishAnnotationsFromTemplateUseCase.mkDTO
                          Sample.domain Sample.collaborators
                          "did:plc:curator123" "https://example.com/resource"
                          "template-9" [Sample.input "field-9" "rating" 4])
                       Sample.world)
                (CuratorId.mk "did:plc:curator123") Sample.resource
                (AnnotationTemplateId.mk "template-9"))
      as [Hex _];
      [reflexivity | vm_compute; reflexivity | reflexivity | reflexivity |].
    rewrite Hex. reflexivity.
Defined.

(** X18 on the sample collaborators: the request of a rating reaches the
    publisher, so no step of its preparation fails. *)
Lemma execute_publishes_iff_prepared_witness :
  ~ @PreparationFails Sample.platform Sample.domain Sample.collaborators
      (Sample.request [Sample.input "field-1" "rating" 4]) Sample.world.
Proof.
  apply (proj1 (@execute_publishes_iff_prepared Sample.platform Sample.domain
                  Sample.collaborators
                  (Sample.request [Sample.input "field-1" "rating" 4])
                  Sample.world)).
  eexists. eexists. vm_compute. reflexivity.
Defined.

(** X19 on the sample collaborators: after a good rating, a dyad field
    declared as a rating is what the error reports, not the unknown field
    of the input after it. *)
Lemma execute_first_failing_input_witness :
  fst (@CreateAndPublishAnnotationsFromTemplateUseCase.execute
         Sample.platform Sample.domain Sample.collaborators
         (Sample.request
            [Sample.input "field-1" "rating" 4;
             Sample.input "field-2" "rating" 7;
             Sample.input "field-9" "rating" 1])
         Sample.world)
  = err (CreateAndPublishAnnotationsFromTemplateErrors.AnnotationCreationFailed
           "Type mismatch: Field expects dyad but got rating").
Proof.
  destruct (@execute_first_failing_input Sample.platform Sample.domain
              Sample.collaborators
              (Sample.request
                 [Sample.input "field-1" "rating" 4;
                  Sample.input "field-2" "rating" 7;
                  Sample.input "field-9" "rating" 1])
              Sample.world
              (CuratorId.mk "did:plc:curator123") Sample.resource
              (AnnotationTemplateId.mk "template-1") Sample.template
              [Sample.input "field-1" "rating" 4]
              (Sample.input "field-2" "rating" 7)
              [Sample.input "field-9" "rating" 1]
              (AnnotationFieldId.mk "field-2"))
    as [_ Hmismatch].
  - reflexivity.
  - vm_compute. reflexivity.
  - reflexivity.
  - reflexivity.
  - reflexivity.
  - intros y [<- | []].
    destruct (@CreateAndPublishAnnotationsFromTemplateUseCase.buildAnnotation
                Sample.domain Sample.collaborators
                (CuratorId.mk "did:plc:curator123") Sample.resource
                (AnnotationTemplateId.mk "template-1")
                (Sample.input "field-1" "rating" 4) Sample.world)
      as [r w'] eqn:Hb.
    destruct r as [[a | e] | e];
      [| vm_compute in Hb; discriminate Hb | vm_compute in Hb; discriminate Hb].
    exact (proj1 (@buildAnnotation_ok Sample.domain Sample.collaborators
                    _ _ _ _ _ _ _ Hb)).
  - reflexivity.
  - destruct (Hmismatch Sample.dyadField) as [Hex _];
      [reflexivity | discriminate |].
    rewrite Hex. reflexivity.
Defined.
